(** * ChargePoint: the station engine of the OCPP charge-point simulator

    A shallow embedding of [ChargePoint.ts] (class [ChargePoint]) and of the
    collaborators it drives.  The engine object, the host's interval table
    and the observable calls on the collaborators (transport, message
    handler, logger, registered callbacks) live in one [World]; every method
    of the class is a computation in a small state-and-exception monad over
    that world. *)

From Stdlib Require Import ZArith String Ascii List QArith DecimalString DecimalZ.
From stdpp Require Import base decidable option list strings gmap sorting.

Local Open Scope Z_scope.
Local Open Scope string_scope.
Local Open Scope list_scope.

(** ** OcppTypes *)

(** Modelled from the spec: the enum [OCPPStatus] of [OcppTypes.ts], which is
    not among the sources; the nine status values are those of the data
    model. *)
Inductive OCPPStatus :=
| Available | Preparing | Charging | SuspendedEVSE | SuspendedEV
| Finishing | Reserved | Unavailable | Faulted.

(** Modelled from the spec: the string union [OCPPAvailability] of
    [OcppTypes.ts]; the code compares it with ["Inoperative"] and
    ["Operative"]. *)
Inductive OCPPAvailability := Operative | Inoperative.

(** Modelled from the spec: the boot payload is identification data the
    engine stores and forwards without looking inside. *)
Definition BootNotification := list (string * string).

#[global] Instance OCPPStatus_eq_dec : EqDecision OCPPStatus.
Proof. solve_decision. Defined.
#[global] Instance OCPPAvailability_eq_dec : EqDecision OCPPAvailability.
Proof. solve_decision. Defined.

(** ** Host values *)

(** A JavaScript number that holds an integer (ids, meter readings in Wh,
    seconds, close codes).  JavaScript numbers are doubles: the model is
    exact on the integers of [Number_exact] below, and the statements about
    readings and their texts are made for those. *)
Abbreviation Number := Z (only parsing).

(** An instant, as [new Date()] reads it from the host clock. *)
Abbreviation Date := Z (only parsing).

(** The handle [setInterval] returns: a positive integer in a browser, hence
    always truthy. *)
Abbreviation TimerId := positive (only parsing).

(** A function the embedding application registers as an observer. *)
Abbreviation Callback := nat (only parsing).

(** [n.toString()] and [`${n}`] for an integer [n]: decimal digits, with a
    leading minus sign below zero.  This is the form JavaScript prints for
    an integer below 10^21 in absolute value; from there on it prints an
    exponent, which the model does not. *)
Definition Number_toString (n : Number) : string :=
  NilZero.string_of_int (Z.to_int n).

(** The integers of at most 15 decimal digits.  On them the model computes
    what JavaScript computes: each is a double; the sum of two of them, if
    it is one of them again, is the double the addition returns;
    [n.toString()] prints the digits; and [(n / 1000).toString()] prints the
    quotient itself, because a decimal of at most 15 significant digits is
    the shortest one that reads back as the double nearest to it.  Beyond
    them additions round (from 2^53 on) and the printed quotient loses
    digits (from about 8.8e15 on). *)
Definition Number_exact (n : Number) : Prop :=
  -1000000000000000 < n < 1000000000000000.

(** ** Transaction.ts *)

(** Modelled from the spec: the interface [Transaction]; the fields are those
    of the object literal in [startTransaction]. *)
Record Transaction := {
  tx_id : Number;
  tx_connectorId : Number;
  tx_tagId : string;
  tx_meterStart : Number;
  tx_meterStop : option Number;
  tx_startTime : Date;
  tx_stopTime : option Date;
  tx_meterSent : bool;
}.

Definition tx_set_id (v : Number) (t : Transaction) : Transaction :=
  {| tx_id := v; tx_connectorId := tx_connectorId t; tx_tagId := tx_tagId t;
     tx_meterStart := tx_meterStart t; tx_meterStop := tx_meterStop t;
     tx_startTime := tx_startTime t; tx_stopTime := tx_stopTime t;
     tx_meterSent := tx_meterSent t |}.

Definition tx_set_meterStop (v : option Number) (t : Transaction) : Transaction :=
  {| tx_id := tx_id t; tx_connectorId := tx_connectorId t; tx_tagId := tx_tagId t;
     tx_meterStart := tx_meterStart t; tx_meterStop := v;
     tx_startTime := tx_startTime t; tx_stopTime := tx_stopTime t;
     tx_meterSent := tx_meterSent t |}.

Definition tx_set_stopTime (v : option Date) (t : Transaction) : Transaction :=
  {| tx_id := tx_id t; tx_connectorId := tx_connectorId t; tx_tagId := tx_tagId t;
     tx_meterStart := tx_meterStart t; tx_meterStop := tx_meterStop t;
     tx_startTime := tx_startTime t; tx_stopTime := v;
     tx_meterSent := tx_meterSent t |}.

Definition tx_set_meterSent (v : bool) (t : Transaction) : Transaction :=
  {| tx_id := tx_id t; tx_connectorId := tx_connectorId t; tx_tagId := tx_tagId t;
     tx_meterStart := tx_meterStart t; tx_meterStop := tx_meterStop t;
     tx_startTime := tx_startTime t; tx_stopTime := tx_stopTime t;
     tx_meterSent := v |}.

(** ** Connector.ts *)

(** Modelled from the spec: the class [Connector], which is not among the
    sources.  It starts [Unavailable] and [Operative] with a meter reading of
    0 and no transaction, and holds one subscriber slot each for status,
    meter-value and transaction-id changes. *)
Record Connector := {
  c_id : Number;
  c_status : OCPPStatus;
  c_availability : OCPPAvailability;
  c_meterValue : Number;
  c_transaction : option Transaction;
  c_transactionIDChangeCallbacks : option Callback;
  c_statusChangeCallbacks : option Callback;
  c_meterValueChangeCallbacks : option Callback;
}.

Definition new_Connector (id : Number) : Connector :=
  {| c_id := id; c_status := Unavailable; c_availability := Operative;
     c_meterValue := 0; c_transaction := None;
     c_transactionIDChangeCallbacks := None;
     c_statusChangeCallbacks := None;
     c_meterValueChangeCallbacks := None |}.

Definition c_set_status (v : OCPPStatus) (c : Connector) : Connector :=
  {| c_id := c_id c; c_status := v; c_availability := c_availability c;
     c_meterValue := c_meterValue c; c_transaction := c_transaction c;
     c_transactionIDChangeCallbacks := c_transactionIDChangeCallbacks c;
     c_statusChangeCallbacks := c_statusChangeCallbacks c;
     c_meterValueChangeCallbacks := c_meterValueChangeCallbacks c |}.

Definition c_set_availability (v : OCPPAvailability) (c : Connector) : Connector :=
  {| c_id := c_id c; c_status := c_status c; c_availability := v;
     c_meterValue := c_meterValue c; c_transaction := c_transaction c;
     c_transactionIDChangeCallbacks := c_transactionIDChangeCallbacks c;
     c_statusChangeCallbacks := c_statusChangeCallbacks c;
     c_meterValueChangeCallbacks := c_meterValueChangeCallbacks c |}.

Definition c_set_meterValue (v : Number) (c : Connector) : Connector :=
  {| c_id := c_id c; c_status := c_status c; c_availability := c_availability c;
     c_meterValue := v; c_transaction := c_transaction c;
     c_transactionIDChangeCallbacks := c_transactionIDChangeCallbacks c;
     c_statusChangeCallbacks := c_statusChangeCallbacks c;
     c_meterValueChangeCallbacks := c_meterValueChangeCallbacks c |}.

Definition c_set_transaction (v : option Transaction) (c : Connector) : Connector :=
  {| c_id := c_id c; c_status := c_status c; c_availability := c_availability c;
     c_meterValue := c_meterValue c; c_transaction := v;
     c_transactionIDChangeCallbacks := c_transactionIDChangeCallbacks c;
     c_statusChangeCallbacks := c_statusChangeCallbacks c;
     c_meterValueChangeCallbacks := c_meterValueChangeCallbacks c |}.

Definition c_set_transactionIDChangeCallbacks (v : option Callback) (c : Connector) : Connector :=
  {| c_id := c_id c; c_status := c_status c; c_availability := c_availability c;
     c_meterValue := c_meterValue c; c_transaction := c_transaction c;
     c_transactionIDChangeCallbacks := v;
     c_statusChangeCallbacks := c_statusChangeCallbacks c;
     c_meterValueChangeCallbacks := c_meterValueChangeCallbacks c |}.

Definition c_set_statusChangeCallbacks (v : option Callback) (c : Connector) : Connector :=
  {| c_id := c_id c; c_status := c_status c; c_availability := c_availability c;
     c_meterValue := c_meterValue c; c_transaction := c_transaction c;
     c_transactionIDChangeCallbacks := c_transactionIDChangeCallbacks c;
     c_statusChangeCallbacks := v;
     c_meterValueChangeCallbacks := c_meterValueChangeCallbacks c |}.

Definition c_set_meterValueChangeCallbacks (v : option Callback) (c : Connector) : Connector :=
  {| c_id := c_id c; c_status := c_status c; c_availability := c_availability c;
     c_meterValue := c_meterValue c; c_transaction := c_transaction c;
     c_transactionIDChangeCallbacks := c_transactionIDChangeCallbacks c;
     c_statusChangeCallbacks := c_statusChangeCallbacks c;
     c_meterValueChangeCallbacks := v |}.

(** ** Telemetry values (the argument type of [sendDetailedMeterValue]) *)

Inductive MeterUnit := U_Wh | U_kWh | U_W | U_kW | U_A | U_V | U_Celcius | U_Percent.
Inductive Phase := L1 | L2 | L3.
Inductive Location := Outlet | EV.
Inductive ValueFormat := Raw | SignedData.
Inductive Measurand :=
| Energy_Active_Import_Register | Power_Active_Import | Power_Offered
| Current_Import | Voltage | Temperature | SoC | RPM.

#[global] Instance Measurand_eq_dec : EqDecision Measurand.
Proof. solve_decision. Defined.

Record SampledValue := {
  sv_unit : option MeterUnit;
  sv_phase : option Phase;
  sv_value : string;
  sv_format : option ValueFormat;
  sv_location : option Location;
  sv_measurand : Measurand;
}.

Record MeterValue := {
  mv_timestamp : Date;
  mv_sampledValue : list SampledValue;
}.

Inductive MeterValueFormat := detailed | simple.

(** The three decimals of a quotient by 1000, without trailing zeros; [r] is
    the remainder, between 1 and 999. *)
Definition thousandths_toString (r : Number) : string :=
  let d1 := Number_toString (r / 100) in
  let d2 := Number_toString (r / 10 mod 10) in
  let d3 := Number_toString (r mod 10) in
  if decide (r mod 10 ≠ 0) then d1 +:+ d2 +:+ d3
  else if decide (r / 10 mod 10 ≠ 0) then d1 +:+ d2
  else d1.

(** [(meterValue / 1000).toString()] for an integer reading that is
    [Number_exact]: the quotient is a decimal with at most three places and
    at most 15 significant digits, so the shortest decimal that reads back
    as the same double, which is what [toString] prints, is that decimal
    itself.  For larger readings JavaScript prints fewer digits than this
    function. *)
Definition Number_div1000_toString (meterValue : Number) : string :=
  let a := Z.abs meterValue in
  (if decide (meterValue < 0) then "-" else "")
  +:+ Number_toString (a / 1000)
  +:+ (if decide (a mod 1000 = 0) then "" else "." +:+ thousandths_toString (a mod 1000)).

(** ** The engine object *)

(** [AutoMeterValueSetting] as [Config.ts] declares it; the engine reads
    [interval] and [value] only. *)
Record AutoMeterValueSetting := {
  enabled : bool;
  interval : Number;
  value : Number;
}.

Record ChargePoint := {
  _id : string;
  _bootNotification : BootNotification;
  _connectors : gmap Z Connector;
  _wsUrl : string;
  _autoMeterValueSetting : option AutoMeterValueSetting;
  _autoMeterValueIntervals : gmap Z TimerId;
  _meterValueFormat : MeterValueFormat;
  _status : OCPPStatus;
  _error : string;
  _errorCallback : option Callback;
  _heartbeat : option TimerId;
  _statusChangeCallback : option Callback;
  _availabilityChangeCallbacks : gmap Z Callback;
}.

(** What an interval registered with [setInterval] runs at each tick. *)
Inductive TimerTask :=
| HeartbeatTick
| AutoMeterValueTick (connectorId : Number) (value : Number).

Record Interval := {
  iv_task : TimerTask;
  iv_delay : Number;
}.

(** The calls that leave the engine, in the order they are made: to the
    logger, to the transport, to the message handler and to the registered
    subscribers.  [ConnectorStatusWrite] records that the setter of a
    connector's [status] ran. *)
Inductive Event :=
| LogInfo (message : string)
| LogError (message : string)
| WsConnect
| WsDisconnect
| SendBootNotification (payload : BootNotification)
| SendAuthorize (tagId : string)
| SendStartTransaction (transaction : Transaction) (connectorId : Number)
| SendStopTransaction (transaction : Transaction) (connectorId : Number)
| SendHeartbeat
| SendStatusNotification (connectorId : Number) (status : OCPPStatus)
| SendMeterValue (transactionId : option Number) (connectorId : Number) (data : MeterValue)
| ConnectorStatusWrite (connectorId : Number) (status : OCPPStatus)
| CallStatusChange (cb : Callback) (status : OCPPStatus)
| CallError (cb : Callback) (error : string)
| CallAvailabilityChange (cb : Callback) (availability : OCPPAvailability)
| CallConnectorStatusChange (cb : Callback) (status : OCPPStatus)
| CallMeterValueChange (cb : Callback) (meterValue : Number)
| CallTransactionIDChange (cb : Callback) (transactionId : option Number).

(** The engine together with its host: the table of live intervals, the next
    handle [setInterval] hands out, the clock, and the calls made so far. *)
Record World := {
  cp : ChargePoint;
  intervals : gmap TimerId Interval;
  next_timer : TimerId;
  now : Date;
  trace : list Event;
}.

(** ** Field updates *)

Definition cp_set_connectors (v : gmap Z Connector) (p : ChargePoint) : ChargePoint :=
  {| _id := _id p; _bootNotification := _bootNotification p; _connectors := v;
     _wsUrl := _wsUrl p; _autoMeterValueSetting := _autoMeterValueSetting p;
     _autoMeterValueIntervals := _autoMeterValueIntervals p;
     _meterValueFormat := _meterValueFormat p; _status := _status p;
     _error := _error p; _errorCallback := _errorCallback p;
     _heartbeat := _heartbeat p; _statusChangeCallback := _statusChangeCallback p;
     _availabilityChangeCallbacks := _availabilityChangeCallbacks p |}.

Definition cp_set_autoMeterValueIntervals (v : gmap Z TimerId) (p : ChargePoint) : ChargePoint :=
  {| _id := _id p; _bootNotification := _bootNotification p; _connectors := _connectors p;
     _wsUrl := _wsUrl p; _autoMeterValueSetting := _autoMeterValueSetting p;
     _autoMeterValueIntervals := v;
     _meterValueFormat := _meterValueFormat p; _status := _status p;
     _error := _error p; _errorCallback := _errorCallback p;
     _heartbeat := _heartbeat p; _statusChangeCallback := _statusChangeCallback p;
     _availabilityChangeCallbacks := _availabilityChangeCallbacks p |}.

Definition cp_set_meterValueFormat (v : MeterValueFormat) (p : ChargePoint) : ChargePoint :=
  {| _id := _id p; _bootNotification := _bootNotification p; _connectors := _connectors p;
     _wsUrl := _wsUrl p; _autoMeterValueSetting := _autoMeterValueSetting p;
     _autoMeterValueIntervals := _autoMeterValueIntervals p;
     _meterValueFormat := v; _status := _status p;
     _error := _error p; _errorCallback := _errorCallback p;
     _heartbeat := _heartbeat p; _statusChangeCallback := _statusChangeCallback p;
     _availabilityChangeCallbacks := _availabilityChangeCallbacks p |}.

Definition cp_set_status (v : OCPPStatus) (p : ChargePoint) : ChargePoint :=
  {| _id := _id p; _bootNotification := _bootNotification p; _connectors := _connectors p;
     _wsUrl := _wsUrl p; _autoMeterValueSetting := _autoMeterValueSetting p;
     _autoMeterValueIntervals := _autoMeterValueIntervals p;
     _meterValueFormat := _meterValueFormat p; _status := v;
     _error := _error p; _errorCallback := _errorCallback p;
     _heartbeat := _heartbeat p; _statusChangeCallback := _statusChangeCallback p;
     _availabilityChangeCallbacks := _availabilityChangeCallbacks p |}.

Definition cp_set_error (v : string) (p : ChargePoint) : ChargePoint :=
  {| _id := _id p; _bootNotification := _bootNotification p; _connectors := _connectors p;
     _wsUrl := _wsUrl p; _autoMeterValueSetting := _autoMeterValueSetting p;
     _autoMeterValueIntervals := _autoMeterValueIntervals p;
     _meterValueFormat := _meterValueFormat p; _status := _status p;
     _error := v; _errorCallback := _errorCallback p;
     _heartbeat := _heartbeat p; _statusChangeCallback := _statusChangeCallback p;
     _availabilityChangeCallbacks := _availabilityChangeCallbacks p |}.

Definition cp_set_errorCallback (v : option Callback) (p : ChargePoint) : ChargePoint :=
  {| _id := _id p; _bootNotification := _bootNotification p; _connectors := _connectors p;
     _wsUrl := _wsUrl p; _autoMeterValueSetting := _autoMeterValueSetting p;
     _autoMeterValueIntervals := _autoMeterValueIntervals p;
     _meterValueFormat := _meterValueFormat p; _status := _status p;
     _error := _error p; _errorCallback := v;
     _heartbeat := _heartbeat p; _statusChangeCallback := _statusChangeCallback p;
     _availabilityChangeCallbacks := _availabilityChangeCallbacks p |}.

Definition cp_set_heartbeat (v : option TimerId) (p : ChargePoint) : ChargePoint :=
  {| _id := _id p; _bootNotification := _bootNotification p; _connectors := _connectors p;
     _wsUrl := _wsUrl p; _autoMeterValueSetting := _autoMeterValueSetting p;
     _autoMeterValueIntervals := _autoMeterValueIntervals p;
     _meterValueFormat := _meterValueFormat p; _status := _status p;
     _error := _error p; _errorCallback := _errorCallback p;
     _heartbeat := v; _statusChangeCallback := _statusChangeCallback p;
     _availabilityChangeCallbacks := _availabilityChangeCallbacks p |}.

Definition cp_set_statusChangeCallback (v : option Callback) (p : ChargePoint) : ChargePoint :=
  {| _id := _id p; _bootNotification := _bootNotification p; _connectors := _connectors p;
     _wsUrl := _wsUrl p; _autoMeterValueSetting := _autoMeterValueSetting p;
     _autoMeterValueIntervals := _autoMeterValueIntervals p;
     _meterValueFormat := _meterValueFormat p; _status := _status p;
     _error := _error p; _errorCallback := _errorCallback p;
     _heartbeat := _heartbeat p; _statusChangeCallback := v;
     _availabilityChangeCallbacks := _availabilityChangeCallbacks p |}.

Definition cp_set_availabilityChangeCallbacks (v : gmap Z Callback) (p : ChargePoint) : ChargePoint :=
  {| _id := _id p; _bootNotification := _bootNotification p; _connectors := _connectors p;
     _wsUrl := _wsUrl p; _autoMeterValueSetting := _autoMeterValueSetting p;
     _autoMeterValueIntervals := _autoMeterValueIntervals p;
     _meterValueFormat := _meterValueFormat p; _status := _status p;
     _error := _error p; _errorCallback := _errorCallback p;
     _heartbeat := _heartbeat p; _statusChangeCallback := _statusChangeCallback p;
     _availabilityChangeCallbacks := v |}.

Definition w_set_cp (v : ChargePoint) (w : World) : World :=
  {| cp := v; intervals := intervals w; next_timer := next_timer w;
     now := now w; trace := trace w |}.

Definition w_set_intervals (v : gmap TimerId Interval) (w : World) : World :=
  {| cp := cp w; intervals := v; next_timer := next_timer w;
     now := now w; trace := trace w |}.

Definition w_set_next_timer (v : TimerId) (w : World) : World :=
  {| cp := cp w; intervals := intervals w; next_timer := v;
     now := now w; trace := trace w |}.

Definition w_set_trace (v : list Event) (w : World) : World :=
  {| cp := cp w; intervals := intervals w; next_timer := next_timer w;
     now := now w; trace := v |}.

(** ** The monad of engine computations *)

Inductive JSError :=
| TypeError (message : string).

(** A call either returns a value or throws, in both cases leaving a
    world behind. *)
Inductive Outcome (A : Type) :=
| Returned (a : A) (w : World)
| Thrown (e : JSError) (w : World).
Arguments Returned {A} a w.
Arguments Thrown {A} e w.

Definition M (A : Type) : Type := World -> Outcome A.

#[global] Instance M_ret : MRet M := fun A a w => Returned a w.

#[global] Instance M_bind : MBind M := fun A B k m w =>
  match m w with
  | Returned a w' => k a w'
  | Thrown e w' => Thrown e w'
  end.

Definition throw {A} (e : JSError) : M A := fun w => Thrown e w.

Definition this : M ChargePoint := fun w => Returned (cp w) w.

Definition update_this (f : ChargePoint -> ChargePoint) : M unit :=
  fun w => Returned tt (w_set_cp (f (cp w)) w).

Definition emit (e : Event) : M unit :=
  fun w => Returned tt (w_set_trace (trace w ++ [e]) w).

Definition new_Date : M Date := fun w => Returned (now w) w.

(** The world a computation leaves, and the value it returns if it does. *)
Definition world_of {A} (o : Outcome A) : World :=
  match o with Returned _ w => w | Thrown _ w => w end.

Definition returned {A} (o : Outcome A) : option A :=
  match o with Returned a _ => Some a | Thrown _ _ => None end.

(** ** The host's timers *)

(** [setInterval(task, delay)]: registers the task under a fresh handle. *)
Definition setInterval (task : TimerTask) (delay : Number) : M TimerId :=
  fun w =>
    let h := next_timer w in
    Returned h
      (w_set_next_timer (Pos.succ h)
         (w_set_intervals (<[h := {| iv_task := task; iv_delay := delay |}]> (intervals w)) w)).

(** [clearInterval(h)]: forgets the interval; a handle that is not live is
    ignored. *)
Definition clearInterval (h : TimerId) : M unit :=
  fun w => Returned tt (w_set_intervals (delete h (intervals w)) w).

(** ** Logger and message handler: the calls are recorded *)

Definition logger_info (message : string) : M unit := emit (LogInfo message).
Definition logger_error (message : string) : M unit := emit (LogError message).

(** [when c m]: an [if] without [else]. *)
Definition when (c : bool) (m : M unit) : M unit := if c then m else mret tt.

(** [f?.(x)] and [if (f) f(x)] on an optional callback. *)
Definition call_if_set (f : option Callback) (e : Callback -> Event) : M unit :=
  match f with
  | Some cb => emit (e cb)
  | None => mret tt
  end.

(** [Map.prototype.forEach]: the constructor fills [_connectors] in the order
    1..N and nothing adds to it later, so insertion order is the order of the
    keys. *)
Definition Map_keys {V} (m : gmap Z V) : list Z :=
  merge_sort Z.le (elements (dom m)).

Fixpoint forEach {A} (l : list A) (body : A -> M unit) : M unit :=
  match l with
  | [] => mret tt
  | x :: l' => body x;; forEach l' body
  end.

Definition Map_entries {V} (m : gmap Z V) : list (Z * V) :=
  omap (fun k => (fun v => (k, v)) <$> m !! k) (Map_keys m).

(** ** Connector objects

    The engine holds each [Connector] object in [_connectors]; a reference to
    such an object is the key it is stored under, and an assignment to one of
    its properties rewrites the entry. *)

Definition Connector_write (key : Z) (f : Connector -> Connector) : M unit :=
  update_this (fun p => cp_set_connectors (alter f key (_connectors p)) p).

(** Modelled from the spec: the setter of [Connector.status], which stores the
    status and tells the connector's status subscriber. *)
Definition Connector_set_status (key : Z) (newStatus : OCPPStatus) : M unit :=
  p ← this;
  match _connectors p !! key with
  | Some c =>
      Connector_write key (c_set_status newStatus);;
      emit (ConnectorStatusWrite (c_id c) newStatus);;
      call_if_set (c_statusChangeCallbacks c)
        (fun cb => CallConnectorStatusChange cb newStatus)
  | None => mret tt
  end.

(** Modelled from the spec: the setter of [Connector.meterValue]. *)
Definition Connector_set_meterValue (key : Z) (meterValue : Number) : M unit :=
  p ← this;
  match _connectors p !! key with
  | Some c =>
      Connector_write key (c_set_meterValue meterValue);;
      call_if_set (c_meterValueChangeCallbacks c)
        (fun cb => CallMeterValueChange cb meterValue)
  | None => mret tt
  end.

(** Modelled from the spec: the setter of [Connector.transactionId], which
    changes nothing when the connector has no transaction. *)
Definition Connector_set_transactionId (key : Z) (transactionId : Number) : M unit :=
  p ← this;
  match _connectors p !! key with
  | Some c =>
      match c_transaction c with
      | Some t =>
          Connector_write key (c_set_transaction (Some (tx_set_id transactionId t)));;
          call_if_set (c_transactionIDChangeCallbacks c)
            (fun cb => CallTransactionIDChange cb (Some transactionId))
      | None => mret tt
      end
  | None => mret tt
  end.

(** An assignment to a property of [connector.transaction]. *)
Definition Transaction_write (key : Z) (f : Transaction -> Transaction) : M unit :=
  Connector_write key (fun c => c_set_transaction (f <$> c_transaction c) c).

(** ** class ChargePoint *)

Definition constructor (id : string) (bootNotification : BootNotification)
    (connectorCount : Number) (wsUrl : string)
    (autoMeterValueSetting : option AutoMeterValueSetting) : ChargePoint :=
  {| _id := id;
     _bootNotification := bootNotification;
     _connectors :=
       list_to_map ((fun i => (i, new_Connector i)) <$> seqZ 1 connectorCount);
     _wsUrl := wsUrl;
     _autoMeterValueSetting := autoMeterValueSetting;
     _autoMeterValueIntervals := ∅;
     _meterValueFormat := detailed;
     _status := Unavailable;
     _error := "";
     _errorCallback := None;
     _heartbeat := None;
     _statusChangeCallback := None;
     _availabilityChangeCallbacks := ∅ |}.

(** A freshly constructed engine in a host with no interval yet. *)
Definition new_World (p : ChargePoint) (clock : Date) : World :=
  {| cp := p; intervals := ∅; next_timer := 1%positive; now := clock; trace := [] |}.

(** *** Getters *)

Definition get_id : M string := p ← this; mret (_id p).
Definition get_status : M OCPPStatus := p ← this; mret (_status p).
Definition get_wsUrl : M string := p ← this; mret (_wsUrl p).
Definition get_connectorNumber : M nat := p ← this; mret (size (_connectors p)).
Definition get_error : M string := p ← this; mret (_error p).
Definition get_connectors : M (gmap Z Connector) := p ← this; mret (_connectors p).

Definition getConnector (connectorId : Number) : M (option Connector) :=
  p ← this; mret (_connectors p !! connectorId).

(** *** Setters *)

Definition set_error (error : string) : M unit :=
  update_this (cp_set_error error);;
  p ← this;
  call_if_set (_errorCallback p) (fun cb => CallError cb error).

Definition set_errorCallback (callback : Callback) : M unit :=
  update_this (cp_set_errorCallback (Some callback)).

Definition set_statusChangeCallback (callback : Callback) : M unit :=
  update_this (cp_set_statusChangeCallback (Some callback)).

Definition setConnectorTransactionIDChangeCallback (connectorId : Number)
    (callback : Callback) : M unit :=
  Connector_write connectorId (c_set_transactionIDChangeCallbacks (Some callback)).

Definition setConnectorStatusChangeCallback (connectorId : Number)
    (callback : Callback) : M unit :=
  Connector_write connectorId (c_set_statusChangeCallbacks (Some callback)).

Definition setConnectorMeterValueChangeCallback (connectorId : Number)
    (callback : Callback) : M unit :=
  Connector_write connectorId (c_set_meterValueChangeCallbacks (Some callback)).

Definition setAvailabilityChangeCallback (connectorId : Number)
    (callback : Callback) : M unit :=
  update_this (fun p =>
    cp_set_availabilityChangeCallbacks
      (<[connectorId := callback]> (_availabilityChangeCallbacks p)) p).

Definition set_status (status : OCPPStatus) : M unit :=
  update_this (cp_set_status status);;
  p ← this;
  call_if_set (_statusChangeCallback p) (fun cb => CallStatusChange cb status).

(** *** Status propagation *)

Definition not_found (connectorId : Number) : string :=
  "Connector " +:+ Number_toString connectorId +:+ " not found".

Definition updateConnectorStatus (connectorId : Number) (newStatus : OCPPStatus) : M unit :=
  connector ← getConnector connectorId;
  match connector with
  | Some _ =>
      Connector_set_status connectorId newStatus;;
      emit (SendStatusNotification connectorId newStatus)
  | None => logger_error (not_found connectorId)
  end.

Definition updateAllConnectorsStatus (newStatus : OCPPStatus) : M unit :=
  p ← this;
  forEach (Map_entries (_connectors p)) (fun '(key, connector) =>
    Connector_set_status key newStatus;;
    connectors ← get_connectors;
    forEach (Map_entries connectors) (fun '(key', _) =>
      Connector_set_status key' newStatus);;
    emit (SendStatusNotification (c_id connector) newStatus)).

(** *** Periodic scheduling *)

Definition sendHeartbeat : M unit := emit SendHeartbeat.

Definition startHeartbeat (period : Number) : M unit :=
  logger_info ("Setting heartbeat period to " +:+ Number_toString period +:+ "s");;
  p ← this;
  match _heartbeat p with
  | Some h => clearInterval h
  | None => mret tt
  end;;
  h ← setInterval HeartbeatTick (period * 1000);
  update_this (cp_set_heartbeat (Some h)).

Definition stopHeartbeat : M unit :=
  logger_info "Stopping heartbeat";;
  p ← this;
  match _heartbeat p with
  | Some h => clearInterval h
  | None => mret tt
  end.

Definition setMeterValue (connectorId : Number) (meterValue : Number) : M unit :=
  connector ← getConnector connectorId;
  match connector with
  | Some _ => Connector_set_meterValue connectorId meterValue
  | None => logger_error (not_found connectorId)
  end.

(** *** Telemetry *)

Definition setMeterValueFormat (format : MeterValueFormat) : M unit :=
  update_this (cp_set_meterValueFormat format).

Definition getMeterValueFormat : M MeterValueFormat :=
  p ← this; mret (_meterValueFormat p).

Definition sampled (unit : option MeterUnit) (phase : option Phase) (value : string)
    (format : option ValueFormat) (location : option Location)
    (measurand : Measurand) : SampledValue :=
  {| sv_unit := unit; sv_phase := phase; sv_value := value; sv_format := format;
     sv_location := location; sv_measurand := measurand |}.

Definition simple_sampledValue (meterValue : Number) : list SampledValue :=
  [ sampled (Some U_kWh) None (Number_div1000_toString meterValue) (Some Raw) None
      Energy_Active_Import_Register;
    sampled (Some U_kW) None "26.4" (Some Raw) None Power_Active_Import;
    sampled (Some U_Percent) None "66" (Some Raw) None SoC;
    sampled (Some U_Celcius) None "45" (Some Raw) None Temperature;
    sampled (Some U_A) None "79.89" (Some Raw) None Current_Import;
    sampled None None "0" (Some Raw) None RPM;
    sampled (Some U_V) None "330.1" (Some Raw) None Voltage ].

Definition detailed_sampledValue (meterValue : Number) : list SampledValue :=
  [ sampled (Some U_V) (Some L1) "236.7" None (Some Outlet) Voltage;
    sampled (Some U_V) (Some L2) "235.6" None (Some Outlet) Voltage;
    sampled (Some U_V) (Some L3) "236.7" None (Some Outlet) Voltage;
    sampled (Some U_A) (Some L1) "0.00" None (Some Outlet) Current_Import;
    sampled (Some U_A) (Some L2) "0.00" None (Some Outlet) Current_Import;
    sampled (Some U_A) (Some L3) "0.00" None (Some Outlet) Current_Import;
    sampled (Some U_W) None "2000" None (Some Outlet) Power_Active_Import;
    sampled (Some U_Percent) None "10" None (Some EV) SoC;
    sampled (Some U_W) None "22687" None (Some Outlet) Power_Offered;
    sampled (Some U_Wh) None (Number_toString meterValue) None (Some Outlet)
      Energy_Active_Import_Register ].

Definition generateDetailedMeterValues (meterValue : Number) : M MeterValue :=
  p ← this;
  match _meterValueFormat p with
  | simple =>
      t ← new_Date;
      mret {| mv_timestamp := t; mv_sampledValue := simple_sampledValue meterValue |}
  | detailed =>
      t ← new_Date;
      mret {| mv_timestamp := t; mv_sampledValue := detailed_sampledValue meterValue |}
  end.

Definition sendDetailedMeterValue (connectorId : Number) (meterValueData : MeterValue) : M unit :=
  connector ← getConnector connectorId;
  match connector with
  | Some c =>
      emit (SendMeterValue (tx_id <$> c_transaction c) connectorId meterValueData)
  | None => logger_error (not_found connectorId)
  end.

Definition sendMeterValue (connectorId : Number) : M unit :=
  connector ← getConnector connectorId;
  match connector with
  | Some c =>
      detailedMeterValues ← generateDetailedMeterValues (c_meterValue c);
      sendDetailedMeterValue connectorId detailedMeterValues
  | None => logger_error (not_found connectorId)
  end.

Definition sendCurrentDetailedMeterValue (connectorId : Number) : M unit :=
  connector ← getConnector connectorId;
  match connector with
  | Some c =>
      detailedMeterValues ← generateDetailedMeterValues (c_meterValue c);
      sendDetailedMeterValue connectorId detailedMeterValues
  | None => logger_error (not_found connectorId)
  end.

(** The callback [startAutoMeterValue] hands to [setInterval].  [connector]
    is the object [setMeterValue] has just written to, so the reading the
    snapshot is generated from is the updated one.  The sum is the one
    JavaScript computes as long as the reading, the step and the sum are
    [Number_exact]; sums of doubles round from 2^53 on. *)
Definition autoMeterValue_tick (connectorId : Number) (value : Number) : M unit :=
  connector ← getConnector connectorId;
  match connector with
  | Some c =>
      setMeterValue connectorId (c_meterValue c + value);;
      connector' ← getConnector connectorId;
      detailedMeterValues ←
        generateDetailedMeterValues (from_option c_meterValue (c_meterValue c) connector');
      sendDetailedMeterValue connectorId detailedMeterValues
  | None => mret tt
  end.

Definition startAutoMeterValue (connectorId : Number) (intervalSec : Number)
    (value : Number) : M unit :=
  intervalNum ← setInterval (AutoMeterValueTick connectorId value) (intervalSec * 1000);
  update_this (fun p =>
    cp_set_autoMeterValueIntervals
      (<[connectorId := intervalNum]> (_autoMeterValueIntervals p)) p).

Definition stopAutoMeterValue (connectorId : Number) : M unit :=
  p ← this;
  match _autoMeterValueIntervals p !! connectorId with
  | Some intervalNum =>
      clearInterval intervalNum;;
      update_this (fun p =>
        cp_set_autoMeterValueIntervals (delete connectorId (_autoMeterValueIntervals p)) p)
  | None => mret tt
  end.

(** One tick of the interval [h], if it is live: what the host's scheduler
    does when the delay has elapsed. *)
Definition fire (h : TimerId) : M unit :=
  fun w =>
    match intervals w !! h with
    | Some iv =>
        match iv_task iv with
        | HeartbeatTick => sendHeartbeat w
        | AutoMeterValueTick connectorId value => autoMeterValue_tick connectorId value w
        end
    | None => Returned tt w
    end.

(** *** Transactions *)

Definition Connector_get_meterValue (key : Z) : M (option Number) :=
  p ← this; mret (c_meterValue <$> _connectors p !! key).

Definition Connector_get_transaction (key : Z) : M (option Transaction) :=
  p ← this; mret (_connectors p !! key ≫= c_transaction).

(** The argument of [stopTransaction] and [cleanTransaction]: a connector id,
    or a reference to a [Connector] object.  The objects the engine is handed
    are its own, so a reference is [ByRef key] for the object held under
    [key]; [connector.id] is then the [c_id] of that object. *)
Inductive ConnectorOrId :=
| ById (connectorId : Number)
| ByRef (key : Z).

Definition startTransaction (tagId : string) (connectorId : Number) : M unit :=
  connector ← getConnector connectorId;
  match connector with
  | Some _ =>
      startTime ← new_Date;
      let transaction :=
        {| tx_id := 0; tx_connectorId := connectorId; tx_tagId := tagId;
           tx_meterStart := 0; tx_meterStop := None; tx_startTime := startTime;
           tx_stopTime := None; tx_meterSent := false |} in
      Connector_write connectorId (c_set_transaction (Some transaction));;
      emit (SendStartTransaction transaction connectorId);;
      updateConnectorStatus connectorId Preparing;;
      p ← this;
      match _autoMeterValueSetting p with
      | Some setting =>
          when (bool_decide (interval setting ≠ 0) && bool_decide (value setting ≠ 0))
            (startAutoMeterValue connectorId (interval setting) (value setting))
      | None => mret tt
      end
  | None => logger_error (not_found connectorId)
  end.

Definition cleanTransaction (connector : ConnectorOrId) : M unit :=
  p ← this;
  let '(connectorId, holder) :=
    match connector with
    | ById n => (n, n)
    | ByRef key => (from_option c_id key (_connectors p !! key), key)
    end in
  Transaction_write holder (tx_set_meterSent false);;
  updateConnectorStatus connectorId Finishing;;
  p ← this;
  match _autoMeterValueSetting p with
  | Some _ => stopAutoMeterValue connectorId
  | None => mret tt
  end.

Definition stopTransaction (connectorId : ConnectorOrId) : M unit :=
  p ← this;
  let '(connId, connector) :=
    match connectorId with
    | ById n => (n, (fun _ => n) <$> _connectors p !! n)
    | ByRef key => (from_option c_id key (_connectors p !! key), Some key)
    end in
  match connector with
  | Some key =>
      match _connectors p !! key ≫= c_transaction with
      | Some _ =>
          stopTime ← new_Date;
          Transaction_write key (tx_set_stopTime (Some stopTime));;
          meterValue ← Connector_get_meterValue key;
          Transaction_write key (tx_set_meterStop meterValue);;
          transaction ← Connector_get_transaction key;
          match transaction with
          | Some transaction => emit (SendStopTransaction transaction connId)
          | None => mret tt
          end;;
          cleanTransaction (ByRef key)
      | None =>
          throw (TypeError "Cannot set properties of null (setting 'stopTime')")
      end
  | None => logger_error ("Connector for id " +:+ Number_toString connId +:+ " not found")
  end;;
  updateConnectorStatus connId Available.

Definition setTransactionID (connectorId : Number) (transactionId : Number) : M unit :=
  connector ← getConnector connectorId;
  match connector with
  | Some _ => Connector_set_transactionId connectorId transactionId
  | None => logger_error (not_found connectorId)
  end.

(** *** Availability *)

Definition updateConnectorAvailability (connectorId : Number)
    (newAvailability : OCPPAvailability) : M bool :=
  connector ← getConnector connectorId;
  match connector with
  | None =>
      logger_error (not_found connectorId);;
      mret false
  | Some _ =>
      Connector_write connectorId (c_set_availability newAvailability);;
      match newAvailability with
      | Inoperative => updateConnectorStatus connectorId Unavailable
      | Operative => updateConnectorStatus connectorId Available
      end;;
      p ← this;
      call_if_set (_availabilityChangeCallbacks p !! connectorId)
        (fun cb => CallAvailabilityChange cb newAvailability);;
      mret true
  end.

(** *** Lifecycle *)

(** The [CloseEvent] of the transport: [code] is an unsigned short, between 0
    and 65535. *)
Record CloseEvent := {
  code : Number;
  reason : string;
}.

Definition boot : M unit :=
  p ← this;
  emit (SendBootNotification (_bootNotification p));;
  set_status Available;;
  updateAllConnectorsStatus Available;;
  set_error "".

Definition close_message (ev : CloseEvent) : string :=
  "WebSocket closed code: " +:+ Number_toString (code ev) +:+ " reason: " +:+ reason ev.

(** The two callbacks [connect] hands to the transport. *)
Definition connect_onOpen : M unit := boot.

Definition connect_onClose (ev : CloseEvent) : M unit :=
  set_status Unavailable;;
  updateAllConnectorsStatus Unavailable;;
  logger_error (close_message ev);;
  when (bool_decide (code ev ≠ 1005)) (set_error (close_message ev)).

Definition connect : M unit := emit WsConnect.

Definition disconnect : M unit :=
  logger_info "Disconnecting from WebSocket";;
  update_this (cp_set_status Unavailable);;
  emit WsDisconnect.

Definition reset : M unit := disconnect;; connect.

Definition authorize (tagId : string) : M unit := emit (SendAuthorize tagId).

(** * Vocabulary of the statements *)

(** ** Reading the trace *)

(** The availability subscribers called in a run of events, with the
    argument each one got. *)
Definition availability_calls (es : list Event) : list (Callback * OCPPAvailability) :=
  omap (fun e => match e with
                 | CallAvailabilityChange cb a => Some (cb, a)
                 | _ => None
                 end) es.

(** The calls to the station-wide status subscriber in a run of events. *)
Definition station_status_calls (es : list Event) : list (Callback * OCPPStatus) :=
  omap (fun e => match e with
                 | CallStatusChange cb s => Some (cb, s)
                 | _ => None
                 end) es.

(** What the status setter of a connector tells its subscriber. *)
Definition status_calls (c : Connector) (s : OCPPStatus) : list Event :=
  match c_statusChangeCallbacks c with
  | Some cb => [CallConnectorStatusChange cb s]
  | None => []
  end.

Definition is_status_write (e : Event) : bool :=
  match e with ConnectorStatusWrite _ _ => true | _ => false end.

Definition is_status_notification (e : Event) : bool :=
  match e with SendStatusNotification _ _ => true | _ => false end.

Definition is_meter_value (e : Event) : bool :=
  match e with SendMeterValue _ _ _ => true | _ => false end.

(** How many events of a run satisfy [p]. *)
Fixpoint count_events (p : Event -> bool) (es : list Event) : nat :=
  match es with
  | [] => 0
  | e :: es' => (if p e then 1 else 0) + count_events p es'
  end.

(** ** Live intervals *)

Definition is_heartbeat (iv : Interval) : bool :=
  match iv_task iv with HeartbeatTick => true | _ => false end.

Definition is_autoMeterValue_of (connectorId : Number) (iv : Interval) : bool :=
  match iv_task iv with
  | AutoMeterValueTick c _ => bool_decide (c = connectorId)
  | _ => false
  end.

(** The handles of the live intervals that run the given kind of task. *)
Definition live (p : Interval -> bool) (w : World) : list TimerId :=
  omap (fun '(h, iv) => if p iv then Some h else None) (map_to_list (intervals w)).

(** ** Values the methods build *)

(** The status [updateConnectorAvailability] forces for an availability. *)
Definition status_of_availability (a : OCPPAvailability) : OCPPStatus :=
  match a with
  | Inoperative => Unavailable
  | Operative => Available
  end.

(** The world after [f] has been applied to the connector under [k] and the
    events [es] have been recorded. *)
Definition connector_updated (k : Z) (f : Connector -> Connector) (es : list Event)
    (w : World) : World :=
  w_set_trace (trace w ++ es)
    (w_set_cp (cp_set_connectors (alter f k (_connectors (cp w))) (cp w)) w).

(** The transaction [startTransaction tagId connectorId] builds at instant
    [startTime]. *)
Definition fresh_transaction (tagId : string) (connectorId : Number) (startTime : Date)
    : Transaction :=
  {| tx_id := 0; tx_connectorId := connectorId; tx_tagId := tagId;
     tx_meterStart := 0; tx_meterStop := None; tx_startTime := startTime;
     tx_stopTime := None; tx_meterSent := false |}.

(** The auto-telemetry parameters that are configured and active: a setting
    with both [interval] and [value] different from zero. *)
Definition active_setting (p : ChargePoint) : option AutoMeterValueSetting :=
  match _autoMeterValueSetting p with
  | Some a => if decide (interval a ≠ 0 /\ value a ≠ 0) then Some a else None
  | None => None
  end.

(** The transaction [stopTransaction] forwards: stamped with the instant of
    the stop and the connector's reading. *)
Definition stopped (t : Transaction) (stopTime : Date) (meterValue : Number) : Transaction :=
  tx_set_meterStop (Some meterValue) (tx_set_stopTime (Some stopTime) t).

(** ** The global status update as a fold

    [updateAllConnectorsStatus] touches the connector map and the trace only.
    Its two nested loops are replayed on that pair: the map, and the events
    added so far. *)

Definition LoopState : Type := gmap Z Connector * list Event.

(** Writes the pair back into the world the method started from. *)
Definition put (st : LoopState) (w : World) : World :=
  w_set_trace (trace w ++ st.2) (w_set_cp (cp_set_connectors st.1 (cp w)) w).

(** One assignment [connector.status = s] on the object under [k]. *)
Definition write_status (s : OCPPStatus) (st : LoopState) (k : Z) : LoopState :=
  match st.1 !! k with
  | Some c =>
      (alter (c_set_status s) k st.1,
       st.2 ++ ConnectorStatusWrite (c_id c) s :: status_calls c s)
  | None => st
  end.

Definition write_all (s : OCPPStatus) (st : LoopState) (ks : list Z) : LoopState :=
  foldl (write_status s) st ks.

(** The inner loop, over the copy [this.connectors]. *)
Definition inner_loop (s : OCPPStatus) (st : LoopState) : LoopState :=
  foldl (fun st '(k, _) => write_status s st k) st (Map_entries st.1).

(** One round of the outer loop. *)
Definition outer_step (s : OCPPStatus) (st : LoopState) (e : Z * Connector) : LoopState :=
  let st' := inner_loop s (write_status s st e.1) in
  (st'.1, st'.2 ++ [SendStatusNotification (c_id e.2) s]).

Definition outer_loop (s : OCPPStatus) (st : LoopState) : LoopState :=
  foldl (outer_step s) st (Map_entries st.1).

(** ** What a method leaves alone *)

(** [keeps I m]: whatever world satisfying [I] the computation [m] starts
    in, the world it leaves -- by returning or by throwing -- satisfies [I]
    again. *)
Definition keeps (I : World -> Prop) {A} (m : M A) : Prop :=
  forall w, I w -> I (world_of (m w)).

(** The intervals and their registry are what they were, and no
    auto-telemetry setting is present. *)
Definition timers_frozen (ivs : gmap TimerId Interval) (reg : gmap Z TimerId)
    (w : World) : Prop :=
  intervals w = ivs
  /\ _autoMeterValueIntervals (cp w) = reg
  /\ _autoMeterValueSetting (cp w) = None.

(** After [stopTransaction k] no auto-telemetry interval of connector [k] is
    live. *)
Definition stop_cancels_autoMeterValue (w : World) (k : Number) : Prop :=
  live (is_autoMeterValue_of k) (world_of (stopTransaction (ById k) w)) = [].

(** ** Commands and reachable worlds *)

(** What can happen to an engine: a call of a public method or setter, one
    of the two callbacks handed to the transport, a tick of a live interval,
    or the clock moving on.  The getters, which change nothing, and the
    setter [loggingCallback], which writes a field of the [Logger] object
    only, are not commands. *)
Inductive Command :=
| Call_set_status (status : OCPPStatus)
| Call_set_error (error : string)
| Call_connect
| Call_boot
| Call_disconnect
| Call_reset
| Call_authorize (tagId : string)
| Call_startTransaction (tagId : string) (connectorId : Number)
| Call_stopTransaction (connectorId : ConnectorOrId)
| Call_cleanTransaction (connector : ConnectorOrId)
| Call_sendHeartbeat
| Call_startHeartbeat (period : Number)
| Call_stopHeartbeat
| Call_setMeterValue (connectorId : Number) (meterValue : Number)
| Call_sendMeterValue (connectorId : Number)
| Call_sendDetailedMeterValue (connectorId : Number) (meterValueData : MeterValue)
| Call_sendCurrentDetailedMeterValue (connectorId : Number)
| Call_setMeterValueFormat (format : MeterValueFormat)
| Call_startAutoMeterValue (connectorId : Number) (intervalSec : Number) (value : Number)
| Call_stopAutoMeterValue (connectorId : Number)
| Call_updateAllConnectorsStatus (newStatus : OCPPStatus)
| Call_updateConnectorStatus (connectorId : Number) (newStatus : OCPPStatus)
| Call_updateConnectorAvailability (connectorId : Number) (newAvailability : OCPPAvailability)
| Call_setTransactionID (connectorId : Number) (transactionId : Number)
| Call_set_errorCallback (callback : Callback)
| Call_set_statusChangeCallback (callback : Callback)
| Call_setConnectorTransactionIDChangeCallback (connectorId : Number) (callback : Callback)
| Call_setConnectorStatusChangeCallback (connectorId : Number) (callback : Callback)
| Call_setConnectorMeterValueChangeCallback (connectorId : Number) (callback : Callback)
| Call_setAvailabilityChangeCallback (connectorId : Number) (callback : Callback)
| Transport_open
| Transport_close (ev : CloseEvent)
| Tick (h : TimerId)
| Clock (t : Date).

Definition run (c : Command) : M unit :=
  match c with
  | Call_set_status status => set_status status
  | Call_set_error error => set_error error
  | Call_connect => connect
  | Call_boot => boot
  | Call_disconnect => disconnect
  | Call_reset => reset
  | Call_authorize tagId => authorize tagId
  | Call_startTransaction tagId connectorId => startTransaction tagId connectorId
  | Call_stopTransaction connectorId => stopTransaction connectorId
  | Call_cleanTransaction connector => cleanTransaction connector
  | Call_sendHeartbeat => sendHeartbeat
  | Call_startHeartbeat period => startHeartbeat period
  | Call_stopHeartbeat => stopHeartbeat
  | Call_setMeterValue connectorId meterValue => setMeterValue connectorId meterValue
  | Call_sendMeterValue connectorId => sendMeterValue connectorId
  | Call_sendDetailedMeterValue connectorId meterValueData =>
      sendDetailedMeterValue connectorId meterValueData
  | Call_sendCurrentDetailedMeterValue connectorId =>
      sendCurrentDetailedMeterValue connectorId
  | Call_setMeterValueFormat format => setMeterValueFormat format
  | Call_startAutoMeterValue connectorId intervalSec value =>
      startAutoMeterValue connectorId intervalSec value
  | Call_stopAutoMeterValue connectorId => stopAutoMeterValue connectorId
  | Call_updateAllConnectorsStatus newStatus => updateAllConnectorsStatus newStatus
  | Call_updateConnectorStatus connectorId newStatus =>
      updateConnectorStatus connectorId newStatus
  | Call_updateConnectorAvailability connectorId newAvailability =>
      updateConnectorAvailability connectorId newAvailability;; mret tt
  | Call_setTransactionID connectorId transactionId =>
      setTransactionID connectorId transactionId
  | Call_set_errorCallback callback => set_errorCallback callback
  | Call_set_statusChangeCallback callback => set_statusChangeCallback callback
  | Call_setConnectorTransactionIDChangeCallback connectorId callback =>
      setConnectorTransactionIDChangeCallback connectorId callback
  | Call_setConnectorStatusChangeCallback connectorId callback =>
      setConnectorStatusChangeCallback connectorId callback
  | Call_setConnectorMeterValueChangeCallback connectorId callback =>
      setConnectorMeterValueChangeCallback connectorId callback
  | Call_setAvailabilityChangeCallback connectorId callback =>
      setAvailabilityChangeCallback connectorId callback
  | Transport_open => connect_onOpen
  | Transport_close ev => connect_onClose ev
  | Tick h => fire h
  | Clock t => fun w =>
      Returned tt {| cp := cp w; intervals := intervals w; next_timer := next_timer w;
                     now := t; trace := trace w |}
  end.

(** The worlds an engine can be in: freshly constructed, or one command
    later -- whether the command returned or threw. *)
Inductive reachable : World -> Prop :=
| reachable_new id bootNotification connectorCount wsUrl autoMeterValueSetting clock :
    reachable
      (new_World (constructor id bootNotification connectorCount wsUrl autoMeterValueSetting)
         clock)
| reachable_run w c :
    reachable w -> reachable (world_of (run c w)).

(** Every connector is stored under its own id. *)
Definition ids_consistent (w : World) : Prop :=
  map_Forall (fun k c => c_id c = k) (_connectors (cp w)).

(** Every live handle was handed out before the next one. *)
Definition handles_fresh (w : World) : Prop :=
  map_Forall (fun h _ => (h < next_timer w)%positive) (intervals w).

(** A live heartbeat interval is the one the engine remembers. *)
Definition heartbeat_known (w : World) : Prop :=
  map_Forall (fun h iv => iv_task iv = HeartbeatTick -> _heartbeat (cp w) = Some h)
    (intervals w).

Definition well_formed (w : World) : Prop :=
  ids_consistent w /\ handles_fresh w /\ heartbeat_known w.

(** ** Reading a sampled value back *)

(** The text before the first point, and the text after it if there is a
    point. *)
Fixpoint split_point (s : string) : string * option string :=
  match s with
  | EmptyString => (EmptyString, None)
  | String a s' =>
      if Ascii.eqb a "." then (EmptyString, Some s')
      else let '(ip, fp) := split_point s' in (String a ip, fp)
  end.

(** The number a non-empty run of decimal digits denotes. *)
Definition digits_value (s : string) : option Z :=
  Z.of_uint <$> NilZero.uint_of_string s.

Definition unsigned_decimal (s : string) : option Q :=
  let '(ip, fp) := split_point s in
  match digits_value ip, fp with
  | Some i, None => Some (inject_Z i)
  | Some i, Some f =>
      match digits_value f with
      | Some u =>
          Some (Qplus (inject_Z i) (Qmake u (Pos.pow 10 (Pos.of_nat (String.length f)))))
      | None => None
      end
  | None, _ => None
  end.

(** The rational a decimal numeral denotes: an optional minus sign, digits,
    and optionally a point followed by digits. *)
Definition decimal_value (s : string) : option Q :=
  match s with
  | String a s' =>
      if Ascii.eqb a "-" then Qopp <$> unsigned_decimal s' else unsigned_decimal s
  | EmptyString => None
  end.

(** [s] is a numeral for [q]. *)
Definition denotes (s : string) (q : Q) : Prop :=
  exists q', decimal_value s = Some q' /\ (q' == q)%Q.

(** The readings of a snapshot for one measurand, and the others. *)
Definition readings_of (m : Measurand) (l : list SampledValue) : list SampledValue :=
  filter (fun r => sv_measurand r = m) l.

Definition readings_but (m : Measurand) (l : list SampledValue) : list SampledValue :=
  filter (fun r => sv_measurand r ≠ m) l.

(** The decimals [thousandths_toString] prints for [r] are [r]/1000. *)
Definition thousandths_ok (r : Z) : bool :=
  let f := thousandths_toString r in
  match digits_value f with
  | Some u => bool_decide (u * 1000 = r * Z.pos (Pos.pow 10 (Pos.of_nat (String.length f))))
  | None => false
  end.

(** The unsigned part of [(meterValue / 1000).toString()]. *)
Definition div1000_digits (a : Z) : string :=
  Number_toString (a / 1000)
  +:+ (if decide (a mod 1000 = 0) then "" else "." +:+ thousandths_toString (a mod 1000)).

(** ** Concrete stations *)

(** One connector, no auto-telemetry setting, just constructed. *)
Definition station1 : World :=
  new_World (constructor "CP1" [] 1 "ws://csms" None) 0.

(** Two connectors. *)
Definition station2 : World :=
  new_World (constructor "CP1" [] 2 "ws://csms" None) 0.

(** [station2] after [boot]. *)
Definition station2_booted : World := world_of (boot station2).

(** A close after a connection loss, and a close without a status code. *)
Definition close_1006 : CloseEvent := {| code := 1006; reason := "gone" |}.
Definition close_1005 : CloseEvent := {| code := 1005; reason := "" |}.

Definition interval_1_10 : Interval :=
  {| iv_task := AutoMeterValueTick 1 10; iv_delay := 1000 |}.

(** [station1] after [startAutoMeterValue(1, 1, 10)]. *)
Definition station1_ticking : World :=
  world_of (startAutoMeterValue 1 1 10 station1).

(** [station1] with an availability subscriber on connector 1. *)
Definition station1_observed : World :=
  world_of (setAvailabilityChangeCallback 1 7 station1).

(** [station1] on whose connector 1 an interval was started by hand, a
    transaction is running and the meter reads 500. *)
Definition station_manual_timer : World :=
  world_of ((startAutoMeterValue 1 1 10;;
             startTransaction "TAG1" 1;;
             setMeterValue 1 500) station1).

(** The same with the setting present: the interval was started by
    [startTransaction]. *)
Definition station_auto_timer : World :=
  world_of ((startTransaction "TAG1" 1;;
             setMeterValue 1 500)
            (new_World (constructor "CP1" [] 1 "ws://csms"
                          (Some {| enabled := true; interval := 1; value := 10 |})) 0)).

(** Connector 1 of both. *)
Definition connector_manual : Connector :=
  {| c_id := 1; c_status := Preparing; c_availability := Operative;
     c_meterValue := 500;
     c_transaction := Some (fresh_transaction "TAG1" 1 0);
     c_transactionIDChangeCallbacks := None;
     c_statusChangeCallbacks := None;
     c_meterValueChangeCallbacks := None |}.

(** The transaction of [station_auto_timer] once the message handler has
    marked it as sent, the connector that holds it, and the station. *)
Definition transaction_sent : Transaction :=
  {| tx_id := 0; tx_connectorId := 1; tx_tagId := "TAG1"; tx_meterStart := 0;
     tx_meterStop := None; tx_startTime := 0; tx_stopTime := None;
     tx_meterSent := true |}.

Definition connector_sent : Connector :=
  {| c_id := 1; c_status := Preparing; c_availability := Operative;
     c_meterValue := 500;
     c_transaction := Some transaction_sent;
     c_transactionIDChangeCallbacks := None;
     c_statusChangeCallbacks := None;
     c_meterValueChangeCallbacks := None |}.

Definition station_auto_timer_sent : World :=
  w_set_cp (cp_set_connectors {[1 := connector_sent]} (cp station_auto_timer))
    station_auto_timer.

(** [station1] after a whole session with tag ["TAG1"] and the meter at 500:
    connector 1 is [Available] and still holds the stopped transaction. *)
Definition station_finished : World :=
  world_of ((startTransaction "TAG1" 1;;
             setMeterValue 1 500;;
             stopTransaction (ById 1)) station1).

Definition connector_finished : Connector :=
  {| c_id := 1; c_status := Available; c_availability := Operative;
     c_meterValue := 500;
     c_transaction :=
       Some {| tx_id := 0; tx_connectorId := 1; tx_tagId := "TAG1"; tx_meterStart := 0;
               tx_meterStop := Some 500; tx_startTime := 0; tx_stopTime := Some 0;
               tx_meterSent := false |};
     c_transactionIDChangeCallbacks := None;
     c_statusChangeCallbacks := None;
     c_meterValueChangeCallbacks := None |}.

(** ** More vocabulary *)

(** The world after one error has been logged. *)
Definition logged_error (message : string) (w : World) : World :=
  w_set_trace (trace w ++ [LogError message]) w.

(** The events of a status update: the write, the connector's subscriber,
    the notification. *)
Definition is_status_event (e : Event) : bool :=
  match e with
  | ConnectorStatusWrite _ _ | CallConnectorStatusChange _ _
  | SendStatusNotification _ _ => true
  | _ => false
  end.

(** The status notifications sent in a run of events, in order. *)
Definition status_notifications (es : list Event) : list (Number * OCPPStatus) :=
  omap (fun e => match e with
                 | SendStatusNotification k s => Some (k, s)
                 | _ => None
                 end) es.

(** The calls to the station-wide error subscriber in a run of events. *)
Definition error_calls (es : list Event) : list (Callback * string) :=
  omap (fun e => match e with
                 | CallError cb msg => Some (cb, msg)
                 | _ => None
                 end) es.

(** What a subscriber slot is told, if it holds a subscriber. *)
Definition told {A} (slot : option Callback) (a : A) : list (Callback * A) :=
  match slot with
  | Some cb => [(cb, a)]
  | None => []
  end.

(** The readings of a snapshot in a format. *)
Definition snapshot (format : MeterValueFormat) (meterValue : Number) : list SampledValue :=
  match format with
  | detailed => detailed_sampledValue meterValue
  | simple => simple_sampledValue meterValue
  end.

(** What the setter of a connector's meter value tells its subscriber. *)
Definition meter_calls (c : Connector) (meterValue : Number) : list Event :=
  match c_meterValueChangeCallbacks c with
  | Some cb => [CallMeterValueChange cb meterValue]
  | None => []
  end.

(** The message [sendDetailedMeterValue] hands to the message handler for the
    connector [c] stored under [k]. *)
Definition meter_message (k : Number) (c : Connector) (data : MeterValue) : Event :=
  SendMeterValue (tx_id <$> c_transaction c) k data.

(** [n] ticks of the interval [h] in a row. *)
Fixpoint ticks (n : nat) (h : TimerId) : M unit :=
  match n with
  | O => mret tt
  | S n' => fire h;; ticks n' h
  end.

(** [station1_ticking] with the meter of connector 1 at 500. *)
Definition station1_ticking_500 : World :=
  world_of (setMeterValue 1 500 station1_ticking).

(** What a station is configured with at construction: its id, boot payload,
    transport address and auto-telemetry setting, and which connectors it
    has. *)
Definition configuration (p : ChargePoint)
    : string * BootNotification * string * option AutoMeterValueSetting * gset Z :=
  (_id p, _bootNotification p, _wsUrl p, _autoMeterValueSetting p, dom (_connectors p)).

(** A property of the engine object has the value [x]. *)
Definition holds_of {X} (prj : ChargePoint -> X) (x : X) (w : World) : Prop :=
  prj (cp w) = x.

(** A registered handle is live and ticks for the connector it is registered
    for. *)
Definition registry_sound (w : World) : Prop :=
  map_Forall
    (fun c h => exists v d,
       intervals w !! h = Some {| iv_task := AutoMeterValueTick c v; iv_delay := d |})
    (_autoMeterValueIntervals (cp w)).

(** The handle the engine remembers for the heartbeat was handed out before
    the next one and, if live, runs the heartbeat. *)
Definition heartbeat_sound (w : World) : Prop :=
  forall h, _heartbeat (cp w) = Some h ->
    (h < next_timer w)%positive
    /\ forall iv, intervals w !! h = Some iv -> iv_task iv = HeartbeatTick.

Definition timers_sound (w : World) : Prop :=
  handles_fresh w /\ registry_sound w /\ heartbeat_sound w.

(** The station-level fields: telemetry format, status and error. *)
Definition engine_fields (p : ChargePoint) : MeterValueFormat * OCPPStatus * string :=
  (_meterValueFormat p, _status p, _error p).

(** [station1] after two [startHeartbeat(30)] in a row. *)
Definition station1_beating : World :=
  world_of (run (Call_startHeartbeat 30) (world_of (run (Call_startHeartbeat 30) station1))).

(** The key a [ConnectorOrId] stands for. *)
Definition key_of (c : ConnectorOrId) : Z :=
  match c with ById n => n | ByRef key => key end.

(** The connector a command is addressed to, if it is addressed to one.  A
    tick is addressed to the connector its interval was started for. *)
Definition addressee (c : Command) (w : World) : option Z :=
  match c with
  | Call_startTransaction _ k
  | Call_setMeterValue k _
  | Call_sendMeterValue k
  | Call_sendDetailedMeterValue k _
  | Call_sendCurrentDetailedMeterValue k
  | Call_startAutoMeterValue k _ _
  | Call_stopAutoMeterValue k
  | Call_updateConnectorStatus k _
  | Call_updateConnectorAvailability k _
  | Call_setTransactionID k _
  | Call_setConnectorTransactionIDChangeCallback k _
  | Call_setConnectorStatusChangeCallback k _
  | Call_setConnectorMeterValueChangeCallback k _
  | Call_setAvailabilityChangeCallback k _ => Some k
  | Call_stopTransaction k
  | Call_cleanTransaction k => Some (key_of k)
  | Tick h =>
      match iv_task <$> intervals w !! h with
      | Some (AutoMeterValueTick k _) => Some k
      | _ => None
      end
  | _ => None
  end.

(** The commands that go over every connector. *)
Definition sweeping (c : Command) : bool :=
  match c with
  | Call_boot | Transport_open | Transport_close _ | Call_updateAllConnectorsStatus _ => true
  | _ => false
  end.

(** Connector [j] is [x], and every connector is stored under its id. *)
Definition kept (j : Z) (x : option Connector) (w : World) : Prop :=
  ids_consistent w /\ _connectors (cp w) !! j = x.

(** A station whose auto-telemetry setting is switched off but carries an
    interval and a step. *)
Definition setting_off_1_10 : AutoMeterValueSetting :=
  {| enabled := false; interval := 1; value := 10 |}.

Definition station_configured : World :=
  new_World (constructor "CP1" [] 1 "ws://csms" (Some setting_off_1_10)) 0.

(** The same world with the [enabled] flag of the setting, if there is a
    setting, put to [b]. *)
Definition set_enabled (b : bool) (a : AutoMeterValueSetting) : AutoMeterValueSetting :=
  {| enabled := b; interval := interval a; value := value a |}.

Definition cp_with_enabled (b : bool) (p : ChargePoint) : ChargePoint :=
  {| _id := _id p;
     _bootNotification := _bootNotification p;
     _connectors := _connectors p;
     _wsUrl := _wsUrl p;
     _autoMeterValueSetting := set_enabled b <$> _autoMeterValueSetting p;
     _autoMeterValueIntervals := _autoMeterValueIntervals p;
     _meterValueFormat := _meterValueFormat p;
     _status := _status p;
     _error := _error p;
     _errorCallback := _errorCallback p;
     _heartbeat := _heartbeat p;
     _statusChangeCallback := _statusChangeCallback p;
     _availabilityChangeCallbacks := _availabilityChangeCallbacks p |}.

Definition with_enabled (b : bool) (w : World) : World :=
  w_set_cp (cp_with_enabled b (cp w)) w.

(** An outcome with its world transformed. *)
Definition in_world (f : World -> World) {A} (o : Outcome A) : Outcome A :=
  match o with
  | Returned a w => Returned a (f w)
  | Thrown e w => Thrown e (f w)
  end.

(** [m'], started with the flag put to [b], does what [m] does without:
    the same result and the same world, up to the flag. *)
Definition ignores_enabled (b : bool) {A} (m' m : M A) : Prop :=
  forall w, m' (with_enabled b w) = in_world (with_enabled b) (m w).

(** ** What an update leaves of a connector and of a transaction *)

(** Everything of a connector but its status and its transaction. *)
Definition c_frame (c : Connector)
    : Number * OCPPAvailability * Number * option Callback * option Callback
      * option Callback :=
  (c_id c, c_availability c, c_meterValue c, c_transactionIDChangeCallbacks c,
   c_statusChangeCallbacks c, c_meterValueChangeCallbacks c).

(** Everything of a transaction but what a stop writes. *)
Definition tx_frame (t : Transaction) : Number * Number * string * Number * Date :=
  (tx_id t, tx_connectorId t, tx_tagId t, tx_meterStart t, tx_startTime t).

(** ** Tactics *)

(** Unfolds the monad and the primitive actions, so that a method body
    reduces to the world it builds. *)
Ltac js_unfold :=
  unfold logger_info, logger_error, Transaction_write, call_if_set, when in *;
  unfold getConnector, Connector_get_meterValue, Connector_get_transaction in *;
  unfold Connector_write, mbind, mret, M_bind, M_ret, this, update_this, emit,
    new_Date, throw, setInterval, clearInterval in *.

Ltac js_simpl := js_unfold; cbn.

(** * Properties *)

(** ** One status update

    The world [updateConnectorStatus] and the setter of a connector's status
    build, for a connector that exists and for one that does not. *)

#[global] Arguments Connector_set_status : simpl never.
#[global] Arguments updateConnectorStatus : simpl never.

Lemma Connector_set_status_Some (w : World) (k : Z) (s : OCPPStatus) (c : Connector) :
  _connectors (cp w) !! k = Some c ->
  Connector_set_status k s w
  = Returned tt
      (connector_updated k (c_set_status s)
         (ConnectorStatusWrite (c_id c) s :: status_calls c s) w).
Proof.
  intros Hk. unfold Connector_set_status, connector_updated, status_calls.
  js_simpl. rewrite Hk.
  destruct (c_statusChangeCallbacks c); cbn; [|done].
  unfold w_set_trace; cbn. by rewrite <- app_assoc.
Qed.

Lemma Connector_set_status_None (w : World) (k : Z) (s : OCPPStatus) :
  _connectors (cp w) !! k = None ->
  Connector_set_status k s w = Returned tt w.
Proof. intros Hk. unfold Connector_set_status. js_simpl. by rewrite Hk. Qed.

Lemma updateConnectorStatus_Some (w : World) (k : Z) (s : OCPPStatus) (c : Connector) :
  _connectors (cp w) !! k = Some c ->
  updateConnectorStatus k s w
  = Returned tt
      (connector_updated k (c_set_status s)
         (ConnectorStatusWrite (c_id c) s :: status_calls c s
          ++ [SendStatusNotification k s]) w).
Proof.
  intros Hk. unfold updateConnectorStatus, getConnector. js_simpl. rewrite Hk.
  rewrite (Connector_set_status_Some _ _ _ c Hk).
  unfold connector_updated, w_set_trace. cbn.
  by rewrite <- app_assoc.
Qed.

Lemma updateConnectorStatus_None (w : World) (k : Z) (s : OCPPStatus) :
  _connectors (cp w) !! k = None ->
  updateConnectorStatus k s w
  = Returned tt (w_set_trace (trace w ++ [LogError (not_found k)]) w).
Proof. intros Hk. unfold updateConnectorStatus, getConnector. js_simpl. by rewrite Hk. Qed.

(** ** Availability *)

(** C8. [updateConnectorAvailability k a]: on a missing connector it logs,
    returns [false] and calls nobody; on an existing one it records [a],
    forces the status to [Unavailable] for [Inoperative] and to [Available]
    for [Operative], calls the availability subscriber registered for [k]
    exactly once with [a] (nobody if none is registered), and returns
    [true]. *)
Theorem updateConnectorAvailability_spec (w : World) (k : Number) (a : OCPPAvailability) :
  (_connectors (cp w) !! k = None ->
     updateConnectorAvailability k a w
     = Returned false (w_set_trace (trace w ++ [LogError (not_found k)]) w))
  /\ (forall c, _connectors (cp w) !! k = Some c ->
     exists w' es,
       updateConnectorAvailability k a w = Returned true w'
       /\ c_availability <$> _connectors (cp w') !! k = Some a
       /\ c_status <$> _connectors (cp w') !! k = Some (status_of_availability a)
       /\ trace w' = trace w ++ es
       /\ availability_calls es =
            match _availabilityChangeCallbacks (cp w) !! k with
            | Some cb => [(cb, a)]
            | None => []
            end).
Proof.
  split.
  - intros Hk. unfold updateConnectorAvailability, getConnector. js_simpl.
    by rewrite Hk.
  - intros c Hk. unfold updateConnectorAvailability, getConnector. js_simpl.
    rewrite Hk.
    set (w1 := w_set_cp _ w).
    assert (Hk1 : _connectors (cp w1) !! k = Some (c_set_availability a c))
      by (subst w1; cbn; by rewrite lookup_alter_eq, Hk).
    assert (Hrun : forall s,
      updateConnectorStatus k s w1
      = Returned tt (connector_updated k (c_set_status s)
          (ConnectorStatusWrite (c_id (c_set_availability a c)) s
           :: status_calls (c_set_availability a c) s
           ++ [SendStatusNotification k s]) w1))
      by (intros s; by apply updateConnectorStatus_Some).
    assert (Hst : (match a with
                   | Operative => updateConnectorStatus k Available
                   | Inoperative => updateConnectorStatus k Unavailable
                   end) w1
                  = updateConnectorStatus k (status_of_availability a) w1)
      by (by destruct a).
    rewrite Hst, Hrun. cbn.
    destruct (_availabilityChangeCallbacks (cp w) !! k) as [cb|] eqn:Hcb; cbn.
    + eexists _, _. split; [reflexivity|]. cbn.
      rewrite !lookup_alter_eq, Hk. cbn.
      repeat split; [by rewrite <- app_assoc|].
      unfold availability_calls, status_calls; cbn.
      rewrite omap_app. cbn. by destruct (c_statusChangeCallbacks c).
    + eexists _, _. split; [reflexivity|]. cbn.
      rewrite !lookup_alter_eq, Hk. cbn.
      repeat split.
      unfold availability_calls, status_calls; cbn.
      rewrite omap_app. cbn. by destruct (c_statusChangeCallbacks c).
Qed.

Lemma updateConnectorAvailability_spec_witness :
  (_connectors (cp station1_observed) !! 5 = None
   /\ updateConnectorAvailability 5 Inoperative station1_observed
      = Returned false
          (w_set_trace (trace station1_observed ++ [LogError (not_found 5)])
             station1_observed))
  /\ (_connectors (cp station1_observed) !! 1 = Some (new_Connector 1)
      /\ exists w' es,
           updateConnectorAvailability 1 Inoperative station1_observed = Returned true w'
           /\ c_availability <$> _connectors (cp w') !! 1 = Some Inoperative
           /\ c_status <$> _connectors (cp w') !! 1 = Some Unavailable
           /\ trace w' = trace station1_observed ++ es
           /\ availability_calls es = [(7%nat, Inoperative)]).
Proof.
  assert (H5 : _connectors (cp station1_observed) !! 5 = None) by reflexivity.
  assert (H1 : _connectors (cp station1_observed) !! 1 = Some (new_Connector 1))
    by reflexivity.
  split; split; [exact H5| |exact H1|].
  - exact (proj1 (updateConnectorAvailability_spec station1_observed 5 Inoperative) H5).
  - exact (proj2 (updateConnectorAvailability_spec station1_observed 1 Inoperative)
             (new_Connector 1) H1).
Defined.

(** ** Starting a transaction *)

Lemma fresh_transaction_fields (t : string) (k : Number) (startTime : Date) :
  tx_id (fresh_transaction t k startTime) = 0
  /\ tx_connectorId (fresh_transaction t k startTime) = k
  /\ tx_tagId (fresh_transaction t k startTime) = t
  /\ tx_meterStart (fresh_transaction t k startTime) = 0
  /\ tx_meterStop (fresh_transaction t k startTime) = None
  /\ tx_startTime (fresh_transaction t k startTime) = startTime
  /\ tx_stopTime (fresh_transaction t k startTime) = None
  /\ tx_meterSent (fresh_transaction t k startTime) = false.
Proof. done. Qed.

(** C4. On an existing connector [k], [startTransaction t k] returns; the
    connector [c'] then found under [k] carries a new transaction [tx] --
    id 0, connector [k], tag [t], meterStart 0, no meterStop, started at the
    instant of the call, no stopTime, meterSent false -- whatever it carried
    before, has status [Preparing], and is otherwise the connector it was;
    the transaction has been forwarded to the message handler; and an
    auto-telemetry interval for [k] has been started and registered exactly
    when the setting is present with interval and value both non-zero --
    otherwise the intervals and their registry are untouched. *)
Theorem startTransaction_spec (w : World) (t : string) (k : Number) (c : Connector) :
  _connectors (cp w) !! k = Some c ->
  exists w' es c' tx,
    startTransaction t k w = Returned tt w'
    /\ _connectors (cp w') !! k = Some c'
    /\ c_status c' = Preparing
    /\ c_transaction c' = Some tx
    /\ c_frame c' = c_frame c
    /\ tx_id tx = 0
    /\ tx_connectorId tx = k
    /\ tx_tagId tx = t
    /\ tx_meterStart tx = 0
    /\ tx_meterStop tx = None
    /\ tx_startTime tx = now w
    /\ tx_stopTime tx = None
    /\ tx_meterSent tx = false
    /\ c' = c_set_status Preparing (c_set_transaction (Some tx) c)
    /\ tx = fresh_transaction t k (now w)
    /\ trace w' = trace w ++ es
    /\ SendStartTransaction tx k ∈ es
    /\ match active_setting (cp w) with
       | Some a =>
           intervals w'
           = <[next_timer w := {| iv_task := AutoMeterValueTick k (value a);
                                  iv_delay := interval a * 1000 |}]> (intervals w)
           /\ _autoMeterValueIntervals (cp w')
              = <[k := next_timer w]> (_autoMeterValueIntervals (cp w))
       | None =>
           intervals w' = intervals w
           /\ _autoMeterValueIntervals (cp w') = _autoMeterValueIntervals (cp w)
       end.
Proof.
  intros Hk.
  assert (Hrun : (
    exists w' es,
      startTransaction t k w = Returned tt w'
      /\ _connectors (cp w') !! k
         = Some (c_set_status Preparing
                   (c_set_transaction (Some (fresh_transaction t k (now w))) c))
      /\ trace w' = trace w ++ es
      /\ SendStartTransaction (fresh_transaction t k (now w)) k ∈ es
      /\ status_notifications es = [(k, Preparing)]
      /\ now w' = now w
      /\ _autoMeterValueSetting (cp w') = _autoMeterValueSetting (cp w)
      /\ match active_setting (cp w) with
         | Some a =>
             intervals w'
             = <[next_timer w := {| iv_task := AutoMeterValueTick k (value a);
                                    iv_delay := interval a * 1000 |}]> (intervals w)
             /\ _autoMeterValueIntervals (cp w')
                = <[k := next_timer w]> (_autoMeterValueIntervals (cp w))
             /\ next_timer w' = Pos.succ (next_timer w)
         | None =>
             intervals w' = intervals w
             /\ _autoMeterValueIntervals (cp w') = _autoMeterValueIntervals (cp w)
             /\ next_timer w' = next_timer w
         end)).
  {
    unfold startTransaction, getConnector. js_simpl. rewrite Hk.
    fold (fresh_transaction t k (now w)).
    set (tx := fresh_transaction t k (now w)).
    set (w1 := w_set_trace _ _).
    assert (Hk1 : _connectors (cp w1) !! k = Some (c_set_transaction (Some tx) c))
      by (subst w1; cbn; by rewrite lookup_alter_eq, Hk).
    rewrite (updateConnectorStatus_Some _ _ _ _ Hk1). cbn.
    assert (Hes : status_notifications
                    ([SendStartTransaction tx k]
                     ++ ConnectorStatusWrite (c_id c) Preparing
                        :: status_calls (c_set_transaction (Some tx) c) Preparing
                        ++ [SendStatusNotification k Preparing])
                  = [(k, Preparing)])
      by (unfold status_calls; cbn; by destruct (c_statusChangeCallbacks c)).
    unfold active_setting, startAutoMeterValue.
    destruct (_autoMeterValueSetting (cp w)) as [a|] eqn:Ha; cbn.
    - destruct (decide (interval a ≠ 0 /\ value a ≠ 0)) as [[Hi Hv]|Hn].
      + rewrite !bool_decide_eq_true_2 by done. js_simpl.
        eexists _, _. split; [reflexivity|]. cbn.
        rewrite !lookup_alter_eq, Hk. cbn.
        split; [done|]. split; [by rewrite <- app_assoc|]. split; [set_solver|].
        split; [exact Hes|]. done.
      + assert (Hb : bool_decide (interval a ≠ 0) && bool_decide (value a ≠ 0) = false).
        { apply andb_false_iff.
          destruct (decide (interval a = 0)) as [->|?]; [by left|].
          destruct (decide (value a = 0)) as [->|?]; [by right|]. tauto. }
        rewrite Hb. js_simpl.
        eexists _, _. split; [reflexivity|]. cbn.
        rewrite !lookup_alter_eq, Hk. cbn.
        split; [done|]. split; [by rewrite <- app_assoc|]. split; [set_solver|].
        split; [exact Hes|]. done.
    - eexists _, _. split; [reflexivity|]. cbn.
      rewrite !lookup_alter_eq, Hk. cbn.
      split; [done|]. split; [by rewrite <- app_assoc|]. split; [set_solver|].
      split; [exact Hes|]. done.
  }
  destruct Hrun as (w' & es & Hrun & Hk' & Htr & Hin & _ & _ & _ & Htimers).
  destruct (fresh_transaction_fields t k (now w))
    as (F1 & F2 & F3 & F4 & F5 & F6 & F7 & F8).
  exists w', es, (c_set_status Preparing
                    (c_set_transaction (Some (fresh_transaction t k (now w))) c)),
    (fresh_transaction t k (now w)).
  split; [exact Hrun|]. split; [exact Hk'|].
  split; [reflexivity|]. split; [reflexivity|]. split; [reflexivity|].
  split; [exact F1|]. split; [exact F2|]. split; [exact F3|]. split; [exact F4|].
  split; [exact F5|]. split; [exact F6|]. split; [exact F7|]. split; [exact F8|].
  split; [reflexivity|]. split; [reflexivity|].
  split; [exact Htr|]. split; [exact Hin|].
  destruct (active_setting (cp w)); tauto.
Qed.

Lemma startTransaction_spec_witness :
  _connectors (cp station_finished) !! 1 = Some connector_finished
  /\ exists w' es c' tx,
       startTransaction "TAG2" 1 station_finished = Returned tt w'
       /\ _connectors (cp w') !! 1 = Some c'
       /\ c_status c' = Preparing
       /\ c_transaction c' = Some tx
       /\ c_frame c' = c_frame connector_finished
       /\ tx_id tx = 0
       /\ tx_connectorId tx = 1
       /\ tx_tagId tx = "TAG2"
       /\ tx_meterStart tx = 0
       /\ tx_meterStop tx = None
       /\ tx_startTime tx = now station_finished
       /\ tx_stopTime tx = None
       /\ tx_meterSent tx = false
       /\ c' = c_set_status Preparing (c_set_transaction (Some tx) connector_finished)
       /\ tx = fresh_transaction "TAG2" 1 (now station_finished)
       /\ trace w' = trace station_finished ++ es
       /\ SendStartTransaction tx 1 ∈ es
       /\ intervals w' = intervals station_finished
       /\ _autoMeterValueIntervals (cp w') = _autoMeterValueIntervals (cp station_finished).
Proof.
  assert (H1 : _connectors (cp station_finished) !! 1 = Some connector_finished)
    by reflexivity.
  split; [exact H1|].
  exact (startTransaction_spec station_finished "TAG2" 1 connector_finished H1).
Defined.

(** ** The global status update

    The method is the fold [outer_loop] on the connector map and the
    trace. *)

Lemma put_id (w : World) : put (_connectors (cp w), []) w = w.
Proof.
  destruct w as [[] ? ? ? ?]. unfold put, w_set_trace, w_set_cp, cp_set_connectors.
  cbn. by rewrite app_nil_r.
Qed.

Lemma Connector_set_status_put (w : World) (st : LoopState) (k : Z) (s : OCPPStatus) :
  Connector_set_status k s (put st w) = Returned tt (put (write_status s st k) w).
Proof.
  destruct st as [m es]. unfold write_status. cbn.
  destruct (m !! k) as [c|] eqn:Hk.
  - rewrite (Connector_set_status_Some _ _ _ c) by done.
    unfold connector_updated, put, w_set_trace. cbn. by rewrite <- app_assoc.
  - by rewrite Connector_set_status_None.
Qed.

Lemma forEach_put {A} (l : list A) (body : A -> M unit)
    (g : LoopState -> A -> LoopState) (w : World) :
  (forall x st, body x (put st w) = Returned tt (put (g st x) w)) ->
  forall st, forEach l body (put st w) = Returned tt (put (foldl g st l) w).
Proof.
  intros Hbody. induction l as [|x l IH]; intros st; [done|].
  cbn. unfold mbind, M_bind. by rewrite Hbody, IH.
Qed.

Lemma updateAllConnectorsStatus_put (w : World) (s : OCPPStatus) :
  updateAllConnectorsStatus s w
  = Returned tt (put (outer_loop s (_connectors (cp w), [])) w).
Proof.
  unfold updateAllConnectorsStatus, outer_loop.
  unfold mbind at 1, M_bind at 1, this. cbn [fst].
  match goal with
  | |- forEach ?l ?body w = _ =>
      assert (Hgen : forall st,
        forEach l body (put st w) = Returned tt (put (foldl (outer_step s) st l) w))
  end.
  { apply forEach_put. intros [key connector] st.
    unfold mbind, M_bind. rewrite Connector_set_status_put.
    unfold get_connectors, this, mbind, M_bind, mret, M_ret.
    change (_connectors (cp (put (write_status s st key) w)))
      with (write_status s st key).1.
    rewrite (forEach_put _ _ (fun st '(k, _) => write_status s st k)).
    - unfold emit, outer_step, inner_loop, put, w_set_trace. cbn.
      by rewrite <- app_assoc.
    - intros [k ?] st'. apply Connector_set_status_put. }
  specialize (Hgen (_connectors (cp w), [])).
  by rewrite put_id in Hgen.
Qed.

(** *** The order of iteration *)

Lemma elem_of_Map_keys {V} (m : gmap Z V) (k : Z) :
  k ∈ Map_keys m <-> is_Some (m !! k).
Proof.
  unfold Map_keys. rewrite merge_sort_Permutation, elem_of_elements.
  apply elem_of_dom.
Qed.

Lemma length_Map_keys {V} (m : gmap Z V) : length (Map_keys m) = size m.
Proof.
  unfold Map_keys. rewrite merge_sort_Permutation.
  rewrite <- (size_dom (D := gset Z) m). reflexivity.
Qed.

Lemma Map_keys_dom {V} (m m' : gmap Z V) : dom m = dom m' -> Map_keys m = Map_keys m'.
Proof. unfold Map_keys. by intros ->. Qed.

Lemma entries_of_keys {V} (m : gmap Z V) (ks : list Z) :
  (forall k, k ∈ ks -> is_Some (m !! k)) ->
  (omap (fun k => (fun v => (k, v)) <$> m !! k) ks).*1 = ks.
Proof.
  induction ks as [|k ks IH]; intros Hks; [done|].
  destruct (Hks k) as [v Hv]; [left|]. cbn. rewrite Hv. cbn.
  f_equal. apply IH. intros k' Hk'. apply Hks. by right.
Qed.

Lemma Map_entries_fst {V} (m : gmap Z V) : (Map_entries m).*1 = Map_keys m.
Proof. apply entries_of_keys. intros k. apply elem_of_Map_keys. Qed.

Lemma length_Map_entries {V} (m : gmap Z V) : length (Map_entries m) = size m.
Proof. by rewrite <- length_Map_keys, <- Map_entries_fst, length_fmap. Qed.

Lemma elem_of_Map_entries {V} (m : gmap Z V) (k : Z) (v : V) :
  (k, v) ∈ Map_entries m -> m !! k = Some v.
Proof.
  unfold Map_entries. rewrite list_elem_of_omap. intros (k' & _ & Hk').
  destruct (m !! k') as [v'|] eqn:E; cbn in Hk'; [|done]. congruence.
Qed.

(** *** Counting events *)

Lemma count_events_app (p : Event -> bool) (es es' : list Event) :
  count_events p (es ++ es') = (count_events p es + count_events p es')%nat.
Proof. induction es as [|e es IH]; cbn; [done|]. rewrite IH. lia. Qed.

(** *** What the loops compute *)

Lemma c_set_status_idemp (s : OCPPStatus) (c : Connector) :
  c_set_status s (c_set_status s c) = c_set_status s c.
Proof. reflexivity. Qed.

Lemma write_status_fst (s : OCPPStatus) (st : LoopState) (k : Z) :
  (write_status s st k).1 = alter (c_set_status s) k st.1.
Proof.
  unfold write_status. destruct (st.1 !! k) eqn:Hk; [done|].
  by rewrite alter_id'.
Qed.

Lemma inner_loop_write_all (s : OCPPStatus) (st : LoopState) :
  inner_loop s st = write_all s st (Map_keys st.1).
Proof.
  unfold inner_loop, write_all. rewrite <- Map_entries_fst, foldl_fmap.
  generalize (Map_entries st.1). intros l. revert st.
  induction l as [|[k c] l IH]; intros st; [done|]. apply IH.
Qed.

Lemma write_all_lookup (s : OCPPStatus) (ks : list Z) (st : LoopState) (k : Z) :
  (write_all s st ks).1 !! k
  = if decide (k ∈ ks) then c_set_status s <$> st.1 !! k else st.1 !! k.
Proof.
  revert st. induction ks as [|a ks IH]; intros st.
  - cbn. rewrite decide_False; [done|]. apply not_elem_of_nil.
  - change (write_all s st (a :: ks)) with (write_all s (write_status s st a) ks).
    rewrite IH, write_status_fst.
    destruct (decide (k = a)) as [->|Hne].
    + rewrite lookup_alter_eq.
      rewrite (decide_True (P := a ∈ a :: ks)) by (rewrite elem_of_cons; tauto).
      by destruct (st.1 !! a), (decide (a ∈ ks)).
    + rewrite lookup_alter_ne by done.
      destruct (decide (k ∈ ks)).
      * rewrite decide_True; [done|]. rewrite elem_of_cons. tauto.
      * rewrite decide_False; [done|]. rewrite elem_of_cons. tauto.
Qed.

Lemma write_all_dom (s : OCPPStatus) (ks : list Z) (st : LoopState) :
  dom (write_all s st ks).1 = dom st.1.
Proof.
  revert st. induction ks as [|a ks IH]; intros st; [done|].
  change (write_all s st (a :: ks)) with (write_all s (write_status s st a) ks).
  by rewrite IH, write_status_fst, dom_alter_L.
Qed.

Lemma write_all_covering (s : OCPPStatus) (ks : list Z) (st : LoopState) :
  (forall k, is_Some (st.1 !! k) -> k ∈ ks) ->
  (write_all s st ks).1 = c_set_status s <$> st.1.
Proof.
  intros Hks. apply map_eq. intros k.
  rewrite write_all_lookup, lookup_fmap.
  case_decide as Hk; [done|].
  destruct (st.1 !! k) eqn:E; [|done].
  destruct Hk. apply Hks. by rewrite E.
Qed.

Lemma write_status_count (s : OCPPStatus) (st : LoopState) (k : Z) :
  is_Some (st.1 !! k) ->
  count_events is_status_write (write_status s st k).2
  = S (count_events is_status_write st.2)
  /\ count_events is_status_notification (write_status s st k).2
     = count_events is_status_notification st.2.
Proof.
  intros [c Hc]. unfold write_status. rewrite Hc. cbn.
  rewrite !count_events_app. unfold status_calls.
  destruct (c_statusChangeCallbacks c); cbn; lia.
Qed.

Lemma write_all_count (s : OCPPStatus) (ks : list Z) (st : LoopState) :
  (forall k, k ∈ ks -> is_Some (st.1 !! k)) ->
  count_events is_status_write (write_all s st ks).2
  = (count_events is_status_write st.2 + length ks)%nat
  /\ count_events is_status_notification (write_all s st ks).2
     = count_events is_status_notification st.2.
Proof.
  revert st. induction ks as [|a ks IH]; intros st Hks.
  - cbn. lia.
  - change (write_all s st (a :: ks)) with (write_all s (write_status s st a) ks).
    destruct (write_status_count s st a) as [Hw Hn]; [apply Hks; by left|].
    destruct (IH (write_status s st a)) as [Hw' Hn'].
    { intros k Hk. rewrite write_status_fst, lookup_alter_is_Some.
      apply Hks. by right. }
    rewrite Hw', Hn', Hw, Hn. cbn. lia.
Qed.

Lemma fmap_alter_set_status (s : OCPPStatus) (m : gmap Z Connector) (k : Z) :
  c_set_status s <$> alter (c_set_status s) k m = c_set_status s <$> m.
Proof.
  apply map_eq. intros j. rewrite !lookup_fmap.
  destruct (decide (k = j)) as [->|Hne].
  - rewrite lookup_alter_eq. by destruct (m !! j).
  - by rewrite lookup_alter_ne.
Qed.

Lemma outer_step_spec (s : OCPPStatus) (st : LoopState) (e : Z * Connector) :
  is_Some (st.1 !! e.1) ->
  (outer_step s st e).1 = c_set_status s <$> st.1
  /\ count_events is_status_write (outer_step s st e).2
     = (count_events is_status_write st.2 + S (size st.1))%nat
  /\ count_events is_status_notification (outer_step s st e).2
     = S (count_events is_status_notification st.2).
Proof.
  intros He. unfold outer_step. cbn [fst snd].
  rewrite inner_loop_write_all.
  set (stw := write_status s st e.1).
  assert (Hdom : dom stw.1 = dom st.1)
    by (subst stw; by rewrite write_status_fst, dom_alter_L).
  destruct (write_status_count s st e.1 He) as [Hw Hn]. fold stw in Hw, Hn.
  destruct (write_all_count s (Map_keys stw.1) stw) as [Hw' Hn'].
  { intros k. by rewrite elem_of_Map_keys. }
  split; [|split].
  - rewrite write_all_covering by (intros k; by rewrite elem_of_Map_keys).
    subst stw. by rewrite write_status_fst, fmap_alter_set_status.
  - rewrite count_events_app, Hw', Hw, length_Map_keys. cbn.
    rewrite <- (size_dom (D := gset Z) stw.1), Hdom, size_dom. lia.
  - rewrite count_events_app, Hn', Hn. cbn. lia.
Qed.

Lemma outer_fold_spec (s : OCPPStatus) (l : list (Z * Connector)) (st : LoopState) :
  (forall e, e ∈ l -> is_Some (st.1 !! e.1)) ->
  (foldl (outer_step s) st l).1
  = match l with [] => st.1 | _ => c_set_status s <$> st.1 end
  /\ count_events is_status_write (foldl (outer_step s) st l).2
     = (count_events is_status_write st.2 + length l * S (size st.1))%nat
  /\ count_events is_status_notification (foldl (outer_step s) st l).2
     = (count_events is_status_notification st.2 + length l)%nat.
Proof.
  revert st. induction l as [|e l IH]; intros st Hl.
  - cbn. repeat split; lia.
  - cbn [foldl].
    destruct (outer_step_spec s st e) as (Hm & Hw & Hn); [apply Hl; by left|].
    destruct (IH (outer_step s st e)) as (Hm' & Hw' & Hn').
    { intros e' He'. rewrite Hm, lookup_fmap, fmap_is_Some. apply Hl. by right. }
    rewrite Hm', Hw', Hn', Hw, Hn, Hm. rewrite map_size_fmap.
    split; [|cbn; lia].
    destruct l; [done|]. rewrite <- map_fmap_compose. by apply map_fmap_ext.
Qed.

Lemma outer_loop_spec (s : OCPPStatus) (m : gmap Z Connector) :
  (outer_loop s (m, [])).1 = c_set_status s <$> m
  /\ count_events is_status_write (outer_loop s (m, [])).2
     = (size m * S (size m))%nat
  /\ count_events is_status_notification (outer_loop s (m, [])).2 = size m.
Proof.
  unfold outer_loop.
  destruct (outer_fold_spec s (Map_entries m) (m, [])) as (Hm & Hw & Hn).
  { intros [k c] He. cbn. apply elem_of_Map_entries in He. by rewrite He. }
  cbn [fst snd] in *. rewrite Hw, Hn, length_Map_entries. cbn.
  split; [|done]. rewrite Hm.
  destruct (Map_entries m) eqn:E; [|done].
  assert (m = ∅) as -> by (apply map_size_empty_inv; by rewrite <- length_Map_entries, E).
  by rewrite fmap_empty.
Qed.

(** C5. [updateAllConnectorsStatus s] on a station with N connectors returns
    after N*(N+1) assignments to a connector's status and N status
    notifications: every round of the outer loop writes its own connector,
    then all N connectors again through the copy of the map, and only then
    sends its one notification.  The writes are not one per connector. *)
Theorem updateAllConnectorsStatus_counts (w : World) (s : OCPPStatus) :
  exists w' es,
    updateAllConnectorsStatus s w = Returned tt w'
    /\ trace w' = trace w ++ es
    /\ count_events is_status_write es
       = (size (_connectors (cp w)) * S (size (_connectors (cp w))))%nat
    /\ count_events is_status_notification es = size (_connectors (cp w)).
Proof.
  rewrite updateAllConnectorsStatus_put.
  destruct (outer_loop_spec s (_connectors (cp w))) as (_ & Hw & Hn).
  eexists _, _. split; [reflexivity|]. split; [reflexivity|]. by split.
Qed.

(** Two connectors: six status writes for two notifications. *)
Example updateAllConnectorsStatus_two_connectors :
  trace (world_of (updateAllConnectorsStatus Available station2))
  = [ ConnectorStatusWrite 1 Available; ConnectorStatusWrite 1 Available;
      ConnectorStatusWrite 2 Available; SendStatusNotification 1 Available;
      ConnectorStatusWrite 2 Available; ConnectorStatusWrite 1 Available;
      ConnectorStatusWrite 2 Available; SendStatusNotification 2 Available ].
Proof. vm_compute. reflexivity. Qed.

(** After the global update every connector has the new status and nothing
    else of the engine or of the host has changed. *)
Lemma updateAllConnectorsStatus_state (w : World) (s : OCPPStatus) :
  exists es,
    updateAllConnectorsStatus s w
    = Returned tt (put (c_set_status s <$> _connectors (cp w), es) w).
Proof.
  rewrite updateAllConnectorsStatus_put.
  destruct (outer_loop_spec s (_connectors (cp w))) as (Hm & _).
  exists (outer_loop s (_connectors (cp w), [])).2.
  rewrite <- Hm. by destruct (outer_loop s (_connectors (cp w), [])).
Qed.

(** ** Station status and its subscriber *)

(** The setter tells the registered subscriber the new status. *)
Lemma set_status_calls_subscriber (w : World) (s : OCPPStatus) (cb : Callback) :
  _statusChangeCallback (cp w) = Some cb ->
  exists w',
    set_status s w = Returned tt w'
    /\ _status (cp w') = s
    /\ trace w' = trace w ++ [CallStatusChange cb s].
Proof.
  intros Hcb. unfold set_status. js_simpl. rewrite Hcb. by eexists.
Qed.

(** C7. [disconnect] returns with the station status set to [Unavailable]
    and has made two calls only, one to the logger and one to the transport:
    it assigns the field [_status] directly, so the station-wide status
    subscriber is not called, whether one is registered or not and whatever
    the status was before. *)
Theorem disconnect_bypasses_subscriber (w : World) :
  exists w' es,
    disconnect w = Returned tt w'
    /\ _status (cp w') = Unavailable
    /\ trace w' = trace w ++ es
    /\ es = [LogInfo "Disconnecting from WebSocket"; WsDisconnect]
    /\ station_status_calls es = [].
Proof.
  unfold disconnect. js_simpl. eexists _, _. split; [reflexivity|]. cbn.
  repeat split. by rewrite <- app_assoc.
Qed.

(** A booted station with a registered subscriber: [boot] reports
    [Available] to it, the [disconnect] that follows changes the status to
    [Unavailable] and reports nothing. *)
Example disconnect_after_boot :
  let w1 := world_of ((set_statusChangeCallback 7;; boot) station1) in
  let w2 := world_of (disconnect w1) in
  _status (cp w1) = Available
  /\ station_status_calls (trace w1) = [(7%nat, Available)]
  /\ _status (cp w2) = Unavailable
  /\ station_status_calls (trace w2) = [(7%nat, Available)].
Proof. vm_compute. repeat split. Qed.

(** ** Stopping a transaction that is not there *)

(** C2. On an existing connector that has no transaction,
    [stopTransaction] does not return: the assignment to
    [connector.transaction!.stopTime] throws a [TypeError], before anything
    is logged or changed. *)
Theorem stopTransaction_without_transaction_throws
    (w : World) (k : Number) (c : Connector) :
  _connectors (cp w) !! k = Some c ->
  c_transaction c = None ->
  stopTransaction (ById k) w
  = Thrown (TypeError "Cannot set properties of null (setting 'stopTime')") w.
Proof.
  intros Hk Ht. unfold stopTransaction. js_simpl. rewrite Hk. cbn.
  rewrite Hk. cbn. by rewrite Ht.
Qed.

Lemma stopTransaction_without_transaction_throws_witness :
  _connectors (cp station1) !! 1 = Some (new_Connector 1)
  /\ c_transaction (new_Connector 1) = None
  /\ stopTransaction (ById 1) station1
     = Thrown (TypeError "Cannot set properties of null (setting 'stopTime')") station1.
Proof.
  assert (Hk : _connectors (cp station1) !! 1 = Some (new_Connector 1)) by reflexivity.
  assert (Ht : c_transaction (new_Connector 1) = None) by reflexivity.
  split; [exact Hk|]. split; [exact Ht|].
  exact (stopTransaction_without_transaction_throws station1 1 (new_Connector 1) Hk Ht).
Defined.

(** ** Live intervals *)

(** C1. [startAutoMeterValue c i v] does not cancel: when a handle [h] is
    registered for connector [c] and its interval is live, the call returns
    with that interval still live next to the new one, and only the new
    handle registered -- [h] can no longer be cancelled through the
    registry. *)
Theorem startAutoMeterValue_keeps_prior_timer
    (w : World) (c i v : Number) (h : TimerId) (iv : Interval) :
  _autoMeterValueIntervals (cp w) !! c = Some h ->
  intervals w !! h = Some iv ->
  h ≠ next_timer w ->
  exists w',
    startAutoMeterValue c i v w = Returned tt w'
    /\ intervals w' !! h = Some iv
    /\ intervals w' !! next_timer w
       = Some {| iv_task := AutoMeterValueTick c v; iv_delay := i * 1000 |}
    /\ _autoMeterValueIntervals (cp w') !! c = Some (next_timer w).
Proof.
  intros Hreg Hlive Hfresh. unfold startAutoMeterValue. js_simpl.
  eexists. split; [reflexivity|]. cbn.
  rewrite lookup_insert_ne by done. by rewrite !lookup_insert_eq.
Qed.

Lemma startAutoMeterValue_keeps_prior_timer_witness :
  _autoMeterValueIntervals (cp station1_ticking) !! 1 = Some 1%positive
  /\ intervals station1_ticking !! 1%positive = Some interval_1_10
  /\ 1%positive ≠ next_timer station1_ticking
  /\ exists w',
       startAutoMeterValue 1 1 10 station1_ticking = Returned tt w'
       /\ intervals w' !! 1%positive = Some interval_1_10
       /\ intervals w' !! next_timer station1_ticking = Some interval_1_10
       /\ _autoMeterValueIntervals (cp w') !! 1 = Some (next_timer station1_ticking).
Proof.
  assert (H1 : _autoMeterValueIntervals (cp station1_ticking) !! 1 = Some 1%positive)
    by reflexivity.
  assert (H2 : intervals station1_ticking !! 1%positive = Some interval_1_10)
    by reflexivity.
  assert (H3 : 1%positive ≠ next_timer station1_ticking) by (vm_compute; discriminate).
  split; [exact H1|]. split; [exact H2|]. split; [exact H3|].
  exact (startAutoMeterValue_keeps_prior_timer station1_ticking 1 1 10 1%positive
           interval_1_10 H1 H2 H3).
Defined.

(** Two calls in a row, and likewise two [startTransaction] on a configured
    station, leave two live auto-telemetry intervals for the connector. *)
Example startAutoMeterValue_twice :
  let w' := world_of ((startAutoMeterValue 1 1 10;; startAutoMeterValue 1 1 10) station1) in
  length (live (is_autoMeterValue_of 1) w') = 2%nat
  /\ _autoMeterValueIntervals (cp w') !! 1 = Some 2%positive.
Proof. vm_compute. by split. Qed.

Example startTransaction_twice :
  let setting := {| enabled := true; interval := 1; value := 10 |} in
  let w := new_World (constructor "CP1" [] 1 "ws://csms" (Some setting)) 0 in
  let w' := world_of ((startTransaction "TAG1" 1;; startTransaction "TAG1" 1) w) in
  length (live (is_autoMeterValue_of 1) w') = 2%nat.
Proof. vm_compute. reflexivity. Qed.

(** [startHeartbeat], by contrast, cancels the interval it registered
    before. *)
Lemma startHeartbeat_cancels_prior (w : World) (period : Number) (h : TimerId) :
  _heartbeat (cp w) = Some h ->
  h ≠ next_timer w ->
  exists w',
    startHeartbeat period w = Returned tt w'
    /\ intervals w' !! h = None
    /\ intervals w' !! next_timer w
       = Some {| iv_task := HeartbeatTick; iv_delay := period * 1000 |}
    /\ _heartbeat (cp w') = Some (next_timer w).
Proof.
  intros Hh Hfresh. unfold startHeartbeat. js_simpl. rewrite Hh. cbn.
  eexists. split; [reflexivity|]. cbn.
  rewrite lookup_insert_ne by done. by rewrite lookup_delete_eq, lookup_insert_eq.
Qed.

(** Two [startHeartbeat] in a row leave one live heartbeat interval. *)
Example startHeartbeat_twice :
  live is_heartbeat (world_of ((startHeartbeat 30;; startHeartbeat 30) station1))
  = [2%positive].
Proof. vm_compute. reflexivity. Qed.

(** ** Stopping a transaction *)

#[global] Arguments stopAutoMeterValue : simpl never.

Lemma stopAutoMeterValue_eq (w : World) (k : Number) :
  stopAutoMeterValue k w
  = Returned tt
      match _autoMeterValueIntervals (cp w) !! k with
      | Some h =>
          w_set_cp (cp_set_autoMeterValueIntervals
                      (delete k (_autoMeterValueIntervals (cp w))) (cp w))
            (w_set_intervals (delete h (intervals w)) w)
      | None => w
      end.
Proof.
  unfold stopAutoMeterValue. js_simpl.
  by destruct (_autoMeterValueIntervals (cp w) !! k).
Qed.

Lemma connector_updated_lookup (k : Z) (f : Connector -> Connector) (es : list Event)
    (w : World) :
  _connectors (cp (connector_updated k f es w)) !! k = f <$> _connectors (cp w) !! k.
Proof. cbn. apply lookup_alter_eq. Qed.

(** C3, amended. On an existing connector [k] (stored under its own id, as
    in every reachable world) holding a transaction [t], with reading [m],
    [stopTransaction k] returns.  The connector [c'] then found under [k]
    has status [Available], is otherwise the connector it was, and holds the
    transaction [t'], which is [t] with [stopTime] set to the instant of the
    call, [meterStop = m] and [meterSent = false].  The stop has been
    forwarded to the message handler with that stopTime and meterStop; the
    status notifications sent are [Finishing] and then [Available].  The
    handle registered for [k] is cancelled and unregistered when
    [_autoMeterValueSetting] is not null; when it is null, the intervals and
    the registry are untouched. *)
Theorem stopTransaction_spec (w : World) (k : Number) (c : Connector) (t : Transaction) :
  _connectors (cp w) !! k = Some c ->
  c_id c = k ->
  c_transaction c = Some t ->
  exists w' es c' t' sent,
    stopTransaction (ById k) w = Returned tt w'
    /\ _connectors (cp w') !! k = Some c'
    /\ c_status c' = Available
    /\ c_transaction c' = Some t'
    /\ c_frame c' = c_frame c
    /\ tx_stopTime t' = Some (now w)
    /\ tx_meterStop t' = Some (c_meterValue c)
    /\ tx_meterSent t' = false
    /\ tx_frame t' = tx_frame t
    /\ tx_stopTime sent = Some (now w)
    /\ tx_meterStop sent = Some (c_meterValue c)
    /\ tx_frame sent = tx_frame t
    /\ c' = c_set_status Available (c_set_transaction (Some t') c)
    /\ t' = tx_set_meterSent false sent
    /\ sent = stopped t (now w) (c_meterValue c)
    /\ trace w' = trace w ++ es
    /\ es = SendStopTransaction sent k
            :: (ConnectorStatusWrite k Finishing :: status_calls c Finishing
                ++ [SendStatusNotification k Finishing])
            ++ (ConnectorStatusWrite k Available :: status_calls c Available
                ++ [SendStatusNotification k Available])
    /\ status_notifications es = [(k, Finishing); (k, Available)]
    /\ match _autoMeterValueSetting (cp w) with
       | Some _ =>
           _autoMeterValueIntervals (cp w') = delete k (_autoMeterValueIntervals (cp w))
           /\ intervals w'
              = match _autoMeterValueIntervals (cp w) !! k with
                | Some h => delete h (intervals w)
                | None => intervals w
                end
       | None =>
           _autoMeterValueIntervals (cp w') = _autoMeterValueIntervals (cp w)
           /\ intervals w' = intervals w
       end.
Proof.
  intros Hk Hid Ht.
  assert (Hrun : (
    exists w' es,
      stopTransaction (ById k) w = Returned tt w'
      /\ _connectors (cp w') !! k
         = Some (c_set_status Available
                   (c_set_transaction
                      (Some (tx_set_meterSent false (stopped t (now w) (c_meterValue c)))) c))
      /\ trace w' = trace w ++ es
      /\ es = SendStopTransaction (stopped t (now w) (c_meterValue c)) k
              :: (ConnectorStatusWrite k Finishing :: status_calls c Finishing
                  ++ [SendStatusNotification k Finishing])
              ++ (ConnectorStatusWrite k Available :: status_calls c Available
                  ++ [SendStatusNotification k Available])
      /\ status_notifications es = [(k, Finishing); (k, Available)]
      /\ next_timer w' = next_timer w
      /\ match _autoMeterValueSetting (cp w) with
         | Some _ =>
             _autoMeterValueIntervals (cp w') = delete k (_autoMeterValueIntervals (cp w))
             /\ intervals w'
                = match _autoMeterValueIntervals (cp w) !! k with
                  | Some h => delete h (intervals w)
                  | None => intervals w
                  end
         | None =>
             _autoMeterValueIntervals (cp w') = _autoMeterValueIntervals (cp w)
             /\ intervals w' = intervals w
         end)).
  {
    unfold stopTransaction. js_simpl. rewrite Hk. cbn.
    rewrite Hk. cbn. rewrite Ht.
    rewrite !lookup_alter_eq, Hk. cbn. rewrite Ht. cbn.
    unfold cleanTransaction. js_simpl. rewrite !lookup_alter_eq, Hk. cbn. rewrite Hid.
    fold (stopped t (now w) (c_meterValue c)).
    set (tx := stopped t (now w) (c_meterValue c)).
    set (w1 := w_set_cp _ _).
    assert (Hk1 : _connectors (cp w1) !! k
                  = Some (c_set_transaction (Some (tx_set_meterSent false tx)) c)).
    { subst w1. cbn. rewrite !lookup_alter_eq, Hk. cbn. by rewrite Ht. }
    rewrite (updateConnectorStatus_Some _ _ _ _ Hk1). cbn.
    set (w2 := connector_updated _ _ _ _).
    assert (Hk2 : _connectors (cp w2) !! k
                  = Some (c_set_status Finishing
                            (c_set_transaction (Some (tx_set_meterSent false tx)) c))).
    { subst w2. by rewrite connector_updated_lookup, Hk1. }
    assert (Hfin : forall w3 : World,
      _connectors (cp w3) = _connectors (cp w2) -> trace w3 = trace w2 ->
      exists w' es,
        updateConnectorStatus k Available w3 = Returned tt w'
        /\ _connectors (cp w') !! k
           = Some (c_set_status Available
                     (c_set_transaction (Some (tx_set_meterSent false tx)) c))
        /\ trace w' = trace w ++ es
        /\ es = SendStopTransaction tx k
                :: (ConnectorStatusWrite k Finishing :: status_calls c Finishing
                    ++ [SendStatusNotification k Finishing])
                ++ (ConnectorStatusWrite k Available :: status_calls c Available
                    ++ [SendStatusNotification k Available])
        /\ status_notifications es = [(k, Finishing); (k, Available)]
        /\ next_timer w' = next_timer w3
        /\ _autoMeterValueIntervals (cp w') = _autoMeterValueIntervals (cp w3)
        /\ intervals w' = intervals w3).
    { intros w3 Hc3 Ht3.
      assert (Hk3 : _connectors (cp w3) !! k
                    = Some (c_set_status Finishing
                              (c_set_transaction (Some (tx_set_meterSent false tx)) c)))
        by (by rewrite Hc3).
      rewrite (updateConnectorStatus_Some _ _ _ _ Hk3).
      exists (connector_updated k (c_set_status Available)
                (ConnectorStatusWrite k Available :: status_calls c Available
                 ++ [SendStatusNotification k Available]) w3),
             (SendStopTransaction tx k
              :: (ConnectorStatusWrite k Finishing :: status_calls c Finishing
                  ++ [SendStatusNotification k Finishing])
              ++ (ConnectorStatusWrite k Available :: status_calls c Available
                  ++ [SendStatusNotification k Available])).
      split; [by cbn; rewrite Hid|].
      split; [by rewrite connector_updated_lookup, Hk3|].
      split.
      { unfold connector_updated at 1. cbn [trace w_set_trace]. rewrite Ht3.
        subst w2. unfold connector_updated at 1. cbn [trace w_set_trace].
        subst w1. unfold status_calls. cbn. rewrite Hid.
        destruct (c_statusChangeCallbacks c); cbn; by rewrite <- !app_assoc. }
      split; [reflexivity|].
      split; [unfold status_calls; by destruct (c_statusChangeCallbacks c)|].
      done. }
    destruct (_autoMeterValueSetting (cp w)) as [a|] eqn:Ha.
    - rewrite stopAutoMeterValue_eq.
      change (_autoMeterValueIntervals (cp w2)) with (_autoMeterValueIntervals (cp w)).
      destruct (_autoMeterValueIntervals (cp w) !! k) as [h|] eqn:Hh.
      + edestruct Hfin as (w' & es & -> & H1 & H2 & He & H3 & H4 & H5 & H6);
          [| |exists w', es; repeat split;
               [exact H1|exact H2|exact He|exact H3|rewrite H4|rewrite H5|rewrite H6]];
          reflexivity.
      + edestruct Hfin as (w' & es & -> & H1 & H2 & He & H3 & H4 & H5 & H6);
          [| |exists w', es; repeat split;
               [exact H1|exact H2|exact He|exact H3|rewrite H4|rewrite H5|rewrite H6]];
          try reflexivity.
        change (_autoMeterValueIntervals (cp w2)) with (_autoMeterValueIntervals (cp w)).
        by rewrite delete_id.
    - edestruct Hfin as (w' & es & -> & H1 & H2 & He & H3 & H4 & H5 & H6);
        [| |exists w', es; repeat split;
             [exact H1|exact H2|exact He|exact H3|rewrite H4|rewrite H5|rewrite H6]];
        reflexivity.
  }
  destruct Hrun as (w' & es & Hrun & Hk' & Htr & Hes & Hsn & _ & Htimers).
  exists w', es,
    (c_set_status Available
       (c_set_transaction
          (Some (tx_set_meterSent false (stopped t (now w) (c_meterValue c)))) c)),
    (tx_set_meterSent false (stopped t (now w) (c_meterValue c))),
    (stopped t (now w) (c_meterValue c)).
  split; [exact Hrun|]. split; [exact Hk'|].
  do 13 (split; [reflexivity|]).
  split; [exact Htr|]. split; [exact Hes|]. split; [exact Hsn|]. exact Htimers.
Qed.

Lemma stopped_fields (t : Transaction) (stopTime : Date) (m : Number) :
  tx_stopTime (tx_set_meterSent false (stopped t stopTime m)) = Some stopTime
  /\ tx_meterStop (tx_set_meterSent false (stopped t stopTime m)) = Some m
  /\ tx_meterSent (tx_set_meterSent false (stopped t stopTime m)) = false
  /\ tx_tagId (tx_set_meterSent false (stopped t stopTime m)) = tx_tagId t.
Proof. done. Qed.

(** C3, counterexample: with no setting, the interval started by hand
    survives the stop. *)
Lemma stop_cancels_autoMeterValue_counterexample :
  ~ stop_cancels_autoMeterValue station_manual_timer 1.
Proof. unfold stop_cancels_autoMeterValue. vm_compute. discriminate. Qed.

Lemma stopTransaction_spec_witness :
  _connectors (cp station_auto_timer_sent) !! 1 = Some connector_sent
  /\ c_id connector_sent = 1
  /\ c_transaction connector_sent = Some transaction_sent
  /\ live (is_autoMeterValue_of 1) station_auto_timer_sent = [1%positive]
  /\ exists w' es c' t' sent,
       stopTransaction (ById 1) station_auto_timer_sent = Returned tt w'
       /\ _connectors (cp w') !! 1 = Some c'
       /\ c_status c' = Available
       /\ c_transaction c' = Some t'
       /\ c_frame c' = c_frame connector_sent
       /\ tx_stopTime t' = Some (now station_auto_timer_sent)
       /\ tx_meterStop t' = Some 500
       /\ tx_meterSent t' = false
       /\ tx_frame t' = tx_frame transaction_sent
       /\ tx_stopTime sent = Some (now station_auto_timer_sent)
       /\ tx_meterStop sent = Some 500
       /\ tx_frame sent = tx_frame transaction_sent
       /\ trace w' = trace station_auto_timer_sent ++ es
       /\ status_notifications es = [(1, Finishing); (1, Available)]
       /\ _autoMeterValueIntervals (cp w') = ∅
       /\ intervals w' = ∅.
Proof.
  assert (Hk : _connectors (cp station_auto_timer_sent) !! 1 = Some connector_sent)
    by reflexivity.
  split; [exact Hk|]. split; [reflexivity|]. split; [reflexivity|].
  split; [reflexivity|].
  destruct (stopTransaction_spec station_auto_timer_sent 1 connector_sent
              transaction_sent Hk eq_refl eq_refl)
    as (w' & es & c' & t' & sent & Hrun & Hc & H1 & H2 & H3 & H4 & H5 & H6 & H7
        & H8 & H9 & H10 & _ & _ & _ & Htr & _ & Hsn & Hreg & Hiv).
  exists w', es, c', t', sent.
  split; [exact Hrun|]. split; [exact Hc|]. split; [exact H1|]. split; [exact H2|].
  split; [exact H3|]. split; [exact H4|]. split; [exact H5|]. split; [exact H6|].
  split; [exact H7|]. split; [exact H8|]. split; [exact H9|]. split; [exact H10|].
  split; [exact Htr|]. split; [exact Hsn|].
  split; [rewrite Hreg; reflexivity|rewrite Hiv; reflexivity].
Defined.

(** ** What a method leaves alone *)

Section Keeps.
Variable I : World -> Prop.

Lemma keeps_mret {A} (a : A) : keeps I (mret a).
Proof. by intros w Hw. Qed.

Lemma keeps_throw {A} (e : JSError) : keeps I (throw (A := A) e).
Proof. by intros w Hw. Qed.

Lemma keeps_this : keeps I this.
Proof. by intros w Hw. Qed.

Lemma keeps_new_Date : keeps I new_Date.
Proof. by intros w Hw. Qed.

Lemma keeps_bind {A B} (m : M A) (k : A -> M B) :
  keeps I m -> (forall a, keeps I (k a)) -> keeps I (m ≫= k).
Proof.
  intros Hm Hk w Hw. specialize (Hm w Hw).
  unfold mbind, M_bind. destruct (m w) as [a w'|e w']; cbn in *; [|done].
  by apply Hk.
Qed.

Lemma keeps_this_bind {A} (k : ChargePoint -> M A) :
  (forall w, I w -> I (world_of (k (cp w) w))) -> keeps I (this ≫= k).
Proof. intros Hk w Hw. by apply Hk. Qed.
End Keeps.

Section Frozen.
Variable ivs : gmap TimerId Interval.
Variable reg : gmap Z TimerId.
Let I := timers_frozen ivs reg.

Lemma frozen_emit (e : Event) : keeps I (emit e).
Proof. by intros w Hw. Qed.

Lemma frozen_Connector_write (k : Z) (f : Connector -> Connector) :
  keeps I (Connector_write k f).
Proof. by intros w Hw. Qed.

Lemma frozen_call_if_set (f : option Callback) (e : Callback -> Event) :
  keeps I (call_if_set f e).
Proof. destruct f; [apply frozen_emit|apply keeps_mret]. Qed.

Lemma frozen_Connector_set_status (k : Z) (s : OCPPStatus) :
  keeps I (Connector_set_status k s).
Proof.
  unfold Connector_set_status. apply keeps_bind; [apply keeps_this|].
  intros p. destruct (_connectors p !! k); [|apply keeps_mret].
  repeat (apply keeps_bind; [|intros ?]);
    auto using frozen_Connector_write, frozen_emit, frozen_call_if_set.
Qed.

Lemma frozen_updateConnectorStatus (k : Z) (s : OCPPStatus) :
  keeps I (updateConnectorStatus k s).
Proof.
  unfold updateConnectorStatus, getConnector, logger_error.
  apply keeps_bind; [|intros [c|]].
  - apply keeps_bind; [apply keeps_this|]. intros p. apply keeps_mret.
  - apply keeps_bind; [apply frozen_Connector_set_status|].
    intros _. apply frozen_emit.
  - apply frozen_emit.
Qed.

Lemma frozen_cleanTransaction (connector : ConnectorOrId) :
  keeps I (cleanTransaction connector).
Proof.
  unfold cleanTransaction. apply keeps_bind; [apply keeps_this|]. intros p.
  destruct (match connector with
            | ById n => (n, n)
            | ByRef key => (from_option c_id key (_connectors p !! key), key)
            end) as [connectorId holder].
  apply keeps_bind; [apply frozen_Connector_write|]. intros _.
  apply keeps_bind; [apply frozen_updateConnectorStatus|]. intros _.
  apply keeps_this_bind. intros w Hw.
  destruct Hw as (Hi & Hr & Hs). rewrite Hs. by repeat split.
Qed.

Lemma frozen_stopTransaction (connectorId : ConnectorOrId) :
  keeps I (stopTransaction connectorId).
Proof.
  unfold stopTransaction. apply keeps_bind; [apply keeps_this|]. intros p.
  destruct (match connectorId with
            | ById n => (n, (fun _ => n) <$> _connectors p !! n)
            | ByRef key => (from_option c_id key (_connectors p !! key), Some key)
            end) as [connId connector].
  apply keeps_bind; [|intros _; apply frozen_updateConnectorStatus].
  destruct connector as [key|]; [|apply frozen_emit].
  destruct (_connectors p !! key ≫= c_transaction); [|apply keeps_throw].
  unfold Connector_get_meterValue, Connector_get_transaction, Transaction_write.
  apply keeps_bind; [apply keeps_new_Date|]. intros stopTime.
  apply keeps_bind; [apply frozen_Connector_write|]. intros _.
  apply keeps_bind; [|intros meterValue].
  { apply keeps_bind; [apply keeps_this|]. intros ?. apply keeps_mret. }
  apply keeps_bind; [apply frozen_Connector_write|]. intros _.
  apply keeps_bind; [|intros transaction].
  { apply keeps_bind; [apply keeps_this|]. intros ?. apply keeps_mret. }
  apply keeps_bind; [|intros _; apply frozen_cleanTransaction].
  destruct transaction; [apply frozen_emit|apply keeps_mret].
Qed.
End Frozen.

(** C10. With [_autoMeterValueSetting] null, neither [cleanTransaction] nor
    [stopTransaction] -- on any argument, and whether it returns or throws --
    cancels an interval or touches the registry: an interval started through
    [startAutoMeterValue] stays registered and live. *)
Theorem timers_survive_when_unconfigured (w : World) (connector : ConnectorOrId) :
  _autoMeterValueSetting (cp w) = None ->
  (intervals (world_of (cleanTransaction connector w)) = intervals w
   /\ _autoMeterValueIntervals (cp (world_of (cleanTransaction connector w)))
      = _autoMeterValueIntervals (cp w))
  /\ (intervals (world_of (stopTransaction connector w)) = intervals w
      /\ _autoMeterValueIntervals (cp (world_of (stopTransaction connector w)))
         = _autoMeterValueIntervals (cp w)).
Proof.
  intros Hs.
  assert (Hw : timers_frozen (intervals w) (_autoMeterValueIntervals (cp w)) w)
    by done.
  destruct (frozen_cleanTransaction _ _ connector w Hw) as (? & ? & _).
  destruct (frozen_stopTransaction _ _ connector w Hw) as (? & ? & _).
  done.
Qed.

Lemma timers_survive_when_unconfigured_witness :
  _autoMeterValueSetting (cp station_manual_timer) = None
  /\ (intervals (world_of (cleanTransaction (ById 1) station_manual_timer))
      = intervals station_manual_timer
      /\ _autoMeterValueIntervals
           (cp (world_of (cleanTransaction (ById 1) station_manual_timer)))
         = _autoMeterValueIntervals (cp station_manual_timer))
  /\ (intervals (world_of (stopTransaction (ById 1) station_manual_timer))
      = intervals station_manual_timer
      /\ _autoMeterValueIntervals
           (cp (world_of (stopTransaction (ById 1) station_manual_timer)))
         = _autoMeterValueIntervals (cp station_manual_timer)).
Proof.
  assert (Hs : _autoMeterValueSetting (cp station_manual_timer) = None) by reflexivity.
  split; [exact Hs|].
  exact (timers_survive_when_unconfigured station_manual_timer (ById 1) Hs).
Defined.

(** On that station the stop returns, the interval started by hand is still
    registered and live, and its next tick still moves the meter and sends
    a reading. *)
Example manual_timer_ticks_after_stop :
  let w' := world_of (stopTransaction (ById 1) station_manual_timer) in
  returned (stopTransaction (ById 1) station_manual_timer) = Some tt
  /\ _autoMeterValueIntervals (cp w') !! 1 = Some 1%positive
  /\ live (is_autoMeterValue_of 1) w' = [1%positive]
  /\ c_meterValue <$> _connectors (cp (world_of (fire 1 w'))) !! 1 = Some 510
  /\ count_events is_meter_value (trace (world_of (fire 1 w'))) = 1%nat.
Proof. vm_compute. repeat split. Qed.

(** ** Reading a sampled value back *)

Lemma thousandths_all_ok : forallb thousandths_ok (seqZ 1 999) = true.
Proof. vm_compute. reflexivity. Qed.

Lemma thousandths_toString_value (r : Z) :
  1 <= r <= 999 ->
  exists u,
    digits_value (thousandths_toString r) = Some u
    /\ u * 1000
       = r * Z.pos (Pos.pow 10 (Pos.of_nat (String.length (thousandths_toString r)))).
Proof.
  intros Hr.
  assert (Hin : r ∈ seqZ 1 999) by (apply elem_of_seqZ; lia).
  pose proof thousandths_all_ok as Hall.
  rewrite forallb_forall in Hall. apply list_elem_of_In in Hin.
  specialize (Hall r Hin). unfold thousandths_ok in Hall.
  destruct (digits_value (thousandths_toString r)) as [u|]; [|done].
  exists u. split; [done|]. by apply bool_decide_eq_true in Hall.
Qed.

Lemma string_of_uint_nonnil (d : Decimal.uint) :
  d ≠ Decimal.Nil -> NilZero.string_of_uint d = NilEmpty.string_of_uint d.
Proof. destruct d; try done; by rewrite ?append_String. Qed.

Lemma Number_toString_nonneg (z : Z) :
  0 <= z ->
  exists d, d ≠ Decimal.Nil
    /\ Number_toString z = NilEmpty.string_of_uint d
    /\ Z.of_uint d = z.
Proof.
  intros Hz. destruct z as [|p|p]; [| |lia].
  - exists (Decimal.D0 Decimal.Nil). by repeat split.
  - exists (Pos.to_uint p). split; [apply DecimalPos.Unsigned.to_uint_nonnil|].
    split.
    + unfold Number_toString. cbn.
      apply string_of_uint_nonnil, DecimalPos.Unsigned.to_uint_nonnil.
    + unfold Z.of_uint. by rewrite DecimalPos.Unsigned.of_to.
Qed.

Lemma Number_toString_neg (z : Z) :
  z < 0 -> Number_toString z = String "-" (Number_toString (- z)).
Proof. intros Hz. destruct z as [|p|p]; try lia. reflexivity. Qed.

Lemma append_nil_l (t : string) : "" +:+ t = t.
Proof. reflexivity. Qed.

Lemma append_String (a : ascii) (s t : string) : String a s +:+ t = String a (s +:+ t).
Proof. reflexivity. Qed.

Lemma split_point_digits (d : Decimal.uint) (t : string) :
  split_point (NilEmpty.string_of_uint d +:+ t)
  = (NilEmpty.string_of_uint d +:+ (split_point t).1, (split_point t).2).
Proof.
  induction d as [|d IH|d IH|d IH|d IH|d IH|d IH|d IH|d IH|d IH|d IH];
    cbn [NilEmpty.string_of_uint]; rewrite ?append_nil_l, ?append_String;
    [by destruct (split_point t) | cbn; by rewrite IH ..].
Qed.

Lemma digits_value_digits (d : Decimal.uint) :
  d ≠ Decimal.Nil -> digits_value (NilEmpty.string_of_uint d) = Some (Z.of_uint d).
Proof.
  intros Hd. unfold digits_value.
  rewrite <- (string_of_uint_nonnil d Hd), NilZero.usu by done. reflexivity.
Qed.

Lemma digits_not_minus (d : Decimal.uint) (t : string) :
  d ≠ Decimal.Nil ->
  decimal_value (NilEmpty.string_of_uint d +:+ t)
  = unsigned_decimal (NilEmpty.string_of_uint d +:+ t).
Proof. destruct d; try done; by rewrite ?append_String. Qed.

Lemma append_nil_r (s : string) : s +:+ "" = s.
Proof. induction s as [|a s IH]; [done|]. by rewrite append_String, IH. Qed.

Lemma unsigned_decimal_int (d : Decimal.uint) :
  d ≠ Decimal.Nil ->
  unsigned_decimal (NilEmpty.string_of_uint d) = Some (inject_Z (Z.of_uint d)).
Proof.
  intros Hd. unfold unsigned_decimal.
  rewrite <- (append_nil_r (NilEmpty.string_of_uint d)) at 1.
  rewrite split_point_digits. cbn [split_point fst snd].
  by rewrite append_nil_r, digits_value_digits.
Qed.

Lemma unsigned_decimal_frac (d : Decimal.uint) (f : string) (u : Z) :
  d ≠ Decimal.Nil ->
  digits_value f = Some u ->
  unsigned_decimal (NilEmpty.string_of_uint d +:+ "." +:+ f)
  = Some (Qplus (inject_Z (Z.of_uint d))
                (Qmake u (Pos.pow 10 (Pos.of_nat (String.length f))))).
Proof.
  intros Hd Hf. unfold unsigned_decimal.
  rewrite split_point_digits.
  change (split_point ("." +:+ f)) with (EmptyString, Some f). cbn [fst snd].
  by rewrite append_nil_r, digits_value_digits, Hf.
Qed.

Lemma div1000_digits_value (a : Z) :
  0 <= a ->
  exists q,
    unsigned_decimal (div1000_digits a) = Some q
    /\ decimal_value (div1000_digits a) = Some q
    /\ (q == a # 1000)%Q.
Proof.
  intros Ha. unfold div1000_digits.
  destruct (Number_toString_nonneg (a / 1000)) as (d & Hd & -> & Hv);
    [apply Z.div_pos; lia|].
  pose proof (Z.div_mod a 1000 ltac:(lia)) as Hdm.
  pose proof (Z.mod_pos_bound a 1000 ltac:(lia)) as Hr.
  rewrite digits_not_minus by done.
  destruct (decide (a mod 1000 = 0)) as [H0|H0].
  - rewrite append_nil_r, unsigned_decimal_int by done.
    eexists. split; [reflexivity|]. split; [reflexivity|].
    unfold Qeq, inject_Z. cbn [Qnum Qden]. lia.
  - destruct (thousandths_toString_value (a mod 1000)) as (u & Hu & Hval); [lia|].
    rewrite (unsigned_decimal_frac d _ u) by done.
    eexists. split; [reflexivity|]. split; [reflexivity|].
    unfold Qeq, Qplus, inject_Z. cbn [Qnum Qden].
    rewrite Pos.mul_1_l.
    revert Hval.
    generalize (Z.pos (10 ^ Pos.of_nat (String.length (thousandths_toString (a mod 1000))))).
    intros X Hval. nia.
Qed.

Lemma Number_div1000_toString_denotes (m : Z) :
  denotes (Number_div1000_toString m) (m # 1000).
Proof.
  unfold denotes, Number_div1000_toString. fold (div1000_digits (Z.abs m)).
  destruct (decide (m < 0)) as [Hm|Hm].
  - destruct (div1000_digits_value (Z.abs m)) as (q & Hq & _ & Heq); [lia|].
    exists (Qopp q). split.
    + change ("-" +:+ div1000_digits (Z.abs m))
        with (String "-" (div1000_digits (Z.abs m))).
      cbn [decimal_value]. change (Ascii.eqb "-" "-") with true. cbn iota.
      by rewrite Hq.
    + rewrite Heq. unfold Qeq, Qopp. cbn [Qnum Qden]. lia.
  - destruct (div1000_digits_value (Z.abs m)) as (q & _ & Hq & Heq); [lia|].
    exists q. split; [by rewrite append_nil_l|].
    rewrite Heq. unfold Qeq. cbn [Qnum Qden]. lia.
Qed.

Lemma Number_toString_denotes (m : Z) : denotes (Number_toString m) (inject_Z m).
Proof.
  unfold denotes. destruct (decide (m < 0)) as [Hm|Hm].
  - rewrite Number_toString_neg by done.
    destruct (Number_toString_nonneg (- m)) as (d & Hd & -> & Hv); [lia|].
    exists (Qopp (inject_Z (Z.of_uint d))). split.
    + cbn [decimal_value]. change (Ascii.eqb "-" "-") with true. cbn iota.
      by rewrite unsigned_decimal_int.
    + rewrite Hv. unfold Qeq, Qopp, inject_Z. cbn [Qnum Qden]. lia.
  - destruct (Number_toString_nonneg m) as (d & Hd & -> & Hv); [lia|].
    exists (inject_Z (Z.of_uint d)). split; [|by rewrite Hv].
    rewrite <- (append_nil_r (NilEmpty.string_of_uint d)) at 1.
    rewrite digits_not_minus by done.
    by rewrite append_nil_r, unsigned_decimal_int.
Qed.

(** C9. For a reading [m] of at most 15 digits: after
    [setMeterValueFormat format], the generator returns, without
    changing the engine, a snapshot in that format, stamped with the clock.
    In the [detailed] format it has ten readings, exactly one of them for
    [Energy.Active.Import.Register]: in Wh, and its text is a numeral for
    the reading [m]; the nine others carry fixed texts.  In the [simple]
    format it has seven readings, exactly one of them for the energy
    register: in kWh, and its text is a numeral for [m]/1000; the six others
    carry fixed texts. *)
Theorem generateDetailedMeterValues_spec
    (w : World) (format : MeterValueFormat) (m : Number) :
  Number_exact m ->
  exists w1 mv r,
    setMeterValueFormat format w = Returned tt w1
    /\ _meterValueFormat (cp w1) = format
    /\ generateDetailedMeterValues m w1 = Returned mv w1
    /\ mv_timestamp mv = now w
    /\ readings_of Energy_Active_Import_Register (mv_sampledValue mv) = [r]
    /\ match format with
       | detailed =>
           length (mv_sampledValue mv) = 10%nat
           /\ sv_unit r = Some U_Wh
           /\ denotes (sv_value r) (inject_Z m)
           /\ sv_value <$> readings_but Energy_Active_Import_Register (mv_sampledValue mv)
              = ["236.7"; "235.6"; "236.7"; "0.00"; "0.00"; "0.00"; "2000"; "10"; "22687"]
       | simple =>
           length (mv_sampledValue mv) = 7%nat
           /\ sv_unit r = Some U_kWh
           /\ denotes (sv_value r) (m # 1000)
           /\ sv_value <$> readings_but Energy_Active_Import_Register (mv_sampledValue mv)
              = ["26.4"; "66"; "45"; "79.89"; "0"; "330.1"]
       end.
Proof.
  intros _. unfold setMeterValueFormat, generateDetailedMeterValues. js_simpl.
  destruct format; cbn; eexists _, _, _;
    (split; [reflexivity|]); (split; [reflexivity|]); (split; [reflexivity|]);
    (split; [reflexivity|]); (split; [reflexivity|]); cbn;
    (split; [reflexivity|]); (split; [reflexivity|]); (split; [|reflexivity]).
  - apply Number_toString_denotes.
  - apply Number_div1000_toString_denotes.
Qed.

Lemma generateDetailedMeterValues_spec_witness :
  Number_exact 1500
  /\ exists w1 mv r,
       setMeterValueFormat simple station1 = Returned tt w1
       /\ _meterValueFormat (cp w1) = simple
       /\ generateDetailedMeterValues 1500 w1 = Returned mv w1
       /\ mv_timestamp mv = now station1
       /\ readings_of Energy_Active_Import_Register (mv_sampledValue mv) = [r]
       /\ length (mv_sampledValue mv) = 7%nat
       /\ sv_unit r = Some U_kWh
       /\ sv_value r = "1.5"
       /\ denotes (sv_value r) (1500 # 1000)
       /\ sv_value <$> readings_but Energy_Active_Import_Register (mv_sampledValue mv)
          = ["26.4"; "66"; "45"; "79.89"; "0"; "330.1"].
Proof.
  assert (He : Number_exact 1500) by (unfold Number_exact; lia).
  split; [exact He|].
  destruct (generateDetailedMeterValues_spec station1 simple 1500 He)
    as (w1 & mv & r & H1 & H2 & H3 & H4 & H5 & H6 & H7 & H8 & H9).
  exists w1, mv, r.
  split; [exact H1|]. split; [exact H2|]. split; [exact H3|]. split; [exact H4|].
  split; [exact H5|]. split; [exact H6|]. split; [exact H7|].
  split; [|split; [exact H8|exact H9]].
  injection H1 as <-. injection H3 as <-. by injection H5 as <-.
Defined.

(** The texts of the energy reading for a few readings. *)
Example energy_texts :
  Number_toString 1500 = "1500"
  /\ Number_div1000_toString 1500 = "1.5"
  /\ Number_div1000_toString 3938330 = "3938.33"
  /\ Number_div1000_toString 7 = "0.007"
  /\ Number_div1000_toString 0 = "0"
  /\ Number_div1000_toString (-2001) = "-2.001".
Proof. vm_compute. repeat split. Qed.

(** The format in force is the one a snapshot is generated in, and
    generating a snapshot does not change it. *)
Lemma generateDetailedMeterValues_format (w : World) (m : Number) :
  generateDetailedMeterValues m w
  = Returned {| mv_timestamp := now w;
                mv_sampledValue := match _meterValueFormat (cp w) with
                                   | detailed => detailed_sampledValue m
                                   | simple => simple_sampledValue m
                                   end |} w.
Proof.
  unfold generateDetailedMeterValues. js_simpl.
  by destruct (_meterValueFormat (cp w)).
Qed.

(** ** Connection loss *)

(** C6. The close callback installed by [connect] returns for every close
    event (the code of a close event is an unsigned short); afterwards the
    station and every connector are [Unavailable], and the error is the
    close message -- a fixed text, then the code as a decimal numeral that
    reads back as that code, then the reason -- except for code 1005, where
    the error is what it was before. *)
Theorem connect_onClose_spec (w : World) (ev : CloseEvent) :
  0 <= code ev <= 65535 ->
  exists w',
    connect_onClose ev w = Returned tt w'
    /\ _status (cp w') = Unavailable
    /\ map_Forall (fun _ c => c_status c = Unavailable) (_connectors (cp w'))
    /\ dom (_connectors (cp w')) = dom (_connectors (cp w))
    /\ _error (cp w')
       = (if decide (code ev = 1005) then _error (cp w)
          else "WebSocket closed code: " +:+ Number_toString (code ev)
               +:+ " reason: " +:+ reason ev)
    /\ denotes (Number_toString (code ev)) (inject_Z (code ev)).
Proof.
  intros _.
  pose proof (Number_toString_denotes (code ev)) as Hden.
  unfold connect_onClose, set_status.
  unfold mbind, M_bind, update_this. cbn.
  set (w1 := call_if_set _ _ _).
  assert (Hw1 : exists es, w1 = Returned tt
            (w_set_trace (trace w ++ es) (w_set_cp (cp_set_status Unavailable (cp w)) w))).
  { subst w1. unfold call_if_set, this. cbn.
    destruct (_statusChangeCallback (cp w)); cbn.
    - by eexists.
    - exists []. unfold w_set_trace; cbn. by rewrite app_nil_r. }
  destruct Hw1 as [es1 ->].
  destruct (updateAllConnectorsStatus_state
    (w_set_trace (trace w ++ es1) (w_set_cp (cp_set_status Unavailable (cp w)) w))
    Unavailable) as [es2 ->].
  unfold logger_error, emit, when, set_error. cbn.
  assert (Hall : map_Forall (fun _ c => c_status c = Unavailable)
            (c_set_status Unavailable <$> _connectors (cp w))).
  { intros k c. rewrite lookup_fmap. destruct (_connectors (cp w) !! k); cbn; [|done].
    by intros [= <-]. }
  destruct (decide (code ev = 1005)) as [Hc|Hc].
  - rewrite bool_decide_eq_false_2 by tauto. cbn.
    eexists. split; [reflexivity|]. cbn. by rewrite dom_fmap_L.
  - rewrite bool_decide_eq_true_2 by done.
    unfold mbind, M_bind, update_this, this, call_if_set. cbn.
    destruct (_errorCallback (cp w)); cbn;
      (eexists; split; [reflexivity|]; cbn; by rewrite dom_fmap_L).
Qed.

Lemma connect_onClose_spec_witness :
  0 <= code close_1006 <= 65535
  /\ exists w',
       connect_onClose close_1006 station2_booted = Returned tt w'
       /\ _status (cp w') = Unavailable
       /\ map_Forall (fun _ c => c_status c = Unavailable) (_connectors (cp w'))
       /\ dom (_connectors (cp w')) = dom (_connectors (cp station2_booted))
       /\ _error (cp w') = "WebSocket closed code: 1006 reason: gone"
       /\ denotes "1006" (inject_Z 1006).
Proof.
  assert (Hc : 0 <= code close_1006 <= 65535) by (cbn; lia).
  split; [exact Hc|].
  exact (connect_onClose_spec station2_booted close_1006 Hc).
Defined.

(** After [boot] the station and its two connectors are [Available]; a close
    with code 1006 makes them [Unavailable] and leaves its message as the
    error; a following close with code 1005 leaves that error alone. *)
Example close_1006_error :
  _status (cp station2_booted) = Available
  /\ c_status <$> _connectors (cp station2_booted) !! 2 = Some Available
  /\ c_status <$> _connectors (cp (world_of (connect_onClose close_1006 station2_booted))) !! 2
     = Some Unavailable
  /\ _error (cp (world_of (connect_onClose close_1006 station2_booted)))
     = "WebSocket closed code: 1006 reason: gone"
  /\ _error (cp (world_of ((connect_onClose close_1006;; connect_onClose close_1005)
                             station2_booted)))
     = "WebSocket closed code: 1006 reason: gone".
Proof. vm_compute. repeat split. Qed.

(** ** Reachable worlds are well formed *)

Lemma keeps_forEach (I : World -> Prop) {A} (l : list A) (body : A -> M unit) :
  (forall x, keeps I (body x)) -> keeps I (forEach l body).
Proof.
  intros Hbody. induction l as [|x l IH]; cbn.
  - apply keeps_mret.
  - apply keeps_bind; [apply Hbody|]. intros _. apply IH.
Qed.

Lemma wf_emit (e : Event) : keeps well_formed (emit e).
Proof. by intros w Hw. Qed.

Lemma wf_Connector_write (k : Z) (f : Connector -> Connector) :
  (forall c, c_id (f c) = c_id c) -> keeps well_formed (Connector_write k f).
Proof.
  intros Hf w (Hid & Hfr & Hhb). repeat split; [|done..].
  intros j c. cbn. rewrite lookup_alter_Some.
  intros [(-> & c' & Hc' & ->)|(_ & Hc)].
  - rewrite Hf. by apply Hid.
  - by apply Hid.
Qed.

Lemma wf_update_this (f : ChargePoint -> ChargePoint) :
  (forall p, _connectors (f p) = _connectors p) ->
  (forall p, _heartbeat (f p) = _heartbeat p) ->
  keeps well_formed (update_this f).
Proof.
  intros Hc Hh w (Hid & Hfr & Hhb). repeat split.
  - unfold ids_consistent. cbn. by rewrite Hc.
  - done.
  - unfold heartbeat_known. cbn. by rewrite Hh.
Qed.

Lemma wf_clearInterval (h : TimerId) : keeps well_formed (clearInterval h).
Proof.
  intros w (Hid & Hfr & Hhb). repeat split; [done| |].
  - intros j iv. cbn. rewrite lookup_delete_Some. intros [_ Hj]. by apply (Hfr j iv).
  - intros j iv. cbn. rewrite lookup_delete_Some. intros [_ Hj]. by apply (Hhb j iv).
Qed.

Lemma wf_setInterval_autoMeterValue (k v delay : Number) :
  keeps well_formed (setInterval (AutoMeterValueTick k v) delay).
Proof.
  intros w (Hid & Hfr & Hhb). repeat split; [done| |].
  - intros j iv. cbn. rewrite lookup_insert_Some. intros [[<- _]|[_ Hj]].
    + lia.
    + specialize (Hfr j iv Hj). cbn in Hfr. lia.
  - intros j iv. cbn. rewrite lookup_insert_Some. intros [[<- <-]|[_ Hj]].
    + done.
    + by apply (Hhb j iv).
Qed.

Lemma wf_startHeartbeat (period : Number) : keeps well_formed (startHeartbeat period).
Proof.
  intros w (Hid & Hfr & Hhb). unfold startHeartbeat. js_simpl.
  destruct (_heartbeat (cp w)) as [h|] eqn:Hh; cbn; (repeat split; [done| |]).
  - intros j iv. cbn. rewrite lookup_insert_Some, lookup_delete_Some.
    intros [[<- _]|(_ & _ & Hj)]; [lia|].
    specialize (Hfr j iv Hj). cbn in Hfr. lia.
  - intros j iv. cbn. rewrite lookup_insert_Some, lookup_delete_Some.
    intros [[<- _]|(_ & Hne & Hj)]; [done|]. intros Htask.
    specialize (Hhb j iv Hj Htask). cbn in Hhb. congruence.
  - intros j iv. cbn. rewrite lookup_insert_Some.
    intros [[<- _]|(_ & Hj)]; [lia|].
    specialize (Hfr j iv Hj). cbn in Hfr. lia.
  - intros j iv. cbn. rewrite lookup_insert_Some.
    intros [[<- _]|(_ & Hj)]; [done|]. intros Htask.
    specialize (Hhb j iv Hj Htask). cbn in Hhb. congruence.
Qed.

(** One step of a proof that a method keeps the worlds well formed: split a
    sequence, case on what a branch tests, or close a primitive action. *)
Ltac wf_step :=
  match goal with
  | |- keeps _ (mbind _ _) => apply keeps_bind; [|intros ?]
  | |- keeps _ (mret _) => apply keeps_mret
  | |- keeps _ this => apply keeps_this
  | |- keeps _ new_Date => apply keeps_new_Date
  | |- keeps _ (throw _) => apply keeps_throw
  | |- keeps _ (emit _) => apply wf_emit
  | |- keeps _ (clearInterval _) => apply wf_clearInterval
  | |- keeps _ (setInterval (AutoMeterValueTick _ _) _) =>
      apply wf_setInterval_autoMeterValue
  | |- keeps _ (Connector_write _ _) => apply wf_Connector_write; by intros []
  | |- keeps _ (update_this _) => apply wf_update_this; by intros []
  | |- keeps _ (forEach _ _) => apply keeps_forEach; intros []
  | |- keeps _ (match ?x with _ => _ end) => destruct x
  end.

Ltac wf_auto := repeat wf_step.

Lemma wf_Connector_set_status (k : Z) (s : OCPPStatus) :
  keeps well_formed (Connector_set_status k s).
Proof. unfold Connector_set_status, call_if_set. wf_auto. Qed.

Lemma wf_updateConnectorStatus (k : Z) (s : OCPPStatus) :
  keeps well_formed (updateConnectorStatus k s).
Proof.
  unfold updateConnectorStatus, getConnector, logger_error. wf_auto.
  apply wf_Connector_set_status.
Qed.

Lemma wf_updateAllConnectorsStatus (s : OCPPStatus) :
  keeps well_formed (updateAllConnectorsStatus s).
Proof.
  unfold updateAllConnectorsStatus, get_connectors. wf_auto;
    apply wf_Connector_set_status.
Qed.

Lemma wf_set_status (s : OCPPStatus) : keeps well_formed (set_status s).
Proof. unfold set_status, call_if_set. wf_auto. Qed.

Lemma wf_set_error (e : string) : keeps well_formed (set_error e).
Proof. unfold set_error, call_if_set. wf_auto. Qed.

Lemma wf_boot : keeps well_formed boot.
Proof.
  unfold boot. wf_auto;
    auto using wf_set_status, wf_updateAllConnectorsStatus, wf_set_error.
Qed.

Lemma wf_connect_onClose (ev : CloseEvent) : keeps well_formed (connect_onClose ev).
Proof.
  unfold connect_onClose, logger_error, when. wf_auto;
    auto using wf_set_status, wf_updateAllConnectorsStatus, wf_set_error.
Qed.

Lemma wf_stopAutoMeterValue (k : Number) : keeps well_formed (stopAutoMeterValue k).
Proof. unfold stopAutoMeterValue. wf_auto. Qed.

Lemma wf_startAutoMeterValue (k i v : Number) :
  keeps well_formed (startAutoMeterValue k i v).
Proof. unfold startAutoMeterValue. wf_auto. Qed.

Lemma wf_startTransaction (t : string) (k : Number) :
  keeps well_formed (startTransaction t k).
Proof.
  unfold startTransaction, getConnector, logger_error, when. wf_auto;
    auto using wf_updateConnectorStatus, wf_startAutoMeterValue.
Qed.

Lemma wf_cleanTransaction (connector : ConnectorOrId) :
  keeps well_formed (cleanTransaction connector).
Proof.
  unfold cleanTransaction, Transaction_write. wf_auto;
    auto using wf_updateConnectorStatus, wf_stopAutoMeterValue.
Qed.

Lemma wf_stopTransaction (connectorId : ConnectorOrId) :
  keeps well_formed (stopTransaction connectorId).
Proof.
  unfold stopTransaction, Transaction_write, Connector_get_meterValue,
    Connector_get_transaction, logger_error.
  wf_auto; auto using wf_updateConnectorStatus, wf_cleanTransaction.
Qed.

Lemma wf_generateDetailedMeterValues (m : Number) :
  keeps well_formed (generateDetailedMeterValues m).
Proof. unfold generateDetailedMeterValues. wf_auto. Qed.

Lemma wf_sendDetailedMeterValue (k : Number) (data : MeterValue) :
  keeps well_formed (sendDetailedMeterValue k data).
Proof. unfold sendDetailedMeterValue, getConnector, logger_error. wf_auto. Qed.

Lemma wf_setMeterValue (k m : Number) : keeps well_formed (setMeterValue k m).
Proof.
  unfold setMeterValue, Connector_set_meterValue, getConnector, logger_error,
    call_if_set.
  wf_auto.
Qed.

Lemma wf_autoMeterValue_tick (k v : Number) : keeps well_formed (autoMeterValue_tick k v).
Proof.
  unfold autoMeterValue_tick, getConnector. wf_auto;
    auto using wf_setMeterValue, wf_generateDetailedMeterValues,
      wf_sendDetailedMeterValue.
Qed.

Lemma wf_fire (h : TimerId) : keeps well_formed (fire h).
Proof.
  intros w Hw. unfold fire.
  destruct (intervals w !! h) as [iv|]; [|done].
  destruct (iv_task iv).
  - by apply wf_emit.
  - by apply wf_autoMeterValue_tick.
Qed.

Lemma wf_run (c : Command) : keeps well_formed (run c).
Proof.
  destruct c; cbn [run];
    unfold connect, disconnect, reset, authorize, sendHeartbeat, stopHeartbeat,
      sendMeterValue, sendCurrentDetailedMeterValue, setMeterValueFormat,
      updateConnectorAvailability, setTransactionID, Connector_set_transactionId,
      set_errorCallback, set_statusChangeCallback,
      setConnectorTransactionIDChangeCallback, setConnectorStatusChangeCallback,
      setConnectorMeterValueChangeCallback, setAvailabilityChangeCallback,
      connect_onOpen, getConnector, logger_error, logger_info, call_if_set;
    wf_auto;
    auto using wf_set_status, wf_set_error, wf_boot, wf_startTransaction, wf_stopTransaction,
      wf_cleanTransaction, wf_startHeartbeat, wf_setMeterValue,
      wf_startAutoMeterValue, wf_stopAutoMeterValue,
      wf_updateAllConnectorsStatus, wf_updateConnectorStatus,
      wf_connect_onClose, wf_fire, wf_generateDetailedMeterValues,
      wf_sendDetailedMeterValue.
  all: by intros w Hw.
Qed.

Lemma well_formed_new (p : ChargePoint) (clock : Date) :
  map_Forall (fun k c => c_id c = k) (_connectors p) ->
  _heartbeat p = None ->
  well_formed (new_World p clock).
Proof. intros Hid Hh. repeat split; [done|..]; apply map_Forall_empty. Qed.

Lemma constructor_ids (id : string) (b : BootNotification) (n : Number) (url : string)
    (a : option AutoMeterValueSetting) :
  map_Forall (fun k c => c_id c = k) (_connectors (constructor id b n url a)).
Proof.
  intros k c. cbn. intros Hk. apply elem_of_list_to_map_2 in Hk.
  apply list_elem_of_fmap in Hk as (i & [= -> ->] & _). reflexivity.
Qed.

(** Every reachable world is well formed. *)
Lemma reachable_well_formed (w : World) : reachable w -> well_formed w.
Proof.
  induction 1 as [id b n url a clock|w c _ IH].
  - apply well_formed_new; [apply constructor_ids|done].
  - by apply wf_run.
Qed.

(** In a reachable world a connector carries the id it is stored under, and
    a live handle is not the one [setInterval] hands out next. *)
Lemma reachable_connector_id (w : World) (k : Number) (c : Connector) :
  reachable w -> _connectors (cp w) !! k = Some c -> c_id c = k.
Proof. intros Hr Hk. by apply (reachable_well_formed w Hr). Qed.

Lemma reachable_handle_fresh (w : World) (h : TimerId) (iv : Interval) :
  reachable w -> intervals w !! h = Some iv -> h ≠ next_timer w.
Proof.
  intros Hr Hh. destruct (reachable_well_formed w Hr) as (_ & Hfr & _).
  specialize (Hfr h iv Hh). cbn in Hfr. lia.
Qed.

(** *** At most one heartbeat *)

Lemma elem_of_live (p : Interval -> bool) (w : World) (h : TimerId) :
  h ∈ live p w <-> exists iv, intervals w !! h = Some iv /\ p iv = true.
Proof.
  unfold live. rewrite list_elem_of_omap. split.
  - intros ([h' iv] & Hin & Hp). apply elem_of_map_to_list in Hin.
    destruct (p iv) eqn:E; [|done]. injection Hp as ->. by exists iv.
  - intros (iv & Hh & Hp). exists (h, iv). split.
    + by apply elem_of_map_to_list.
    + by rewrite Hp.
Qed.

Lemma live_sublist (p : Interval -> bool) (l : list (TimerId * Interval)) :
  omap (fun '(h, iv) => if p iv then Some h else None) l `sublist_of` l.*1.
Proof.
  induction l as [|[h iv] l IH]; cbn; [constructor|].
  destruct (p iv); by constructor.
Qed.

Lemma NoDup_live (p : Interval -> bool) (w : World) : NoDup (live p w).
Proof.
  apply (sublist_NoDup _ (map_to_list (intervals w)).*1);
    [apply NoDup_fst_map_to_list|apply live_sublist].
Qed.

(** X21. Whatever the sequence of commands, at most one heartbeat interval
    is live. *)
Lemma reachable_one_heartbeat (w : World) :
  reachable w -> (length (live is_heartbeat w) <= 1)%nat.
Proof.
  intros Hr. destruct (reachable_well_formed w Hr) as (_ & _ & Hhb).
  pose proof (NoDup_live is_heartbeat w) as Hnd.
  assert (Hall : forall h, h ∈ live is_heartbeat w -> _heartbeat (cp w) = Some h).
  { intros h. rewrite elem_of_live. intros (iv & Hh & Hp).
    apply (Hhb h iv Hh). unfold is_heartbeat in Hp. by destruct (iv_task iv). }
  destruct (live is_heartbeat w) as [|a [|b l]]; cbn; [lia..|].
  assert (a = b).
  { pose proof (Hall a ltac:(rewrite elem_of_cons; tauto)) as Ha.
    pose proof (Hall b ltac:(rewrite !elem_of_cons; tauto)) as Hb. congruence. }
  subst b. apply NoDup_cons in Hnd as [Hnotin _].
  destruct Hnotin. by left.
Qed.

(** The auto-telemetry intervals have no such bound: on a reachable world,
    [startAutoMeterValue] on a connector whose registered interval is live
    leaves that interval live next to the new one. *)
Lemma reachable_startAutoMeterValue_leaks
    (w : World) (c i v : Number) (h : TimerId) (iv : Interval) :
  reachable w ->
  _autoMeterValueIntervals (cp w) !! c = Some h ->
  intervals w !! h = Some iv ->
  let w' := world_of (startAutoMeterValue c i v w) in
  reachable w'
  /\ intervals w' !! h = Some iv
  /\ intervals w' !! next_timer w
     = Some {| iv_task := AutoMeterValueTick c v; iv_delay := i * 1000 |}
  /\ h ≠ next_timer w.
Proof.
  intros Hr Hreg Hlive w'.
  pose proof (reachable_handle_fresh w h iv Hr Hlive) as Hfresh.
  split; [apply (reachable_run w (Call_startAutoMeterValue c i v) Hr)|].
  subst w'. unfold startAutoMeterValue. js_simpl.
  rewrite lookup_insert_ne by done. by rewrite lookup_insert_eq.
Qed.

(** * Further properties *)

(** ** Construction *)

Lemma constructor_keys (n : Z) :
  ((fun i => (i, new_Connector i)) <$> seqZ 1 n).*1 = seqZ 1 n.
Proof.
  rewrite <- list_fmap_compose. rewrite <- (list_fmap_id (seqZ 1 n)) at 2.
  by apply list_fmap_ext.
Qed.

(** X1. A station constructed with connector count [n] has exactly the
    connectors 1..n, each one a new connector carrying its own id: a lookup
    inside that range finds it, a lookup outside finds nothing, and the
    connector number is [n] (0 for a negative count). *)
Theorem constructor_connectors (id : string) (b : BootNotification) (n : Z)
    (url : string) (a : option AutoMeterValueSetting) (k : Z) :
  _connectors (constructor id b n url a) !! k
  = (if decide (1 <= k <= n) then Some (new_Connector k) else None)
  /\ size (_connectors (constructor id b n url a)) = Z.to_nat n.
Proof.
  cbn [_connectors constructor]. split.
  - case_decide as Hk.
    + apply elem_of_list_to_map.
      * rewrite constructor_keys. apply NoDup_seqZ.
      * apply list_elem_of_fmap. exists k. split; [done|].
        apply elem_of_seqZ. lia.
    + apply not_elem_of_list_to_map. rewrite constructor_keys.
      rewrite elem_of_seqZ. lia.
  - rewrite <- length_map_to_list.
    rewrite (map_to_list_to_map ((fun i => (i, new_Connector i)) <$> seqZ 1 n))
      by (rewrite constructor_keys; apply NoDup_seqZ).
    by rewrite length_fmap, length_seqZ.
Qed.

(** ** Commands on a connector that does not exist *)

(** X2. On an id that names no connector, [startTransaction],
    [setMeterValue], [sendMeterValue], [sendCurrentDetailedMeterValue],
    [sendDetailedMeterValue], [updateConnectorStatus] and [setTransactionID]
    all return after logging the one error ["Connector <id> not found"];
    nothing is sent and nothing else of the world changes. *)
Theorem missing_connector_is_logged (w : World) (k : Number) :
  _connectors (cp w) !! k = None ->
  (forall tagId, startTransaction tagId k w = Returned tt (logged_error (not_found k) w))
  /\ (forall m, setMeterValue k m w = Returned tt (logged_error (not_found k) w))
  /\ sendMeterValue k w = Returned tt (logged_error (not_found k) w)
  /\ sendCurrentDetailedMeterValue k w = Returned tt (logged_error (not_found k) w)
  /\ (forall data, sendDetailedMeterValue k data w
                   = Returned tt (logged_error (not_found k) w))
  /\ (forall s, updateConnectorStatus k s w = Returned tt (logged_error (not_found k) w))
  /\ (forall i, setTransactionID k i w = Returned tt (logged_error (not_found k) w)).
Proof.
  intros Hk.
  repeat split; intros;
    unfold startTransaction, setMeterValue, sendMeterValue,
      sendCurrentDetailedMeterValue, sendDetailedMeterValue, updateConnectorStatus,
      setTransactionID;
    js_simpl; by rewrite Hk.
Qed.

Lemma missing_connector_is_logged_witness :
  _connectors (cp station1) !! 5 = None
  /\ sendMeterValue 5 station1
     = Returned tt (logged_error "Connector 5 not found" station1).
Proof.
  assert (Hk : _connectors (cp station1) !! 5 = None) by reflexivity.
  split; [exact Hk|].
  exact (proj1 (proj2 (proj2 (missing_connector_is_logged station1 5 Hk)))).
Defined.

(** X3. [stopTransaction] on an id that names no connector returns after
    logging two errors -- its own, then the one of the [updateConnectorStatus]
    it runs in every case -- and changes nothing else: no stop is sent and
    no status notification. *)
Theorem stopTransaction_missing_connector (w : World) (k : Number) :
  _connectors (cp w) !! k = None ->
  stopTransaction (ById k) w
  = Returned tt
      (w_set_trace
         (trace w ++ [LogError ("Connector for id " +:+ Number_toString k +:+ " not found");
                      LogError (not_found k)]) w).
Proof.
  intros Hk. unfold stopTransaction. js_simpl. rewrite Hk. cbn.
  rewrite updateConnectorStatus_None by done.
  unfold w_set_trace. cbn. by rewrite <- app_assoc.
Qed.

Lemma stopTransaction_missing_connector_witness :
  _connectors (cp station1) !! 5 = None
  /\ stopTransaction (ById 5) station1
     = Returned tt
         (w_set_trace
            (trace station1 ++ [LogError "Connector for id 5 not found";
                                LogError "Connector 5 not found"]) station1).
Proof.
  assert (Hk : _connectors (cp station1) !! 5 = None) by reflexivity.
  split; [exact Hk|].
  exact (stopTransaction_missing_connector station1 5 Hk).
Defined.

(** ** The events of the global status update *)

Section Blind.
Context {B : Type} (g : Event -> option B).
Hypothesis g_blind : forall e, is_status_event e = true -> g e = None.

Lemma omap_write_status (s : OCPPStatus) (st : LoopState) (k : Z) :
  omap g (write_status s st k).2 = omap g st.2.
Proof.
  unfold write_status. destruct (st.1 !! k) as [c|]; [|done]. cbn.
  rewrite omap_app. cbn. rewrite g_blind by done.
  unfold status_calls. destruct (c_statusChangeCallbacks c); cbn.
  - rewrite g_blind by done. apply app_nil_r.
  - apply app_nil_r.
Qed.

Lemma omap_write_all (s : OCPPStatus) (ks : list Z) (st : LoopState) :
  omap g (write_all s st ks).2 = omap g st.2.
Proof.
  revert st. induction ks as [|k ks IH]; intros st; [done|].
  change (write_all s st (k :: ks)) with (write_all s (write_status s st k) ks).
  by rewrite IH, omap_write_status.
Qed.

Lemma omap_outer_step (s : OCPPStatus) (st : LoopState) (e : Z * Connector) :
  omap g (outer_step s st e).2 = omap g st.2.
Proof.
  unfold outer_step. cbn [snd]. rewrite omap_app, inner_loop_write_all.
  rewrite omap_write_all, omap_write_status. cbn.
  rewrite g_blind by done. apply app_nil_r.
Qed.

Lemma omap_outer_loop (s : OCPPStatus) (st : LoopState) :
  omap g (outer_loop s st).2 = omap g st.2.
Proof.
  unfold outer_loop. generalize (Map_entries st.1). intros l. revert st.
  induction l as [|e l IH]; intros st; [done|].
  cbn [foldl]. by rewrite IH, omap_outer_step.
Qed.
End Blind.

Lemma status_notifications_write_all (s : OCPPStatus) (ks : list Z) (st : LoopState) :
  status_notifications (write_all s st ks).2 = status_notifications st.2.
Proof.
  revert st. induction ks as [|k ks IH]; intros st; [done|].
  change (write_all s st (k :: ks)) with (write_all s (write_status s st k) ks).
  rewrite IH. unfold write_status. destruct (st.1 !! k) as [c|]; [|done]. cbn.
  unfold status_notifications. rewrite omap_app. cbn.
  unfold status_calls. destruct (c_statusChangeCallbacks c); cbn; apply app_nil_r.
Qed.

Lemma status_notifications_app (es es' : list Event) :
  status_notifications (es ++ es') = status_notifications es ++ status_notifications es'.
Proof. apply omap_app. Qed.

Lemma status_notifications_outer_step (s : OCPPStatus) (st : LoopState)
    (e : Z * Connector) :
  status_notifications (outer_step s st e).2
  = status_notifications st.2 ++ [(c_id e.2, s)].
Proof.
  unfold outer_step. cbn [snd].
  rewrite status_notifications_app, inner_loop_write_all.
  rewrite status_notifications_write_all.
  change (write_status s st e.1) with (write_all s st [e.1]).
  by rewrite status_notifications_write_all.
Qed.

Lemma status_notifications_outer_fold (s : OCPPStatus) (l : list (Z * Connector))
    (st : LoopState) :
  status_notifications (foldl (outer_step s) st l).2
  = status_notifications st.2 ++ ((fun e => (c_id e.2, s)) <$> l).
Proof.
  revert st. induction l as [|e l IH]; intros st.
  - cbn. by rewrite app_nil_r.
  - cbn [foldl]. rewrite IH, status_notifications_outer_step.
    by rewrite <- app_assoc.
Qed.

Lemma updateAllConnectorsStatus_events (w : World) (s : OCPPStatus) :
  exists es,
    updateAllConnectorsStatus s w
    = Returned tt (put (c_set_status s <$> _connectors (cp w), es) w)
    /\ status_notifications es
       = (fun e => (c_id e.2, s)) <$> Map_entries (_connectors (cp w))
    /\ station_status_calls es = []
    /\ error_calls es = [].
Proof.
  rewrite updateAllConnectorsStatus_put.
  destruct (outer_loop_spec s (_connectors (cp w))) as (Hm & _).
  exists (outer_loop s (_connectors (cp w), [])).2. split; [|split; [|split]].
  - rewrite <- Hm. by destruct (outer_loop s (_connectors (cp w), [])).
  - unfold outer_loop. by rewrite status_notifications_outer_fold.
  - unfold station_status_calls. by rewrite omap_outer_loop by (by intros []).
  - unfold error_calls. by rewrite omap_outer_loop by (by intros []).
Qed.

(** X4. [updateAllConnectorsStatus s] returns; every id that named a
    connector still names one, and no other does; each connector has status
    [s] and every other property as it was; nothing else of the engine is
    touched; one status notification is sent per connector, in the order of
    iteration, each for that connector's id and the status [s]; neither the
    station status subscriber nor the error subscriber is called. *)
Theorem updateAllConnectorsStatus_result (w : World) (s : OCPPStatus) :
  exists w' es,
    updateAllConnectorsStatus s w = Returned tt w'
    /\ (forall k, c_status <$> _connectors (cp w') !! k
                  = (fun _ => s) <$> _connectors (cp w) !! k)
    /\ (forall k, c_frame <$> _connectors (cp w') !! k
                  = c_frame <$> _connectors (cp w) !! k)
    /\ (forall k, c_transaction <$> _connectors (cp w') !! k
                  = c_transaction <$> _connectors (cp w) !! k)
    /\ w' = put (_connectors (cp w'), es) w
    /\ status_notifications es
       = (fun e => (c_id e.2, s)) <$> Map_entries (_connectors (cp w))
    /\ station_status_calls es = []
    /\ error_calls es = [].
Proof.
  destruct (updateAllConnectorsStatus_events w s) as (es & Hrun & Hn & Hs & He).
  exists (put (c_set_status s <$> _connectors (cp w), es) w), es.
  assert (Hput : _connectors (cp (put (c_set_status s <$> _connectors (cp w), es) w))
                 = c_set_status s <$> _connectors (cp w)) by reflexivity.
  split; [exact Hrun|].
  split; [intros k; rewrite Hput, lookup_fmap; by destruct (_connectors (cp w) !! k)|].
  split; [intros k; rewrite Hput, lookup_fmap; by destruct (_connectors (cp w) !! k)|].
  split; [intros k; rewrite Hput, lookup_fmap; by destruct (_connectors (cp w) !! k)|].
  split; [reflexivity|]. split; [exact Hn|]. split; [exact Hs|exact He].
Qed.

(** ** Boot *)

(** X5. [boot], from any world, returns with the station [Available], the
    error cleared, and every connector [Available] and otherwise as it was
    (none added, none removed).  The first thing it does is send the boot
    notification with the stored payload; the station status subscriber is
    told [Available] once and the error subscriber the empty error once
    (when registered), and one status notification goes out per
    connector. *)
Theorem boot_result (w : World) :
  exists w' es,
    boot w = Returned tt w'
    /\ _status (cp w') = Available
    /\ _error (cp w') = ""
    /\ (forall k, c_status <$> _connectors (cp w') !! k
                  = (fun _ => Available) <$> _connectors (cp w) !! k)
    /\ (forall k, c_frame <$> _connectors (cp w') !! k
                  = c_frame <$> _connectors (cp w) !! k)
    /\ (forall k, c_transaction <$> _connectors (cp w') !! k
                  = c_transaction <$> _connectors (cp w) !! k)
    /\ trace w' = trace w ++ SendBootNotification (_bootNotification (cp w)) :: es
    /\ station_status_calls es = told (_statusChangeCallback (cp w)) Available
    /\ error_calls es = told (_errorCallback (cp w)) ""
    /\ status_notifications es
       = (fun e => (c_id e.2, Available)) <$> Map_entries (_connectors (cp w)).
Proof.
  cut (exists w' es,
    boot w = Returned tt w'
    /\ _status (cp w') = Available
    /\ _error (cp w') = ""
    /\ _connectors (cp w') = c_set_status Available <$> _connectors (cp w)
    /\ trace w' = trace w ++ SendBootNotification (_bootNotification (cp w)) :: es
    /\ station_status_calls es = told (_statusChangeCallback (cp w)) Available
    /\ error_calls es = told (_errorCallback (cp w)) ""
    /\ status_notifications es
       = (fun e => (c_id e.2, Available)) <$> Map_entries (_connectors (cp w))).
  { intros (w' & es & Hrun & Hst & Herr & Hc & Htr & H1 & H2 & H3).
    exists w', es. rewrite Hc.
    split; [exact Hrun|]. split; [exact Hst|]. split; [exact Herr|].
    split; [intros k; rewrite lookup_fmap; by destruct (_connectors (cp w) !! k)|].
    split; [intros k; rewrite lookup_fmap; by destruct (_connectors (cp w) !! k)|].
    split; [intros k; rewrite lookup_fmap; by destruct (_connectors (cp w) !! k)|].
    split; [exact Htr|]. split; [exact H1|]. split; [exact H2|exact H3]. }
  unfold boot, set_status, set_error. js_simpl.
  destruct (_statusChangeCallback (cp w)) as [scb|]; cbn;
    (match goal with
     | |- context [updateAllConnectorsStatus Available ?w1] =>
         destruct (updateAllConnectorsStatus_events w1 Available)
           as (es & -> & Hn & Hs & He)
     end);
    cbn in *;
    destruct (_errorCallback (cp w)) as [ecb|]; cbn;
    eexists _, _; (split; [reflexivity|]); cbn;
    (split; [done|]); (split; [done|]); (split; [done|]);
    (split; [rewrite <- ?app_assoc; cbn; reflexivity|]);
    unfold station_status_calls, error_calls, status_notifications in *;
    rewrite ?omap_app; cbn; rewrite ?omap_app, ?Hn, ?Hs, ?He; cbn;
    rewrite ?app_nil_r; done.
Qed.

(** ** Auto-telemetry intervals *)

(** X6. Starting the auto-telemetry of a connector that has none registered
    and stopping it again restores the interval table and the registry: the
    world is the one before, except that one handle has been used up. *)
Theorem start_stop_autoMeterValue (w : World) (c i v : Number) :
  intervals w !! next_timer w = None ->
  _autoMeterValueIntervals (cp w) !! c = None ->
  (startAutoMeterValue c i v;; stopAutoMeterValue c) w
  = Returned tt (w_set_next_timer (Pos.succ (next_timer w)) w).
Proof.
  intros Hfresh Hreg. unfold startAutoMeterValue, stopAutoMeterValue. js_simpl.
  rewrite lookup_insert_eq. cbn.
  rewrite !delete_insert_eq, !delete_id by done.
  by destruct w as [[] ? ? ? ?].
Qed.

Lemma start_stop_autoMeterValue_witness :
  intervals station1 !! next_timer station1 = None
  /\ _autoMeterValueIntervals (cp station1) !! 1 = None
  /\ (startAutoMeterValue 1 1 10;; stopAutoMeterValue 1) station1
     = Returned tt (w_set_next_timer (Pos.succ (next_timer station1)) station1).
Proof.
  assert (H1 : intervals station1 !! next_timer station1 = None) by reflexivity.
  assert (H2 : _autoMeterValueIntervals (cp station1) !! 1 = None) by reflexivity.
  split; [exact H1|]. split; [exact H2|].
  exact (start_stop_autoMeterValue station1 1 1 10 H1 H2).
Defined.

(** X7. [startAutoMeterValue] does not look the connector up: on an id that
    names no connector it still installs and registers a live interval, and
    every tick of that interval does nothing at all -- no reading, no
    log. *)
Theorem startAutoMeterValue_unknown_connector (w : World) (c i v : Number) :
  _connectors (cp w) !! c = None ->
  exists w',
    startAutoMeterValue c i v w = Returned tt w'
    /\ intervals w' !! next_timer w
       = Some {| iv_task := AutoMeterValueTick c v; iv_delay := i * 1000 |}
    /\ _autoMeterValueIntervals (cp w') !! c = Some (next_timer w)
    /\ fire (next_timer w) w' = Returned tt w'.
Proof.
  intros Hc. unfold startAutoMeterValue. js_simpl.
  eexists. split; [reflexivity|]. cbn. rewrite !lookup_insert_eq.
  repeat split. unfold fire. cbn. rewrite lookup_insert_eq. cbn.
  unfold autoMeterValue_tick. js_simpl. by rewrite Hc.
Qed.

Lemma startAutoMeterValue_unknown_connector_witness :
  _connectors (cp station1) !! 9 = None
  /\ exists w',
       startAutoMeterValue 9 1 10 station1 = Returned tt w'
       /\ intervals w' !! next_timer station1
          = Some {| iv_task := AutoMeterValueTick 9 10; iv_delay := 1 * 1000 |}
       /\ _autoMeterValueIntervals (cp w') !! 9 = Some (next_timer station1)
       /\ fire (next_timer station1) w' = Returned tt w'.
Proof.
  assert (Hk : _connectors (cp station1) !! 9 = None) by reflexivity.
  split; [exact Hk|].
  exact (startAutoMeterValue_unknown_connector station1 9 1 10 Hk).
Defined.

Lemma bind_Returned {A B} (m : M A) (k : A -> M B) (w w' : World) (a : A) :
  m w = Returned a w' -> (m ≫= k) w = k a w'.
Proof. intros Hm. unfold mbind, M_bind. by rewrite Hm. Qed.

Lemma getConnector_eq (w : World) (k : Number) :
  getConnector k w = Returned (_connectors (cp w) !! k) w.
Proof. reflexivity. Qed.

Lemma setMeterValue_Some (w : World) (k m : Number) (c : Connector) :
  _connectors (cp w) !! k = Some c ->
  setMeterValue k m w
  = Returned tt (connector_updated k (c_set_meterValue m) (meter_calls c m) w).
Proof.
  intros Hk. unfold setMeterValue, Connector_set_meterValue, meter_calls,
    connector_updated.
  js_simpl. rewrite Hk. cbn. rewrite Hk.
  destruct (c_meterValueChangeCallbacks c); cbn; [done|].
  unfold w_set_trace. cbn. by rewrite app_nil_r.
Qed.

Lemma sendDetailedMeterValue_Some (w : World) (k : Number) (data : MeterValue)
    (c : Connector) :
  _connectors (cp w) !! k = Some c ->
  sendDetailedMeterValue k data w
  = Returned tt (w_set_trace (trace w ++ [meter_message k c data]) w).
Proof. intros Hk. unfold sendDetailedMeterValue. js_simpl. by rewrite Hk. Qed.

Lemma generateDetailedMeterValues_snapshot (w : World) (m : Number) :
  generateDetailedMeterValues m w
  = Returned {| mv_timestamp := now w;
                mv_sampledValue := snapshot (_meterValueFormat (cp w)) m |} w.
Proof.
  unfold generateDetailedMeterValues, snapshot. js_simpl.
  by destruct (_meterValueFormat (cp w)).
Qed.

Lemma autoMeterValue_tick_Some (w : World) (c v : Number) (conn : Connector) :
  _connectors (cp w) !! c = Some conn ->
  autoMeterValue_tick c v w
  = Returned tt
      (connector_updated c (c_set_meterValue (c_meterValue conn + v))
         (meter_calls conn (c_meterValue conn + v)
          ++ [meter_message c conn
                {| mv_timestamp := now w;
                   mv_sampledValue :=
                     snapshot (_meterValueFormat (cp w)) (c_meterValue conn + v) |}])
         w).
Proof.
  intros Hc. unfold autoMeterValue_tick.
  rewrite (bind_Returned _ _ _ _ _ (getConnector_eq w c)), Hc.
  rewrite (bind_Returned _ _ _ _ _ (setMeterValue_Some w c _ conn Hc)).
  set (w1 := connector_updated _ _ _ w).
  assert (Hc1 : _connectors (cp w1) !! c
                = Some (c_set_meterValue (c_meterValue conn + v) conn))
    by (subst w1; by rewrite connector_updated_lookup, Hc).
  rewrite (bind_Returned _ _ _ _ _ (getConnector_eq w1 c)), Hc1.
  cbn [from_option c_meterValue c_set_meterValue].
  rewrite (bind_Returned _ _ _ _ _ (generateDetailedMeterValues_snapshot w1 _)).
  rewrite (sendDetailedMeterValue_Some w1 c _ _ Hc1).
  subst w1. unfold connector_updated, w_set_trace, meter_message. cbn.
  by rewrite <- app_assoc.
Qed.

Lemma fire_autoMeterValue (w : World) (h : TimerId) (delay c v : Number)
    (conn : Connector) :
  intervals w !! h = Some {| iv_task := AutoMeterValueTick c v; iv_delay := delay |} ->
  _connectors (cp w) !! c = Some conn ->
  fire h w = autoMeterValue_tick c v w.
Proof. intros Hh Hc. unfold fire. by rewrite Hh. Qed.

Lemma snapshot_energy (format : MeterValueFormat) (m : Number) :
  exists r,
    readings_of Energy_Active_Import_Register (snapshot format m) = [r]
    /\ denotes (sv_value r)
         match format with
         | detailed => inject_Z m
         | simple => m # 1000
         end.
Proof.
  destruct format; eexists; (split; [reflexivity|]); cbn.
  - apply Number_toString_denotes.
  - apply Number_div1000_toString_denotes.
Qed.



(** X9. After [n] ticks of a live auto-telemetry interval with step [v] --
    the reading before, the step and the reading after of at most 15
    digits -- the connector's meter value has grown by [n * v], exactly [n]
    meter messages have been sent, and the interval is still live. *)
Theorem ticks_result (n : nat) (w : World) (h : TimerId) (delay c v : Number)
    (conn : Connector) :
  intervals w !! h = Some {| iv_task := AutoMeterValueTick c v; iv_delay := delay |} ->
  _connectors (cp w) !! c = Some conn ->
  Number_exact (c_meterValue conn) ->
  Number_exact v ->
  Number_exact (c_meterValue conn + Z.of_nat n * v) ->
  exists w' es,
    ticks n h w = Returned tt w'
    /\ c_meterValue <$> _connectors (cp w') !! c
       = Some (c_meterValue conn + Z.of_nat n * v)
    /\ trace w' = trace w ++ es
    /\ count_events is_meter_value es = n
    /\ intervals w' = intervals w.
Proof.
  intros Hh Hc _ _ _. revert w conn Hh Hc.
  induction n as [|n IH]; intros w conn Hh Hc.
  - exists w, []. cbn. rewrite Hc. cbn. rewrite app_nil_r.
    repeat split. f_equal. lia.
  - cbn [ticks]. unfold mbind, M_bind.
    rewrite (fire_autoMeterValue w h delay c v conn Hh Hc).
    rewrite (autoMeterValue_tick_Some w c v conn Hc).
    set (w1 := connector_updated _ _ _ w).
    destruct (IH w1 (c_set_meterValue (c_meterValue conn + v) conn))
      as (w' & es & Hrun & Hm & Htr & Hcount & Hiv).
    { exact Hh. }
    { subst w1. by rewrite connector_updated_lookup, Hc. }
    exists w', (meter_calls conn (c_meterValue conn + v)
                ++ [meter_message c conn
                      {| mv_timestamp := now w;
                         mv_sampledValue :=
                           snapshot (_meterValueFormat (cp w)) (c_meterValue conn + v) |}]
                ++ es).
    split; [exact Hrun|]. split; [|split; [|split]].
    + rewrite Hm. cbn. f_equal. lia.
    + rewrite Htr. subst w1. cbn. by rewrite <- !app_assoc.
    + rewrite !count_events_app, Hcount. unfold meter_calls.
      destruct (c_meterValueChangeCallbacks conn); cbn; lia.
    + by rewrite Hiv.
Qed.

Lemma ticks_result_witness :
  intervals station1_ticking_500 !! 1%positive
  = Some {| iv_task := AutoMeterValueTick 1 10; iv_delay := 1000 |}
  /\ _connectors (cp station1_ticking_500) !! 1
     = Some (c_set_meterValue 500 (new_Connector 1))
  /\ Number_exact (c_meterValue (c_set_meterValue 500 (new_Connector 1)))
  /\ Number_exact 10
  /\ Number_exact (c_meterValue (c_set_meterValue 500 (new_Connector 1))
                   + Z.of_nat 3 * 10)
  /\ exists w' es,
       ticks 3 1 station1_ticking_500 = Returned tt w'
       /\ c_meterValue <$> _connectors (cp w') !! 1 = Some 530
       /\ trace w' = trace station1_ticking_500 ++ es
       /\ count_events is_meter_value es = 3%nat
       /\ intervals w' = intervals station1_ticking_500.
Proof.
  assert (H1 : intervals station1_ticking_500 !! 1%positive
               = Some {| iv_task := AutoMeterValueTick 1 10; iv_delay := 1000 |})
    by reflexivity.
  assert (H2 : _connectors (cp station1_ticking_500) !! 1
               = Some (c_set_meterValue 500 (new_Connector 1))) by reflexivity.
  assert (H3 : Number_exact (c_meterValue (c_set_meterValue 500 (new_Connector 1))))
    by (unfold Number_exact; cbn; lia).
  assert (H4 : Number_exact 10) by (unfold Number_exact; lia).
  assert (H5 : Number_exact (c_meterValue (c_set_meterValue 500 (new_Connector 1))
                             + Z.of_nat 3 * 10))
    by (unfold Number_exact; cbn; lia).
  split; [exact H1|]. split; [exact H2|]. split; [exact H3|]. split; [exact H4|].
  split; [exact H5|].
  exact (ticks_result 3 station1_ticking_500 1 1000 1 10
           (c_set_meterValue 500 (new_Connector 1)) H1 H2 H3 H4 H5).
Defined.

(** ** What no command changes *)

(** Unfolds the methods down to the primitive actions, callers first. *)
Ltac unfold_methods :=
  unfold run, connect_onOpen, reset, boot, connect_onClose, connect, disconnect,
    authorize, stopTransaction, startTransaction, cleanTransaction,
    updateConnectorAvailability, updateAllConnectorsStatus, updateConnectorStatus,
    sendHeartbeat, sendMeterValue, sendCurrentDetailedMeterValue,
    autoMeterValue_tick, setMeterValue, generateDetailedMeterValues,
    sendDetailedMeterValue, setMeterValueFormat, setTransactionID,
    set_errorCallback, set_statusChangeCallback,
    setConnectorTransactionIDChangeCallback, setConnectorStatusChangeCallback,
    setConnectorMeterValueChangeCallback, setAvailabilityChangeCallback,
    set_status, set_error, Connector_set_status, Connector_set_meterValue,
    Connector_set_transactionId, Transaction_write, getConnector, get_connectors,
    Connector_get_meterValue, Connector_get_transaction, logger_info, logger_error,
    call_if_set, when.

Ltac unfold_timer_methods :=
  unfold startAutoMeterValue, stopAutoMeterValue, startHeartbeat, stopHeartbeat,
    logger_info.

(** Walks through a method body; [prim] closes the primitive actions. *)
Ltac keeps_auto prim :=
  repeat match goal with
  | |- keeps _ (mbind _ _) => apply keeps_bind; [|intros ?]
  | |- keeps _ (mret _) => apply keeps_mret
  | |- keeps _ this => apply keeps_this
  | |- keeps _ new_Date => apply keeps_new_Date
  | |- keeps _ (throw _) => apply keeps_throw
  | |- keeps _ (forEach _ _) => apply keeps_forEach; intros []
  | |- keeps _ (match ?x with _ => _ end) => destruct x
  | |- keeps _ _ => progress prim
  end.

Lemma keeps_fire (I : World -> Prop) (h : TimerId) :
  keeps I sendHeartbeat ->
  (forall c v, keeps I (autoMeterValue_tick c v)) ->
  keeps I (fire h).
Proof.
  intros Hhb Htick w Hw. unfold fire.
  destruct (intervals w !! h) as [iv|]; [|done].
  destruct (iv_task iv); [by apply Hhb|by apply Htick].
Qed.

Section Projection.
Context {X : Type} (prj : ChargePoint -> X) (x : X).
Hypothesis prj_alter : forall p k f,
  prj (cp_set_connectors (alter f k (_connectors p)) p) = prj p.

Lemma proj_emit (e : Event) : keeps (holds_of prj x) (emit e).
Proof. by intros w Hw. Qed.

Lemma proj_setInterval (task : TimerTask) (delay : Number) :
  keeps (holds_of prj x) (setInterval task delay).
Proof. by intros w Hw. Qed.

Lemma proj_clearInterval (h : TimerId) : keeps (holds_of prj x) (clearInterval h).
Proof. by intros w Hw. Qed.

Lemma proj_Connector_write (k : Z) (f : Connector -> Connector) :
  keeps (holds_of prj x) (Connector_write k f).
Proof. intros w Hw. unfold holds_of in *. cbn. by rewrite prj_alter. Qed.

Lemma proj_update_this (f : ChargePoint -> ChargePoint) :
  (forall p, prj (f p) = prj p) -> keeps (holds_of prj x) (update_this f).
Proof. intros Hf w Hw. unfold holds_of in *. cbn. by rewrite Hf. Qed.

Lemma proj_clock (t : Date) : keeps (holds_of prj x) (run (Clock t)).
Proof. by intros w Hw. Qed.
End Projection.

Ltac proj_prim prj Hprj :=
  first [ apply proj_emit
        | apply proj_setInterval
        | apply proj_clearInterval
        | apply (proj_Connector_write prj _ Hprj)
        | apply (proj_update_this prj); by intros [] ].

Lemma configuration_alter (p : ChargePoint) (k : Z) (f : Connector -> Connector) :
  configuration (cp_set_connectors (alter f k (_connectors p)) p) = configuration p.
Proof. unfold configuration. cbn. by rewrite dom_alter_L. Qed.

Lemma keeps_configuration (x : _) (c : Command) :
  keeps (holds_of configuration x) (run c).
Proof.
  destruct c; try apply proj_clock; try apply keeps_fire; intros;
    unfold_methods; unfold_timer_methods;
    keeps_auto ltac:(proj_prim configuration configuration_alter).
Qed.

(** X10. No command changes what the station was constructed with: after any
    command, from any world and whether it returned or threw, the id, the
    boot payload, the transport address and the auto-telemetry setting are
    the same, and so is the set of connector ids -- connectors are neither
    added nor removed. *)
Theorem run_keeps_configuration (c : Command) (w : World) :
  _id (cp (world_of (run c w))) = _id (cp w)
  /\ _bootNotification (cp (world_of (run c w))) = _bootNotification (cp w)
  /\ _wsUrl (cp (world_of (run c w))) = _wsUrl (cp w)
  /\ _autoMeterValueSetting (cp (world_of (run c w))) = _autoMeterValueSetting (cp w)
  /\ dom (_connectors (cp (world_of (run c w)))) = dom (_connectors (cp w)).
Proof.
  pose proof (keeps_configuration (configuration (cp w)) c w eq_refl) as H.
  unfold holds_of, configuration in H. by injection H as -> -> -> -> ->.
Qed.

(** ** Which commands change the station-level fields *)

Lemma engine_fields_alter (p : ChargePoint) (k : Z) (f : Connector -> Connector) :
  engine_fields (cp_set_connectors (alter f k (_connectors p)) p) = engine_fields p.
Proof. reflexivity. Qed.

Lemma engine_fields_boot (w : World) :
  engine_fields (cp (world_of (boot w))) = (_meterValueFormat (cp w), Available, "").
Proof.
  unfold boot, set_status, set_error. js_simpl.
  destruct (_statusChangeCallback (cp w)); cbn;
    (match goal with
     | |- context [updateAllConnectorsStatus Available ?w1] =>
         destruct (updateAllConnectorsStatus_events w1 Available) as (es & -> & _)
     end);
    cbn; by destruct (_errorCallback (cp w)).
Qed.

Lemma engine_fields_close (w : World) (ev : CloseEvent) :
  engine_fields (cp (world_of (connect_onClose ev w)))
  = (_meterValueFormat (cp w), Unavailable,
     if decide (code ev = 1005) then _error (cp w) else close_message ev).
Proof.
  unfold connect_onClose, set_status, set_error. js_simpl.
  destruct (_statusChangeCallback (cp w)); cbn;
    (match goal with
     | |- context [updateAllConnectorsStatus Unavailable ?w1] =>
         destruct (updateAllConnectorsStatus_events w1 Unavailable) as (es & -> & _)
     end);
    cbn; destruct (decide (code ev = 1005)) as [Hc|Hc];
    rewrite ?(bool_decide_eq_false_2 _ (fun H => H Hc)), ?bool_decide_eq_true_2 by done;
    cbn; by destruct (_errorCallback (cp w)).
Qed.

(** X11. The telemetry format, the station status and the error after a
    command, whatever the world it starts in: [setMeterValueFormat] changes
    the format only; the setter of [status] the status only and the setter
    of [error] the error only, each to the value it is given; [boot] and the
    open callback make the station [Available] with an empty error; the
    close callback makes it [Unavailable] and records the close message
    unless the code is 1005; [disconnect] and [reset] make it [Unavailable];
    every other command -- transactions, meter values, status and
    availability of connectors, heartbeats, ticks, subscriptions -- leaves
    all three as they were. *)
Theorem run_engine_fields (c : Command) (w : World) :
  engine_fields (cp (world_of (run c w)))
  = match c with
    | Call_setMeterValueFormat format => (format, _status (cp w), _error (cp w))
    | Call_set_status status => (_meterValueFormat (cp w), status, _error (cp w))
    | Call_set_error error => (_meterValueFormat (cp w), _status (cp w), error)
    | Call_boot | Transport_open => (_meterValueFormat (cp w), Available, "")
    | Transport_close ev =>
        (_meterValueFormat (cp w), Unavailable,
         if decide (code ev = 1005) then _error (cp w) else close_message ev)
    | Call_disconnect | Call_reset => (_meterValueFormat (cp w), Unavailable, _error (cp w))
    | _ => engine_fields (cp w)
    end.
Proof.
  destruct c;
    try (by unfold run, set_status; js_simpl; destruct (_statusChangeCallback (cp w)));
    try (by unfold run, set_error; js_simpl; destruct (_errorCallback (cp w)));
    try apply engine_fields_boot; try apply engine_fields_close; try reflexivity;
    match goal with
    | |- engine_fields (cp (world_of (run ?c w))) = _ =>
        apply (fun H : keeps (holds_of engine_fields (engine_fields (cp w))) (run c) =>
                 H w eq_refl)
    end;
    try apply keeps_fire; intros;
    unfold_methods; unfold_timer_methods;
    keeps_auto ltac:(proj_prim engine_fields engine_fields_alter).
Qed.

(** ** The registry of auto-telemetry intervals *)

Lemma ts_emit (e : Event) : keeps timers_sound (emit e).
Proof. by intros w Hw. Qed.

Lemma ts_Connector_write (k : Z) (f : Connector -> Connector) :
  keeps timers_sound (Connector_write k f).
Proof. by intros w Hw. Qed.

Lemma ts_update_this (f : ChargePoint -> ChargePoint) :
  (forall p, _autoMeterValueIntervals (f p) = _autoMeterValueIntervals p) ->
  (forall p, _heartbeat (f p) = _heartbeat p) ->
  keeps timers_sound (update_this f).
Proof.
  intros Hr Hh w (Hfr & Hreg & Hhb). split; [done|]. split.
  - unfold registry_sound. cbn. by rewrite Hr.
  - intros h. cbn. rewrite Hh. apply Hhb.
Qed.

Lemma ts_startAutoMeterValue (c i v : Number) :
  keeps timers_sound (startAutoMeterValue c i v).
Proof.
  intros w (Hfr & Hreg & Hhb). unfold startAutoMeterValue. js_simpl.
  split; [|split].
  - intros j iv. cbn. rewrite lookup_insert_Some. intros [[<- _]|[_ Hj]]; [lia|].
    specialize (Hfr j iv Hj). cbn in Hfr. lia.
  - intros c' h. cbn. rewrite lookup_insert_Some. intros [[<- <-]|[_ Hc']].
    + rewrite lookup_insert_eq. by eexists _, _.
    + destruct (Hreg c' h Hc') as (v' & d' & Hlive).
      pose proof (Hfr h _ Hlive) as Hlt. cbn in Hlt.
      rewrite lookup_insert_ne by lia. by eexists _, _.
  - intros h Hh. cbn in Hh. destruct (Hhb h Hh) as [Hlt Htask]. split; [cbn; lia|].
    intros iv. cbn. rewrite lookup_insert_ne by lia. apply Htask.
Qed.

Lemma ts_stopAutoMeterValue (c : Number) : keeps timers_sound (stopAutoMeterValue c).
Proof.
  intros w (Hfr & Hreg & Hhb). rewrite stopAutoMeterValue_eq. cbn [world_of].
  destruct (_autoMeterValueIntervals (cp w) !! c) as [h|] eqn:Hc; [|done].
  destruct (Hreg c h Hc) as (v & d & Hlive).
  split; [|split].
  - intros j iv. cbn. rewrite lookup_delete_Some. intros [_ Hj]. by apply (Hfr j iv).
  - intros c' h'. cbn. rewrite lookup_delete_Some. intros [Hne Hc'].
    destruct (Hreg c' h' Hc') as (v' & d' & Hlive').
    assert (h ≠ h') by (intros ->; rewrite Hlive in Hlive'; congruence).
    rewrite lookup_delete_ne by done. by eexists _, _.
  - intros hb Hb. cbn in Hb. destruct (Hhb hb Hb) as [Hlt Htask]. split; [done|].
    intros iv. cbn. rewrite lookup_delete_Some. intros [_ Hiv]. by apply Htask.
Qed.

Lemma ts_clear_heartbeat (w : World) (hb : TimerId) :
  timers_sound w -> _heartbeat (cp w) = Some hb ->
  timers_sound (w_set_intervals (delete hb (intervals w)) w).
Proof.
  intros (Hfr & Hreg & Hhb) Hb. destruct (Hhb hb Hb) as [Hlt Htask].
  split; [|split].
  - intros j iv. cbn. rewrite lookup_delete_Some. intros [_ Hj]. by apply (Hfr j iv).
  - intros c h Hc. cbn in Hc. destruct (Hreg c h Hc) as (v & d & Hlive).
    assert (hb ≠ h) by (intros ->; by specialize (Htask _ Hlive)).
    cbn. rewrite lookup_delete_ne by done. by eexists _, _.
  - intros h Hh. cbn in Hh. destruct (Hhb h Hh) as [Hlt' Htask']. split; [done|].
    intros iv. cbn. rewrite lookup_delete_Some. intros [_ Hiv]. by apply Htask'.
Qed.

Lemma ts_stopHeartbeat : keeps timers_sound stopHeartbeat.
Proof.
  intros w Hw. unfold stopHeartbeat. js_simpl.
  destruct (_heartbeat (cp w)) as [hb|] eqn:Hb; cbn.
  - by apply (ts_emit (LogInfo "Stopping heartbeat") _ (ts_clear_heartbeat w hb Hw Hb)).
  - by apply (ts_emit (LogInfo "Stopping heartbeat") w).
Qed.

Lemma ts_install_heartbeat (w : World) (delay : Number) :
  handles_fresh w -> registry_sound w ->
  timers_sound
    (w_set_cp (cp_set_heartbeat (Some (next_timer w)) (cp w))
       (w_set_next_timer (Pos.succ (next_timer w))
          (w_set_intervals
             (<[next_timer w := {| iv_task := HeartbeatTick; iv_delay := delay |}]>
                (intervals w)) w))).
Proof.
  intros Hfr Hreg. split; [|split].
  - intros j iv. cbn. rewrite lookup_insert_Some. intros [[<- _]|[_ Hj]]; [lia|].
    specialize (Hfr j iv Hj). cbn in Hfr. lia.
  - intros c h Hc. cbn in Hc. destruct (Hreg c h Hc) as (v & d & Hlive).
    pose proof (Hfr h _ Hlive) as Hlt. cbn in Hlt.
    cbn. rewrite lookup_insert_ne by lia. by eexists _, _.
  - intros h [= <-]. split; [cbn; lia|].
    intros iv. cbn. rewrite lookup_insert_eq. by intros [= <-].
Qed.

Lemma ts_startHeartbeat (period : Number) : keeps timers_sound (startHeartbeat period).
Proof.
  intros w Hw. unfold startHeartbeat. js_simpl.
  destruct (_heartbeat (cp w)) as [hb|] eqn:Hb; cbn.
  - destruct (ts_clear_heartbeat w hb Hw Hb) as (Hfr & Hreg & _).
    exact (ts_emit _ _ (ts_install_heartbeat _ (period * 1000) Hfr Hreg)).
  - destruct Hw as (Hfr & Hreg & _).
    exact (ts_emit _ _ (ts_install_heartbeat _ (period * 1000) Hfr Hreg)).
Qed.

Ltac ts_prim :=
  first [ apply ts_emit
        | apply ts_Connector_write
        | apply ts_update_this; by intros []
        | apply ts_startAutoMeterValue
        | apply ts_stopAutoMeterValue
        | apply ts_startHeartbeat
        | apply ts_stopHeartbeat ].

Lemma ts_run (c : Command) : keeps timers_sound (run c).
Proof.
  destruct c; try (by intros w Hw); try apply keeps_fire; intros;
    unfold_methods; keeps_auto ts_prim.
Qed.

Lemma reachable_timers_sound (w : World) : reachable w -> timers_sound w.
Proof.
  induction 1 as [id b n url a clock|w c _ IH].
  - split; [|split]; [apply map_Forall_empty..|]. by intros h.
  - by apply ts_run.
Qed.

(** X12. In every reachable world the handle registered for a connector is
    live and ticks for that very connector: the registry never holds a
    cancelled handle, the heartbeat's handle or another connector's. *)
Theorem registered_timer_is_live (w : World) (c : Number) (h : TimerId) :
  reachable w ->
  _autoMeterValueIntervals (cp w) !! c = Some h ->
  exists v d,
    intervals w !! h = Some {| iv_task := AutoMeterValueTick c v; iv_delay := d |}.
Proof.
  intros Hr Hc. destruct (reachable_timers_sound w Hr) as (_ & Hreg & _).
  exact (Hreg c h Hc).
Qed.

Lemma reachable_station1 : reachable station1.
Proof. apply reachable_new. Qed.

Lemma reachable_station1_ticking : reachable station1_ticking.
Proof. exact (reachable_run _ (Call_startAutoMeterValue 1 1 10) reachable_station1). Qed.

Lemma registered_timer_is_live_witness :
  reachable station1_ticking
  /\ _autoMeterValueIntervals (cp station1_ticking) !! 1 = Some 1%positive
  /\ exists v d,
       intervals station1_ticking !! 1%positive
       = Some {| iv_task := AutoMeterValueTick 1 v; iv_delay := d |}.
Proof.
  assert (Hc : _autoMeterValueIntervals (cp station1_ticking) !! 1 = Some 1%positive)
    by reflexivity.
  split; [exact reachable_station1_ticking|]. split; [exact Hc|].
  exact (registered_timer_is_live station1_ticking 1 1%positive
           reachable_station1_ticking Hc).
Defined.

(** ** The heartbeat *)

(** X13. In a reachable world, [stopHeartbeat] leaves no heartbeat interval
    live; the engine keeps remembering the cancelled handle. *)
Theorem stopHeartbeat_stops (w : World) :
  reachable w ->
  live is_heartbeat (world_of (stopHeartbeat w)) = []
  /\ _heartbeat (cp (world_of (stopHeartbeat w))) = _heartbeat (cp w).
Proof.
  intros Hr. destruct (reachable_well_formed w Hr) as (_ & _ & Hhb).
  split.
  - apply elem_of_nil_inv. intros j. rewrite elem_of_live.
    intros (iv & Hj & Hp). unfold is_heartbeat in Hp.
    assert (Htask : iv_task iv = HeartbeatTick) by (by destruct (iv_task iv)).
    revert Hj. unfold stopHeartbeat. js_simpl.
    destruct (_heartbeat (cp w)) as [hb|] eqn:Hb; cbn.
    + rewrite lookup_delete_Some. intros [Hne Hj].
      specialize (Hhb j iv Hj Htask). cbn in Hhb. congruence.
    + intros Hj. specialize (Hhb j iv Hj Htask). cbn in Hhb. congruence.
  - unfold stopHeartbeat. js_simpl. by destruct (_heartbeat (cp w)) eqn:Hb.
Qed.

Lemma reachable_station1_beating : reachable station1_beating.
Proof.
  exact (reachable_run _ (Call_startHeartbeat 30)
           (reachable_run _ (Call_startHeartbeat 30) reachable_station1)).
Qed.

Lemma stopHeartbeat_stops_witness :
  reachable station1_beating
  /\ live is_heartbeat (world_of (stopHeartbeat station1_beating)) = []
  /\ _heartbeat (cp (world_of (stopHeartbeat station1_beating)))
     = _heartbeat (cp station1_beating).
Proof.
  split; [exact reachable_station1_beating|].
  exact (stopHeartbeat_stops station1_beating reachable_station1_beating).
Defined.

Lemma reachable_one_heartbeat_witness :
  reachable station1_beating
  /\ (length (live is_heartbeat station1_beating) <= 1)%nat.
Proof.
  split; [exact reachable_station1_beating|].
  exact (reachable_one_heartbeat station1_beating reachable_station1_beating).
Defined.

(** ** A command addressed to one connector leaves the others alone *)

Lemma kept_emit (j : Z) (x : option Connector) (e : Event) : keeps (kept j x) (emit e).
Proof. by intros w Hw. Qed.

Lemma kept_setInterval (j : Z) (x : option Connector) (task : TimerTask) (delay : Number) :
  keeps (kept j x) (setInterval task delay).
Proof. by intros w Hw. Qed.

Lemma kept_clearInterval (j : Z) (x : option Connector) (h : TimerId) : keeps (kept j x) (clearInterval h).
Proof. by intros w Hw. Qed.

Lemma kept_update_this (j : Z) (x : option Connector) (f : ChargePoint -> ChargePoint) :
  (forall p, _connectors (f p) = _connectors p) -> keeps (kept j x) (update_this f).
Proof. intros Hf w [Hid Hj]. unfold kept, ids_consistent. cbn. by rewrite Hf. Qed.

Lemma kept_Connector_write (j : Z) (x : option Connector) (k : Z) (f : Connector -> Connector) :
  k ≠ j -> (forall c, c_id (f c) = c_id c) -> keeps (kept j x) (Connector_write k f).
Proof.
  intros Hk Hf w [Hid Hj]. split.
  - intros i c. cbn. rewrite lookup_alter_Some.
    intros [(-> & c' & Hc' & ->)|(_ & Hc)].
    + rewrite Hf. by apply Hid.
    + by apply Hid.
  - cbn. by rewrite lookup_alter_ne.
Qed.

Ltac kept_prim :=
  first [ apply kept_emit
        | apply kept_setInterval
        | apply kept_clearInterval
        | apply kept_Connector_write; [congruence|by intros []]
        | apply kept_update_this; by intros [] ].

Lemma kept_cleanTransaction_body (j : Z) (x : option Connector) (k : Z) :
  k ≠ j ->
  keeps (kept j x)
    (Transaction_write k (tx_set_meterSent false);;
     updateConnectorStatus k Finishing;;
     p ← this;
     match _autoMeterValueSetting p with
     | Some _ => stopAutoMeterValue k
     | None => mret tt
     end).
Proof. intros Hk. unfold_methods; unfold_timer_methods; keeps_auto kept_prim. Qed.

Lemma holder_id (w : World) (key : Z) :
  ids_consistent w -> from_option c_id key (_connectors (cp w) !! key) = key.
Proof.
  intros Hid. destruct (_connectors (cp w) !! key) as [c|] eqn:Hc; [|done].
  by apply (Hid key c).
Qed.

Lemma kept_cleanTransaction (j : Z) (x : option Connector) (connector : ConnectorOrId) :
  key_of connector ≠ j -> keeps (kept j x) (cleanTransaction connector).
Proof.
  intros Hk. unfold cleanTransaction. apply keeps_this_bind. intros w Hw.
  destruct connector as [n|key]; cbn in Hk |- *.
  - by apply (kept_cleanTransaction_body j x n Hk).
  - rewrite (holder_id w key) by apply Hw.
    by apply (kept_cleanTransaction_body j x key Hk).
Qed.

Lemma kept_stopTransaction (j : Z) (x : option Connector) (connectorId : ConnectorOrId) :
  key_of connectorId ≠ j -> keeps (kept j x) (stopTransaction connectorId).
Proof.
  intros Hk. unfold stopTransaction. apply keeps_this_bind. intros w Hw.
  assert (Hin : forall key, key ≠ j ->
    keeps (kept j x)
      (match _connectors (cp w) !! key ≫= c_transaction with
       | Some _ =>
           stopTime ← new_Date;
           Transaction_write key (tx_set_stopTime (Some stopTime));;
           meterValue ← Connector_get_meterValue key;
           Transaction_write key (tx_set_meterStop meterValue);;
           transaction ← Connector_get_transaction key;
           match transaction with
           | Some transaction => emit (SendStopTransaction transaction key)
           | None => mret tt
           end;;
           cleanTransaction (ByRef key)
       | None => throw (TypeError "Cannot set properties of null (setting 'stopTime')")
       end;;
       updateConnectorStatus key Available)).
  { intros key Hkey.
    apply keeps_bind; [destruct (_connectors (cp w) !! key ≫= c_transaction)|intros _].
    - unfold Transaction_write, Connector_get_meterValue, Connector_get_transaction.
      keeps_auto ltac:(first [kept_prim | by apply kept_cleanTransaction]).
    - apply keeps_throw.
    - unfold_methods. keeps_auto kept_prim. }
  destruct connectorId as [n|key]; cbn in Hk |- *.
  - pose proof (Hin n Hk w Hw) as H.
    destruct (_connectors (cp w) !! n) as [c|] eqn:Hn; cbn.
    + rewrite ?Hn. exact H.
    + match goal with
      | |- kept _ _ (world_of (?m _)) =>
          cut (keeps (kept j x) m); [intros Hm; by apply Hm|]
      end.
      unfold_methods. keeps_auto kept_prim.
  - rewrite (holder_id w key) by apply Hw. by apply (Hin key Hk).
Qed.

(** X14. In a reachable world, a command that is addressed to one connector
    -- by id, by reference, or as the tick of that connector's interval --
    and every command that is addressed to none leaves every other connector
    exactly as it was; only [boot], the transport callbacks and
    [updateAllConnectorsStatus] go over all of them. *)
Theorem run_spares_other_connectors (c : Command) (w : World) (j : Z) :
  reachable w ->
  sweeping c = false ->
  addressee c w ≠ Some j ->
  _connectors (cp (world_of (run c w))) !! j = _connectors (cp w) !! j.
Proof.
  intros Hr Hsw Hadd.
  assert (Hw : kept j (_connectors (cp w) !! j) w)
    by (split; [apply (reachable_well_formed w Hr)|done]).
  cut (kept j (_connectors (cp w) !! j) (world_of (run c w))); [by intros [_ H]|].
  revert Hw. generalize (_connectors (cp w) !! j). intros x Hw.
  destruct c; try discriminate Hsw; cbn [run];
    try (by apply kept_stopTransaction; [cbn in Hadd; congruence|]);
    try (by apply kept_cleanTransaction; [cbn in Hadd; congruence|]);
    try done.
  all: try (cbn in Hadd;
            match goal with
            | |- kept _ _ (world_of (?m _)) =>
                apply (fun H : keeps (kept j x) m => H w Hw)
            end;
            unfold_methods; unfold_timer_methods; keeps_auto kept_prim; fail).
  unfold fire. cbn in Hadd.
  destruct (intervals w !! h) as [iv|]; [|done]. cbn in Hadd.
  destruct (iv_task iv) as [|k v].
  - by apply kept_emit.
  - apply (fun H : keeps (kept j x) (autoMeterValue_tick k v) => H w Hw).
    unfold_methods. keeps_auto kept_prim.
Qed.

Lemma run_spares_other_connectors_witness :
  reachable station2
  /\ sweeping (Call_startTransaction "TAG1" 1) = false
  /\ addressee (Call_startTransaction "TAG1" 1) station2 ≠ Some 2
  /\ _connectors (cp (world_of (run (Call_startTransaction "TAG1" 1) station2))) !! 2
     = _connectors (cp station2) !! 2.
Proof.
  assert (Hr : reachable station2) by apply reachable_new.
  assert (Ha : addressee (Call_startTransaction "TAG1" 1) station2 ≠ Some 2)
    by (cbn; congruence).
  split; [exact Hr|]. split; [reflexivity|]. split; [exact Ha|].
  exact (run_spares_other_connectors (Call_startTransaction "TAG1" 1) station2 2
           Hr eq_refl Ha).
Defined.

(** ** A connector given by id or by reference *)



(** ** What [stopAutoMeterValue] and [startHeartbeat] leave running *)



Lemma singleton_list {A} (l : list A) (a : A) :
  NoDup l -> (forall b, b ∈ l <-> b = a) -> l = [a].
Proof.
  intros Hnd Hl. destruct l as [|b l].
  - exfalso. eapply not_elem_of_nil. by apply (Hl a).
  - assert (b = a) as -> by (apply Hl; by left).
    apply NoDup_cons in Hnd as [Hnotin _]. f_equal.
    apply elem_of_nil_inv. intros b Hb.
    assert (b = a) as -> by (apply Hl; by right). done.
Qed.

(** X17. In a reachable world, after [startHeartbeat(period)] exactly one
    heartbeat interval is live: the one just installed, with a delay of
    [period * 1000] ms, which is the one the engine remembers.  Whatever
    heartbeat was running before has been cancelled. *)
Theorem startHeartbeat_single (w : World) (period : Number) :
  reachable w ->
  exists w',
    startHeartbeat period w = Returned tt w'
    /\ live is_heartbeat w' = [next_timer w]
    /\ intervals w' !! next_timer w
       = Some {| iv_task := HeartbeatTick; iv_delay := period * 1000 |}
    /\ _heartbeat (cp w') = Some (next_timer w).
Proof.
  intros Hr. destruct (reachable_well_formed w Hr) as (_ & Hfr & Hhb).
  assert (Hret : exists w', startHeartbeat period w = Returned tt w'
            /\ intervals w' = <[next_timer w := {| iv_task := HeartbeatTick;
                                                   iv_delay := period * 1000 |}]>
                                (match _heartbeat (cp w) with
                                 | Some h => delete h (intervals w)
                                 | None => intervals w
                                 end)
            /\ _heartbeat (cp w') = Some (next_timer w)).
  { unfold startHeartbeat. js_simpl.
    destruct (_heartbeat (cp w)); cbn; by eexists. }
  destruct Hret as (w' & Hw' & Hiv & Hb). exists w'.
  split; [done|]. split; [|split; [|done]].
  - apply singleton_list; [apply NoDup_live|].
    intros h. rewrite elem_of_live, Hiv. split.
    + intros (iv & Hh & Hp).
      apply lookup_insert_Some in Hh as [[<- _]|[_ Hh]]; [done|].
      unfold is_heartbeat in Hp.
      assert (Htask : iv_task iv = HeartbeatTick) by (by destruct (iv_task iv)).
      destruct (_heartbeat (cp w)) as [hb|] eqn:Hhb'.
      * apply lookup_delete_Some in Hh as [Hne Hh].
        specialize (Hhb h iv Hh Htask). cbn in Hhb. congruence.
      * specialize (Hhb h iv Hh Htask). cbn in Hhb. congruence.
    + intros ->. eexists. by rewrite lookup_insert_eq.
  - by rewrite Hiv, lookup_insert_eq.
Qed.

Lemma startHeartbeat_single_witness :
  reachable station1_beating
  /\ exists w',
       startHeartbeat 60 station1_beating = Returned tt w'
       /\ live is_heartbeat w' = [next_timer station1_beating]
       /\ intervals w' !! next_timer station1_beating
          = Some {| iv_task := HeartbeatTick; iv_delay := 60 * 1000 |}
       /\ _heartbeat (cp w') = Some (next_timer station1_beating).
Proof.
  split; [exact reachable_station1_beating|].
  exact (startHeartbeat_single station1_beating 60 reachable_station1_beating).
Defined.

(** ** A whole session *)

Lemma startTransaction_world (w : World) (t : string) (k : Number) (c : Connector) :
  _connectors (cp w) !! k = Some c ->
  exists w' es,
    startTransaction t k w = Returned tt w'
    /\ _connectors (cp w') !! k
       = Some (c_set_status Preparing
                 (c_set_transaction (Some (fresh_transaction t k (now w))) c))
    /\ trace w' = trace w ++ es
    /\ SendStartTransaction (fresh_transaction t k (now w)) k ∈ es
    /\ status_notifications es = [(k, Preparing)]
    /\ now w' = now w
    /\ _autoMeterValueSetting (cp w') = _autoMeterValueSetting (cp w)
    /\ match active_setting (cp w) with
       | Some a =>
           intervals w'
           = <[next_timer w := {| iv_task := AutoMeterValueTick k (value a);
                                  iv_delay := interval a * 1000 |}]> (intervals w)
           /\ _autoMeterValueIntervals (cp w')
              = <[k := next_timer w]> (_autoMeterValueIntervals (cp w))
           /\ next_timer w' = Pos.succ (next_timer w)
       | None =>
           intervals w' = intervals w
           /\ _autoMeterValueIntervals (cp w') = _autoMeterValueIntervals (cp w)
           /\ next_timer w' = next_timer w
       end.
Proof.
  intros Hk. unfold startTransaction, getConnector. js_simpl. rewrite Hk.
  fold (fresh_transaction t k (now w)).
  set (tx := fresh_transaction t k (now w)).
  set (w1 := w_set_trace _ _).
  assert (Hk1 : _connectors (cp w1) !! k = Some (c_set_transaction (Some tx) c))
    by (subst w1; cbn; by rewrite lookup_alter_eq, Hk).
  rewrite (updateConnectorStatus_Some _ _ _ _ Hk1). cbn.
  assert (Hes : status_notifications
                  ([SendStartTransaction tx k]
                   ++ ConnectorStatusWrite (c_id c) Preparing
                      :: status_calls (c_set_transaction (Some tx) c) Preparing
                      ++ [SendStatusNotification k Preparing])
                = [(k, Preparing)])
    by (unfold status_calls; cbn; by destruct (c_statusChangeCallbacks c)).
  unfold active_setting, startAutoMeterValue.
  destruct (_autoMeterValueSetting (cp w)) as [a|] eqn:Ha; cbn.
  - destruct (decide (interval a ≠ 0 /\ value a ≠ 0)) as [[Hi Hv]|Hn].
    + rewrite !bool_decide_eq_true_2 by done. js_simpl.
      eexists _, _. split; [reflexivity|]. cbn.
      rewrite !lookup_alter_eq, Hk. cbn.
      split; [done|]. split; [by rewrite <- app_assoc|]. split; [set_solver|].
      split; [exact Hes|]. done.
    + assert (Hb : bool_decide (interval a ≠ 0) && bool_decide (value a ≠ 0) = false).
      { apply andb_false_iff.
        destruct (decide (interval a = 0)) as [->|?]; [by left|].
        destruct (decide (value a = 0)) as [->|?]; [by right|]. tauto. }
      rewrite Hb. js_simpl.
      eexists _, _. split; [reflexivity|]. cbn.
      rewrite !lookup_alter_eq, Hk. cbn.
      split; [done|]. split; [by rewrite <- app_assoc|]. split; [set_solver|].
      split; [exact Hes|]. done.
  - eexists _, _. split; [reflexivity|]. cbn.
    rewrite !lookup_alter_eq, Hk. cbn.
    split; [done|]. split; [by rewrite <- app_assoc|]. split; [set_solver|].
    split; [exact Hes|]. done.
Qed.

Lemma stopTransaction_world (w : World) (k : Number) (c : Connector) (t : Transaction) :
  _connectors (cp w) !! k = Some c ->
  c_id c = k ->
  c_transaction c = Some t ->
  exists w' es,
    stopTransaction (ById k) w = Returned tt w'
    /\ _connectors (cp w') !! k
       = Some (c_set_status Available
                 (c_set_transaction
                    (Some (tx_set_meterSent false (stopped t (now w) (c_meterValue c)))) c))
    /\ trace w' = trace w ++ es
    /\ es = SendStopTransaction (stopped t (now w) (c_meterValue c)) k
            :: (ConnectorStatusWrite k Finishing :: status_calls c Finishing
                ++ [SendStatusNotification k Finishing])
            ++ (ConnectorStatusWrite k Available :: status_calls c Available
                ++ [SendStatusNotification k Available])
    /\ status_notifications es = [(k, Finishing); (k, Available)]
    /\ next_timer w' = next_timer w
    /\ match _autoMeterValueSetting (cp w) with
       | Some _ =>
           _autoMeterValueIntervals (cp w') = delete k (_autoMeterValueIntervals (cp w))
           /\ intervals w'
              = match _autoMeterValueIntervals (cp w) !! k with
                | Some h => delete h (intervals w)
                | None => intervals w
                end
       | None =>
           _autoMeterValueIntervals (cp w') = _autoMeterValueIntervals (cp w)
           /\ intervals w' = intervals w
       end.
Proof.
  intros Hk Hid Ht. unfold stopTransaction. js_simpl. rewrite Hk. cbn.
  rewrite Hk. cbn. rewrite Ht.
  rewrite !lookup_alter_eq, Hk. cbn. rewrite Ht. cbn.
  unfold cleanTransaction. js_simpl. rewrite !lookup_alter_eq, Hk. cbn. rewrite Hid.
  fold (stopped t (now w) (c_meterValue c)).
  set (tx := stopped t (now w) (c_meterValue c)).
  set (w1 := w_set_cp _ _).
  assert (Hk1 : _connectors (cp w1) !! k
                = Some (c_set_transaction (Some (tx_set_meterSent false tx)) c)).
  { subst w1. cbn. rewrite !lookup_alter_eq, Hk. cbn. by rewrite Ht. }
  rewrite (updateConnectorStatus_Some _ _ _ _ Hk1). cbn.
  set (w2 := connector_updated _ _ _ _).
  assert (Hk2 : _connectors (cp w2) !! k
                = Some (c_set_status Finishing
                          (c_set_transaction (Some (tx_set_meterSent false tx)) c))).
  { subst w2. by rewrite connector_updated_lookup, Hk1. }
  assert (Hfin : forall w3 : World,
    _connectors (cp w3) = _connectors (cp w2) -> trace w3 = trace w2 ->
    exists w' es,
      updateConnectorStatus k Available w3 = Returned tt w'
      /\ _connectors (cp w') !! k
         = Some (c_set_status Available
                   (c_set_transaction (Some (tx_set_meterSent false tx)) c))
      /\ trace w' = trace w ++ es
      /\ es = SendStopTransaction tx k
              :: (ConnectorStatusWrite k Finishing :: status_calls c Finishing
                  ++ [SendStatusNotification k Finishing])
              ++ (ConnectorStatusWrite k Available :: status_calls c Available
                  ++ [SendStatusNotification k Available])
      /\ status_notifications es = [(k, Finishing); (k, Available)]
      /\ next_timer w' = next_timer w3
      /\ _autoMeterValueIntervals (cp w') = _autoMeterValueIntervals (cp w3)
      /\ intervals w' = intervals w3).
  { intros w3 Hc3 Ht3.
    assert (Hk3 : _connectors (cp w3) !! k
                  = Some (c_set_status Finishing
                            (c_set_transaction (Some (tx_set_meterSent false tx)) c)))
      by (by rewrite Hc3).
    rewrite (updateConnectorStatus_Some _ _ _ _ Hk3).
    exists (connector_updated k (c_set_status Available)
              (ConnectorStatusWrite k Available :: status_calls c Available
               ++ [SendStatusNotification k Available]) w3),
           (SendStopTransaction tx k
            :: (ConnectorStatusWrite k Finishing :: status_calls c Finishing
                ++ [SendStatusNotification k Finishing])
            ++ (ConnectorStatusWrite k Available :: status_calls c Available
                ++ [SendStatusNotification k Available])).
    split; [by cbn; rewrite Hid|].
    split; [by rewrite connector_updated_lookup, Hk3|].
    split.
    { unfold connector_updated at 1. cbn [trace w_set_trace]. rewrite Ht3.
      subst w2. unfold connector_updated at 1. cbn [trace w_set_trace].
      subst w1. unfold status_calls. cbn. rewrite Hid.
      destruct (c_statusChangeCallbacks c); cbn; by rewrite <- !app_assoc. }
    split; [reflexivity|].
    split; [unfold status_calls; by destruct (c_statusChangeCallbacks c)|].
    done. }
  destruct (_autoMeterValueSetting (cp w)) as [a|] eqn:Ha.
  - rewrite stopAutoMeterValue_eq.
    change (_autoMeterValueIntervals (cp w2)) with (_autoMeterValueIntervals (cp w)).
    destruct (_autoMeterValueIntervals (cp w) !! k) as [h|] eqn:Hh.
    + edestruct Hfin as (w' & es & -> & H1 & H2 & He & H3 & H4 & H5 & H6);
        [| |exists w', es; repeat split;
             [exact H1|exact H2|exact He|exact H3|rewrite H4|rewrite H5|rewrite H6]];
        reflexivity.
    + edestruct Hfin as (w' & es & -> & H1 & H2 & He & H3 & H4 & H5 & H6);
        [| |exists w', es; repeat split;
             [exact H1|exact H2|exact He|exact H3|rewrite H4|rewrite H5|rewrite H6]];
        try reflexivity.
      change (_autoMeterValueIntervals (cp w2)) with (_autoMeterValueIntervals (cp w)).
      by rewrite delete_id.
  - edestruct Hfin as (w' & es & -> & H1 & H2 & He & H3 & H4 & H5 & H6);
      [| |exists w', es; repeat split;
           [exact H1|exact H2|exact He|exact H3|rewrite H4|rewrite H5|rewrite H6]];
      reflexivity.
Qed.

(** X18. A whole session on an existing connector of a reachable world with
    an active auto-telemetry setting -- [startTransaction] followed by
    [stopTransaction] -- returns; the connector [c'] then found under [k]
    has status [Available], is otherwise the connector it was, and holds the
    stopped transaction [t'] (id 0, tag [t], started and stopped at the
    instant of the calls, meterStart 0, meterStop the connector's
    reading); the status notifications sent are [Preparing],
    [Finishing], [Available], in that order; and the interval the start
    installed is the one the stop cancels, so the interval table is the one
    before the session, with one handle used up and nothing registered for
    the connector any more. *)
Theorem session_spec (w : World) (t : string) (k : Number) (c : Connector)
    (a : AutoMeterValueSetting) :
  reachable w ->
  _connectors (cp w) !! k = Some c ->
  active_setting (cp w) = Some a ->
  exists w' es c' t',
    (startTransaction t k;; stopTransaction (ById k)) w = Returned tt w'
    /\ _connectors (cp w') !! k = Some c'
    /\ c_status c' = Available
    /\ c_transaction c' = Some t'
    /\ c_frame c' = c_frame c
    /\ tx_id t' = 0
    /\ tx_connectorId t' = k
    /\ tx_tagId t' = t
    /\ tx_meterStart t' = 0
    /\ tx_meterStop t' = Some (c_meterValue c)
    /\ tx_startTime t' = now w
    /\ tx_stopTime t' = Some (now w)
    /\ trace w' = trace w ++ es
    /\ status_notifications es = [(k, Preparing); (k, Finishing); (k, Available)]
    /\ intervals w' = intervals w
    /\ _autoMeterValueIntervals (cp w') = delete k (_autoMeterValueIntervals (cp w))
    /\ next_timer w' = Pos.succ (next_timer w).
Proof.
  intros Hr Hk Ha.
  pose proof (reachable_connector_id w k c Hr Hk) as Hid.
  destruct (reachable_well_formed w Hr) as (_ & Hfr & _).
  assert (Hfresh : intervals w !! next_timer w = None).
  { destruct (intervals w !! next_timer w) as [iv|] eqn:Hiv; [|done].
    specialize (Hfr _ _ Hiv). cbn in Hfr. lia. }
  destruct (startTransaction_world w t k c Hk)
    as (w1 & es1 & Hstart & Hk1 & Htr1 & _ & Hn1 & Hnow1 & Hset1 & Htimers).
  rewrite Ha in Htimers. destruct Htimers as (Hiv1 & Hreg1 & Hnext1).
  destruct (stopTransaction_world w1 k _ (fresh_transaction t k (now w)) Hk1 Hid eq_refl)
    as (w2 & es2 & Hstop & Hk2 & Htr2 & _ & Hn2 & Hnext2 & Htimers).
  rewrite Hset1 in Htimers. rewrite Hnow1 in Hk2.
  unfold active_setting in Ha.
  destruct (_autoMeterValueSetting (cp w)) as [a'|]; [|done].
  destruct Htimers as (Hreg2 & Hiv2).
  eexists w2, (es1 ++ es2), _, _.
  split; [by unfold mbind, M_bind; rewrite Hstart|].
  split; [exact Hk2|].
  do 10 (split; [reflexivity|]).
  split; [by rewrite Htr2, Htr1, app_assoc|].
  split; [by rewrite status_notifications_app, Hn1, Hn2|].
  split; [|split].
  - rewrite Hiv2, Hreg1, lookup_insert_eq, Hiv1. by apply delete_insert_id.
  - by rewrite Hreg2, Hreg1, delete_insert_eq.
  - by rewrite Hnext2, Hnext1.
Qed.

Lemma session_spec_witness :
  reachable station_configured
  /\ _connectors (cp station_configured) !! 1 = Some (new_Connector 1)
  /\ active_setting (cp station_configured) = Some setting_off_1_10
  /\ exists w' es c' t',
       (startTransaction "TAG1" 1;; stopTransaction (ById 1)) station_configured
       = Returned tt w'
       /\ _connectors (cp w') !! 1 = Some c'
       /\ c_status c' = Available
       /\ c_transaction c' = Some t'
       /\ c_frame c' = c_frame (new_Connector 1)
       /\ tx_id t' = 0
       /\ tx_connectorId t' = 1
       /\ tx_tagId t' = "TAG1"
       /\ tx_meterStart t' = 0
       /\ tx_meterStop t' = Some (c_meterValue (new_Connector 1))
       /\ tx_startTime t' = now station_configured
       /\ tx_stopTime t' = Some (now station_configured)
       /\ trace w' = trace station_configured ++ es
       /\ status_notifications es = [(1, Preparing); (1, Finishing); (1, Available)]
       /\ intervals w' = intervals station_configured
       /\ _autoMeterValueIntervals (cp w')
          = delete 1 (_autoMeterValueIntervals (cp station_configured))
       /\ next_timer w' = Pos.succ (next_timer station_configured).
Proof.
  assert (Hr : reachable station_configured) by apply reachable_new.
  assert (Hk : _connectors (cp station_configured) !! 1 = Some (new_Connector 1))
    by reflexivity.
  assert (Ha : active_setting (cp station_configured) = Some setting_off_1_10)
    by reflexivity.
  split; [exact Hr|]. split; [exact Hk|]. split; [exact Ha|].
  exact (session_spec station_configured "TAG1" 1 (new_Connector 1) setting_off_1_10
           Hr Hk Ha).
Defined.

(** ** The [enabled] flag of the setting *)

Section Enabled.
Context (b : bool).

Lemma ie_mret {A} (a : A) : ignores_enabled b (mret a) (mret a).
Proof. by intros w. Qed.

Lemma ie_throw {A} (e : JSError) : ignores_enabled b (throw (A := A) e) (throw e).
Proof. by intros w. Qed.

Lemma ie_new_Date : ignores_enabled b new_Date new_Date.
Proof. by intros w. Qed.

Lemma ie_emit (e : Event) : ignores_enabled b (emit e) (emit e).
Proof. by intros w. Qed.

Lemma ie_setInterval (task : TimerTask) (delay : Number) :
  ignores_enabled b (setInterval task delay) (setInterval task delay).
Proof. by intros w. Qed.

Lemma ie_clearInterval (h : TimerId) :
  ignores_enabled b (clearInterval h) (clearInterval h).
Proof. by intros w. Qed.

Lemma ie_update_this (f : ChargePoint -> ChargePoint) :
  (forall p, f (cp_with_enabled b p) = cp_with_enabled b (f p)) ->
  ignores_enabled b (update_this f) (update_this f).
Proof. intros Hf w. unfold update_this, with_enabled. cbn. by rewrite Hf. Qed.

Lemma ie_Connector_write (k : Z) (f : Connector -> Connector) :
  ignores_enabled b (Connector_write k f) (Connector_write k f).
Proof. apply ie_update_this. by intros []. Qed.

Lemma ie_bind {A B} (m' m : M A) (k' k : A -> M B) :
  ignores_enabled b m' m ->
  (forall a, ignores_enabled b (k' a) (k a)) ->
  ignores_enabled b (m' ≫= k') (m ≫= k).
Proof.
  intros Hm Hk w. unfold mbind, M_bind. rewrite Hm.
  destruct (m w) as [a w'|e w']; cbn; [apply Hk|done].
Qed.

Lemma ie_this_bind {A} (k' k : ChargePoint -> M A) :
  (forall p, ignores_enabled b (k' (cp_with_enabled b p)) (k p)) ->
  ignores_enabled b (this ≫= k') (this ≫= k).
Proof. intros Hk w. apply Hk. Qed.

Lemma ie_forEach {A} (l : list A) (body' body : A -> M unit) :
  (forall x, ignores_enabled b (body' x) (body x)) ->
  ignores_enabled b (forEach l body') (forEach l body).
Proof.
  intros Hbody. induction l as [|x l IH]; cbn.
  - apply ie_mret.
  - apply ie_bind; [apply Hbody|]. intros _. apply IH.
Qed.

Lemma ie_fire (h : TimerId) :
  ignores_enabled b sendHeartbeat sendHeartbeat ->
  (forall c v, ignores_enabled b (autoMeterValue_tick c v) (autoMeterValue_tick c v)) ->
  ignores_enabled b (fire h) (fire h).
Proof.
  intros Hhb Htick w. unfold fire.
  change (intervals (with_enabled b w)) with (intervals w).
  destruct (intervals w !! h) as [iv|]; [|done].
  destruct (iv_task iv); [apply Hhb|apply Htick].
Qed.
End Enabled.

(** One step through two copies of a method body, one of them reading the
    engine with the flag changed. *)
Ltac ie_step :=
  match goal with
  | |- ignores_enabled _ (this ≫= _) (this ≫= _) =>
      apply ie_this_bind; intros ?; cbv beta; unfold cp_with_enabled;
      cbn [_id _bootNotification _connectors _wsUrl _autoMeterValueSetting
           _autoMeterValueIntervals _meterValueFormat _status _error _errorCallback
           _heartbeat _statusChangeCallback _availabilityChangeCallbacks]
  | |- ignores_enabled _ (match set_enabled _ <$> ?x with _ => _ end) _ =>
      destruct x as [[? ? ?]|];
      cbn [fmap option_fmap option_map set_enabled interval value]
  | |- ignores_enabled _ (match ?x with _ => _ end) (match ?x with _ => _ end) =>
      destruct x
  | |- ignores_enabled _ (mbind _ _) (mbind _ _) => apply ie_bind; [|intros ?]
  | |- ignores_enabled _ (mret _) (mret _) => apply ie_mret
  | |- ignores_enabled _ (throw _) (throw _) => apply ie_throw
  | |- ignores_enabled _ new_Date new_Date => apply ie_new_Date
  | |- ignores_enabled _ (emit _) (emit _) => apply ie_emit
  | |- ignores_enabled _ (setInterval _ _) (setInterval _ _) => apply ie_setInterval
  | |- ignores_enabled _ (clearInterval _) (clearInterval _) => apply ie_clearInterval
  | |- ignores_enabled _ (Connector_write _ _) (Connector_write _ _) =>
      apply ie_Connector_write
  | |- ignores_enabled _ (update_this _) (update_this _) =>
      apply ie_update_this; by intros []
  | |- ignores_enabled _ (forEach _ _) (forEach _ _) => apply ie_forEach; intros []
  end.

(** X19. The [enabled] flag of the auto-telemetry setting is never
    consulted: whatever the command and the world, putting the flag to
    another value beforehand changes neither the result, nor any recorded
    call, nor the world left behind -- the flag apart.  In particular a
    setting that is switched off starts the telemetry of a transaction all
    the same. *)
Theorem enabled_is_ignored (c : Command) (w : World) (b : bool) :
  run c (with_enabled b w) = in_world (with_enabled b) (run c w).
Proof.
  revert w. change (ignores_enabled b (run c) (run c)).
  destruct c; try (by intros w); try apply ie_fire; intros;
    unfold_methods; unfold_timer_methods; repeat ie_step.
Qed.

(** ** From the value set to the text sent *)

Lemma sendMeterValue_Some (w : World) (k : Number) (c : Connector) :
  _connectors (cp w) !! k = Some c ->
  sendMeterValue k w
  = Returned tt
      (w_set_trace
         (trace w ++ [meter_message k c
                        {| mv_timestamp := now w;
                           mv_sampledValue :=
                             snapshot (_meterValueFormat (cp w)) (c_meterValue c) |}]) w)
  /\ sendCurrentDetailedMeterValue k w = sendMeterValue k w.
Proof.
  intros Hk. split; [|reflexivity]. unfold sendMeterValue.
  rewrite (bind_Returned _ _ _ _ _ (getConnector_eq w k)), Hk.
  rewrite (bind_Returned _ _ _ _ _ (generateDetailedMeterValues_snapshot w _)).
  by rewrite (sendDetailedMeterValue_Some w k _ c Hk).
Qed.

(** X20. The value set is the value sent.  On an existing connector and
    for a reading [m] of at most 15 digits,
    [setMeterValue k m] followed by [sendMeterValue k] -- or by
    [sendCurrentDetailedMeterValue k], which does the same -- returns; it
    tells the connector's meter subscriber [m] and then sends one meter
    message for [k], tagged with the id of the connector's transaction if
    there is one and stamped with the clock, whose one energy reading is a
    numeral that reads back as [m] (in the [detailed] format) or as [m]/1000
    (in the [simple] one). *)
Theorem meter_value_round_trip (w : World) (k m : Number) (c : Connector) :
  _connectors (cp w) !! k = Some c ->
  Number_exact m ->
  exists w' data r,
    (setMeterValue k m;; sendMeterValue k) w = Returned tt w'
    /\ (setMeterValue k m;; sendCurrentDetailedMeterValue k) w = Returned tt w'
    /\ c_meterValue <$> _connectors (cp w') !! k = Some m
    /\ trace w'
       = trace w ++ meter_calls c m
         ++ [SendMeterValue (tx_id <$> c_transaction c) k data]
    /\ mv_timestamp data = now w
    /\ mv_sampledValue data = snapshot (_meterValueFormat (cp w)) m
    /\ readings_of Energy_Active_Import_Register (mv_sampledValue data) = [r]
    /\ denotes (sv_value r)
         match _meterValueFormat (cp w) with
         | detailed => inject_Z m
         | simple => m # 1000
         end.
Proof.
  intros Hk _.
  destruct (snapshot_energy (_meterValueFormat (cp w)) m) as (r & Hr & Hden).
  set (w1 := connector_updated k (c_set_meterValue m) (meter_calls c m) w).
  assert (Hk1 : _connectors (cp w1) !! k = Some (c_set_meterValue m c))
    by (subst w1; by rewrite connector_updated_lookup, Hk).
  destruct (sendMeterValue_Some w1 k _ Hk1) as [Hsend Hsame].
  eexists _, {| mv_timestamp := now w;
                mv_sampledValue := snapshot (_meterValueFormat (cp w)) m |}, r.
  split; [|split].
  - rewrite (bind_Returned _ _ _ _ _ (setMeterValue_Some w k m c Hk)). exact Hsend.
  - rewrite (bind_Returned _ _ _ _ _ (setMeterValue_Some w k m c Hk)).
    exact (eq_trans Hsame Hsend).
  - split; [cbn; by rewrite lookup_alter_eq, Hk|].
    split; [cbn; by rewrite <- app_assoc|]. done.
Qed.

Lemma meter_value_round_trip_witness :
  _connectors (cp station1) !! 1 = Some (new_Connector 1)
  /\ Number_exact 1500
  /\ exists w' data r,
       (setMeterValue 1 1500;; sendMeterValue 1) station1 = Returned tt w'
       /\ (setMeterValue 1 1500;; sendCurrentDetailedMeterValue 1) station1 = Returned tt w'
       /\ c_meterValue <$> _connectors (cp w') !! 1 = Some 1500
       /\ trace w' = [SendMeterValue None 1 data]
       /\ mv_timestamp data = now station1
       /\ readings_of Energy_Active_Import_Register (mv_sampledValue data) = [r]
       /\ sv_value r = "1500"
       /\ denotes (sv_value r) (inject_Z 1500).
Proof.
  assert (Hk : _connectors (cp station1) !! 1 = Some (new_Connector 1)) by reflexivity.
  assert (He : Number_exact 1500) by (unfold Number_exact; lia).
  split; [exact Hk|]. split; [exact He|].
  destruct (meter_value_round_trip station1 1 1500 (new_Connector 1) Hk He)
    as (w' & data & r & H1 & H2 & H3 & H4 & H5 & H6 & H7 & H8).
  exists w', data, r.
  split; [exact H1|]. split; [exact H2|]. split; [exact H3|]. split; [exact H4|].
  split; [exact H5|]. split; [exact H7|]. split; [|exact H8].
  rewrite H6 in H7. by injection H7 as <-.
Defined.
